(** * Clinic booking bot: the appointment store and the booking/edit wizards

    A shallow embedding of [src/main.py]: the [Database] class (the
    appointment and user store with its whole-file persistence), the
    keyboards that offer dates and times, and the handlers of the booking
    wizard and of the administrator's edit flows, followed by the
    properties of the specification that concern them. *)

From Stdlib Require Import ZArith NArith List Ascii String Bool Lia.
From stdpp Require Import base option list gmap pretty.
Import ListNotations.

Local Open Scope Z_scope.

(** ** Python strings

    A Python [str] is a sequence of Unicode code points: [len] counts code
    points and [==] compares them one by one.  The literals of the source
    file are written here as UTF-8 byte strings and decoded by [u]. *)

Abbreviation pystr := (list N).

Fixpoint utf8_decode (bs : list N) : list N :=
  match bs with
  | [] => []
  | b0 :: r0 =>
      if (b0 <? 128)%N then b0 :: utf8_decode r0
      else if (b0 <? 224)%N then
        match r0 with
        | b1 :: r1 => ((b0 - 192) * 64 + (b1 - 128))%N :: utf8_decode r1
        | [] => []
        end
      else if (b0 <? 240)%N then
        match r0 with
        | b1 :: b2 :: r2 =>
            ((b0 - 224) * 4096 + (b1 - 128) * 64 + (b2 - 128))%N
              :: utf8_decode r2
        | _ => []
        end
      else
        match r0 with
        | b1 :: b2 :: b3 :: r3 =>
            ((b0 - 240) * 262144 + (b1 - 128) * 4096
             + (b2 - 128) * 64 + (b3 - 128))%N :: utf8_decode r3
        | _ => []
        end
  end.

Definition u (s : string) : pystr :=
  utf8_decode (map N_of_ascii (list_ascii_of_string s)).
Arguments u s : simpl never.

(** [str(n)] for a Python [int]: its decimal rendering. *)
Definition str_of_int (n : Z) : pystr := u (pretty n).

(** [len(s)] *)
Definition len (s : pystr) : Z := Z.of_nat (length s).

(** [str.isspace] on one code point: the code points CPython treats as
    white space. *)
Definition isspace (c : N) : bool :=
  ((9 <=? c) && (c <=? 13) || (28 <=? c) && (c <=? 32)
   || (c =? 133) || (c =? 160) || (c =? 5760)
   || (8192 <=? c) && (c <=? 8202)
   || (c =? 8232) || (c =? 8233) || (c =? 8239) || (c =? 8287)
   || (c =? 12288))%N.

Fixpoint lstrip (s : pystr) : pystr :=
  match s with
  | c :: s' => if isspace c then lstrip s' else s
  | [] => []
  end.

(** [s.strip()] *)
Definition strip (s : pystr) : pystr := rev (lstrip (rev (lstrip s))).

(** ** Exceptions and the state-and-exception monad

    A method or handler runs on a mutable state and either returns or
    raises; what it did to the state before raising stays done. *)

Inductive exn :=
| OSError
| KeyError (key : pystr)
| AttributeError.

Inductive result (A : Type) :=
| Ok (a : A)
| Raise (e : exn).
Arguments Ok {A} a.
Arguments Raise {A} e.

Section StateExn.
Context {S : Type}.

Definition M (A : Type) : Type := S -> S * result A.

Definition ret {A} (a : A) : M A := fun s => (s, Ok a).

Definition bind {A B} (m : M A) (k : A -> M B) : M B :=
  fun s =>
    match m s with
    | (s', Ok a) => k a s'
    | (s', Raise e) => (s', Raise e)
    end.

Definition raise {A} (e : exn) : M A := fun s => (s, Raise e).
Definition gets {A} (f : S -> A) : M A := fun s => (s, Ok (f s)).
Definition modify (f : S -> S) : M unit := fun s => (f s, Ok tt).
End StateExn.
Arguments M S A : clear implicits.

Notation "x <- m ;; k" := (bind m (fun x => k))
  (at level 100, m at next level, right associativity).
Notation "m ;;; k" := (bind m (fun _ => k))
  (at level 100, right associativity).

(** ** The appointment store ([class Database]) *)

Record Appointment := mkAppointment {
  apt_id : Z;
  apt_user_id : Z;
  apt_patient_name : pystr;
  apt_doctor : pystr;
  apt_procedure : pystr;
  apt_date : pystr;
  apt_time : pystr;
  apt_created_at : pystr;
  apt_status : pystr
}.

Record User := mkUser {
  usr_username : option pystr;
  usr_first_name : pystr;
  usr_registered_at : pystr
}.

(** [self.data]: the document with its three top-level fields. *)
Record Data := mkData {
  appointments : list Appointment;
  users : gmap pystr User;
  next_id : Z
}.

(** The store object: the document in memory, and [file], the document
    that the last write that succeeded stored in [self.filename].  What a
    write that fails leaves in the file is not modelled. *)
Record Database := mkDatabase {
  data : Data;
  file : option Data
}.

(** What a call finds outside the program: the clock
    ([datetime.now().isoformat()]) and whether the file can be written. *)
Record Env := mkEnv {
  now_isoformat : pystr;
  writable : bool
}.

Definition active : pystr := u "active".
Definition deleted : pystr := u "deleted".
Arguments active : simpl never.
Arguments deleted : simpl never.

(** [load_data] when the file does not exist. *)
Definition empty_data : Data :=
  {| appointments := []; users := ∅; next_id := 1 |}.

Definition save_data (env : Env) : M Database unit :=
  fun self =>
    if writable env
    then ({| data := data self; file := Some (data self) |}, Ok tt)
    else (self, Raise OSError).

(** [__init__] and [load_data]: [stored] is what the file holds at
    start-up, [None] when it does not exist. *)
Definition load_data (env : Env) (stored : option Data)
    : Database * result unit :=
  match stored with
  | Some d => ({| data := d; file := Some d |}, Ok tt)
  | None => save_data env {| data := empty_data; file := None |}
  end.

Definition set_data (f : Data -> Data) : M Database unit :=
  modify (fun self => {| data := f (data self); file := file self |}).

Definition add_user (env : Env) (user_id : Z) (username : option pystr)
    (first_name : pystr) : M Database unit :=
  fun self =>
    match users (data self) !! str_of_int user_id with
    | None =>
        (set_data (fun d =>
           {| appointments := appointments d;
              users := <[str_of_int user_id :=
                         {| usr_username := username;
                            usr_first_name := first_name;
                            usr_registered_at := now_isoformat env |}]>
                       (users d);
              next_id := next_id d |}) ;;;
         save_data env) self
    | Some _ => (self, Ok tt)
    end.

Definition create_appointment (env : Env) (user_id : Z)
    (patient_name doctor procedure date time : pystr) : M Database Z :=
  appointment_id <- gets (fun self => next_id (data self)) ;;
  let appointment :=
    {| apt_id := appointment_id;
       apt_user_id := user_id;
       apt_patient_name := patient_name;
       apt_doctor := doctor;
       apt_procedure := procedure;
       apt_date := date;
       apt_time := time;
       apt_created_at := now_isoformat env;
       apt_status := active |} in
  set_data (fun d =>
    {| appointments := appointments d ++ [appointment];
       users := users d;
       next_id := next_id d |}) ;;;
  set_data (fun d =>
    {| appointments := appointments d;
       users := users d;
       next_id := next_id d + 1 |}) ;;;
  save_data env ;;;
  ret appointment_id.

(** [if user_id:] — [None] and [0] are falsy. *)
Definition truthy (user_id : option Z) : bool :=
  match user_id with
  | Some n => negb (n =? 0)
  | None => false
  end.

Definition is_active (a : Appointment) : bool :=
  bool_decide (apt_status a = active).

Definition get_appointments (self : Database) (user_id : option Z)
    : list Appointment :=
  if truthy user_id
  then List.filter
         (fun a => bool_decide (Some (apt_user_id a) = user_id) && is_active a)
         (appointments (data self))
  else List.filter is_active (appointments (data self)).

(** The argument is whatever the caller passes: an [int], or [None] when
    it comes from [data.get('edit_appointment_id')]. *)
Fixpoint find_appointment (l : list Appointment) (appointment_id : option Z)
    : option Appointment :=
  match l with
  | [] => None
  | appointment :: l' =>
      if bool_decide (Some (apt_id appointment) = appointment_id)
      then Some appointment
      else find_appointment l' appointment_id
  end.

Definition get_appointment (self : Database) (appointment_id : option Z)
    : option Appointment :=
  find_appointment (appointments (data self)) appointment_id.

(** [**kwargs] of [update_appointment], one constructor per key of an
    appointment. *)
Inductive kwarg :=
| kw_id (v : Z)
| kw_user_id (v : Z)
| kw_patient_name (v : pystr)
| kw_doctor (v : pystr)
| kw_procedure (v : pystr)
| kw_date (v : pystr)
| kw_time (v : pystr)
| kw_created_at (v : pystr)
| kw_status (v : pystr).

Definition set_key (a : Appointment) (kw : kwarg) : Appointment :=
  match kw with
  | kw_id v =>
      mkAppointment v (apt_user_id a) (apt_patient_name a) (apt_doctor a)
        (apt_procedure a) (apt_date a) (apt_time a) (apt_created_at a)
        (apt_status a)
  | kw_user_id v =>
      mkAppointment (apt_id a) v (apt_patient_name a) (apt_doctor a)
        (apt_procedure a) (apt_date a) (apt_time a) (apt_created_at a)
        (apt_status a)
  | kw_patient_name v =>
      mkAppointment (apt_id a) (apt_user_id a) v (apt_doctor a)
        (apt_procedure a) (apt_date a) (apt_time a) (apt_created_at a)
        (apt_status a)
  | kw_doctor v =>
      mkAppointment (apt_id a) (apt_user_id a) (apt_patient_name a) v
        (apt_procedure a) (apt_date a) (apt_time a) (apt_created_at a)
        (apt_status a)
  | kw_procedure v =>
      mkAppointment (apt_id a) (apt_user_id a) (apt_patient_name a)
        (apt_doctor a) v (apt_date a) (apt_time a) (apt_created_at a)
        (apt_status a)
  | kw_date v =>
      mkAppointment (apt_id a) (apt_user_id a) (apt_patient_name a)
        (apt_doctor a) (apt_procedure a) v (apt_time a) (apt_created_at a)
        (apt_status a)
  | kw_time v =>
      mkAppointment (apt_id a) (apt_user_id a) (apt_patient_name a)
        (apt_doctor a) (apt_procedure a) (apt_date a) v (apt_created_at a)
        (apt_status a)
  | kw_created_at v =>
      mkAppointment (apt_id a) (apt_user_id a) (apt_patient_name a)
        (apt_doctor a) (apt_procedure a) (apt_date a) (apt_time a) v
        (apt_status a)
  | kw_status v =>
      mkAppointment (apt_id a) (apt_user_id a) (apt_patient_name a)
        (apt_doctor a) (apt_procedure a) (apt_date a) (apt_time a)
        (apt_created_at a) v
  end.

(** [appointment.update(kwargs)] *)
Definition dict_update (a : Appointment) (kwargs : list kwarg) : Appointment :=
  fold_left set_key kwargs a.

(** The loop of [update_appointment]: the first record with the id is
    updated in place; [None] when the loop ends without a match. *)
Fixpoint update_first (l : list Appointment) (appointment_id : option Z)
    (kwargs : list kwarg) : option (list Appointment) :=
  match l with
  | [] => None
  | appointment :: l' =>
      if bool_decide (Some (apt_id appointment) = appointment_id)
      then Some (dict_update appointment kwargs :: l')
      else cons appointment <$> update_first l' appointment_id kwargs
  end.

Definition update_appointment (env : Env) (appointment_id : option Z)
    (kwargs : list kwarg) : M Database bool :=
  fun self =>
    match update_first (appointments (data self)) appointment_id kwargs with
    | Some l =>
        (set_data (fun d =>
           {| appointments := l; users := users d; next_id := next_id d |}) ;;;
         save_data env ;;;
         ret true) self
    | None => (self, Ok false)
    end.

Definition delete_appointment (env : Env) (appointment_id : Z)
    : M Database bool :=
  update_appointment env (Some appointment_id) [kw_status deleted].

Definition get_users (self : Database) : gmap pystr User := users (data self).

Fixpoint slot_free (l : list Appointment) (doctor date time : pystr) : bool :=
  match l with
  | [] => true
  | appointment :: l' =>
      if bool_decide (apt_status appointment = active)
         && bool_decide (apt_doctor appointment = doctor)
         && bool_decide (apt_date appointment = date)
         && bool_decide (apt_time appointment = time)
      then false
      else slot_free l' doctor date time
  end.

Definition is_appointment_available (self : Database)
    (doctor date time : pystr) : bool :=
  slot_free (appointments (data self)) doctor date time.

(** ** Dates

    [datetime.now()] enters through its day, counted as
    [date.toordinal] does (day 1 is 0001-01-01 of the proleptic Gregorian
    calendar); [today + timedelta(days=i)] is then [today + i]. *)

Definition civil_of_ordinal (n : Z) : Z * Z * Z :=
  let z := n + 305 in
  let era := z / 146097 in
  let doe := z mod 146097 in
  let yoe := (doe - doe / 1460 + doe / 36524 - doe / 146096) / 365 in
  let doy := doe - (365 * yoe + yoe / 4 - yoe / 100) in
  let mp := (5 * doy + 2) / 153 in
  let d := doy - (153 * mp + 2) / 5 + 1 in
  let m := if mp <? 10 then mp + 3 else mp - 9 in
  let y := yoe + era * 400 + (if m <=? 2 then 1 else 0) in
  (y, m, d).

Definition two_digits (n : Z) : pystr :=
  if n <? 10 then u "0" ++ str_of_int n else str_of_int n.

(** [date.strftime("%d.%m.%Y")] *)
Definition strftime_d_m_Y (n : Z) : pystr :=
  let '(y, m, d) := civil_of_ordinal n in
  two_digits d ++ u "." ++ two_digits m ++ u "." ++ str_of_int y.

(** [date.strftime("%A")]: the weekday's name; the program sets no
    locale, so the names are the C locale's. *)
Definition strftime_A (n : Z) : pystr :=
  nth (Z.to_nat ((n + 6) mod 7))
    [u "Monday"; u "Tuesday"; u "Wednesday"; u "Thursday"; u "Friday";
     u "Saturday"; u "Sunday"] [].

(** ** Keyboards *)

Record InlineKeyboardButton := mkButton {
  text : pystr;
  callback_data : pystr
}.

Abbreviation InlineKeyboardMarkup := (list (list InlineKeyboardButton)).

Definition DOCTORS : list pystr :=
  [u "Терапевт Иванова А.С.";
   u "Хирург Петров В.И.";
   u "Стоматолог Сидорова Е.М.";
   u "Окулист Смирнов П.А.";
   u "Невролог Козлова Н.В."].

Definition AVAILABLE_TIMES : list pystr :=
  [u "09:00"; u "10:00"; u "11:00"; u "12:00";
   u "14:00"; u "15:00"; u "16:00"; u "17:00"].

Definition get_main_keyboard (is_admin : bool) : InlineKeyboardMarkup :=
  let keyboard :=
    [[mkButton (u "📅 Записаться") (u "make_appointment");
      mkButton (u "📋 Мои записи") (u "my_appointments")];
     [mkButton (u "👨‍⚕️ Врачи") (u "doctors_list");
      mkButton (u "ℹ️ О клинике") (u "about")]] in
  if is_admin
  then keyboard ++
       [[mkButton (u "📊 Все записи") (u "all_appointments");
         mkButton (u "👥 Пользователи") (u "users_list")]]
  else keyboard.

Definition get_doctors_keyboard : InlineKeyboardMarkup :=
  map (fun doctor => [mkButton doctor (u "select_doctor:" ++ doctor)]) DOCTORS
  ++ [[mkButton (u "◀️ Назад") (u "main_menu")]].

(** One row of a date keyboard: the button for day [today + i]. *)
Definition date_button (prefix : pystr) (today i : Z)
    : list InlineKeyboardButton :=
  let date := today + i in
  let date_str := strftime_d_m_Y date in
  let day_name := take 3 (strftime_A date) in
  [mkButton (date_str ++ u " (" ++ day_name ++ u ")") (prefix ++ date_str)].

Definition get_dates_keyboard (today : Z) : InlineKeyboardMarkup :=
  map (date_button (u "select_date:") today) (seqZ 0 7)
  ++ [[mkButton (u "◀️ Назад") (u "select_doctor")]].

Definition get_times_keyboard : InlineKeyboardMarkup :=
  map (fun time => [mkButton time (u "select_time:" ++ time)]) AVAILABLE_TIMES
  ++ [[mkButton (u "◀️ Назад") (u "select_date")]].

Definition get_doctors_keyboard_for_edit : InlineKeyboardMarkup :=
  map (fun doctor => [mkButton doctor (u "edit_select_doctor:" ++ doctor)])
    DOCTORS.

Definition get_confirmation_keyboard : InlineKeyboardMarkup :=
  [[mkButton (u "✅ Подтвердить") (u "confirm");
    mkButton (u "❌ Отмена") (u "cancel")]].

Definition get_cancel_keyboard : InlineKeyboardMarkup :=
  [[mkButton (u "❌ Отмена") (u "cancel")]].

(** The keyboard built inline by [process_callback_edit_date]. *)
Definition edit_date_keyboard (today appointment_id : Z)
    : InlineKeyboardMarkup :=
  map (date_button (u "edit_select_date:") today) (seqZ 0 14)
  ++ [[mkButton (u "◀️ Назад")
         (u "view_appointment:" ++ str_of_int appointment_id)]].

(** ** Wizard states and the per-user FSM context *)

Module AppointmentStates.
Inductive t :=
| waiting_for_patient_name
| waiting_for_doctor
| waiting_for_procedure
| waiting_for_date
| waiting_for_time
| waiting_for_confirmation.

Global Instance booking_state_eq_dec : EqDecision t.
Proof. solve_decision. Defined.
End AppointmentStates.

Module EditStates.
Inductive t :=
| waiting_for_new_patient_name
| waiting_for_new_doctor
| waiting_for_new_procedure
| waiting_for_new_date
| waiting_for_new_time.

Global Instance edit_state_eq_dec : EqDecision t.
Proof. solve_decision. Defined.
End EditStates.

Inductive State :=
| Booking (s : AppointmentStates.t)
| Editing (s : EditStates.t).

Global Instance State_eq_dec : EqDecision State.
Proof. solve_decision. Defined.

(** The dict kept by the FSM storage for one user; a key that is absent
    is [None]. *)
Record StateData := mkStateData {
  sd_patient_name : option pystr;
  sd_doctor : option pystr;
  sd_procedure : option pystr;
  sd_date : option pystr;
  sd_time : option pystr;
  sd_edit_appointment_id : option Z
}.

Definition no_data : StateData := mkStateData None None None None None None.

Record FSMContext := mkFSM {
  fsm_state : option State;
  fsm_data : StateData
}.

(** What a handler sends through the chat transport. *)
Inductive Action :=
| message_answer (txt : pystr) (reply_markup : option InlineKeyboardMarkup)
| message_edit_text (txt : pystr) (reply_markup : option InlineKeyboardMarkup)
| callback_answer (txt : option pystr).

(** What a handler works on: the global [db], the FSM context of the
    user whose update is handled, and the messages sent so far. *)
Record Bot := mkBot {
  db : Database;
  state : FSMContext;
  sent : list Action
}.

Definition on_db {A} (m : M Database A) : M Bot A :=
  fun bot =>
    let '(db', r) := m (db bot) in
    ({| db := db'; state := state bot; sent := sent bot |}, r).

Definition send (a : Action) : M Bot unit :=
  modify (fun bot =>
    {| db := db bot; state := state bot; sent := sent bot ++ [a] |}).

Definition on_state (f : FSMContext -> FSMContext) : M Bot unit :=
  modify (fun bot =>
    {| db := db bot; state := f (state bot); sent := sent bot |}).

(** [state.set_state], [state.update_data], [state.get_data],
    [state.clear] *)
Definition set_state (s : State) : M Bot unit :=
  on_state (fun c => {| fsm_state := Some s; fsm_data := fsm_data c |}).

Definition update_data (f : StateData -> StateData) : M Bot unit :=
  on_state (fun c => {| fsm_state := fsm_state c; fsm_data := f (fsm_data c) |}).

Definition get_data : M Bot StateData :=
  gets (fun bot => fsm_data (state bot)).

Definition clear : M Bot unit :=
  on_state (fun _ => {| fsm_state := None; fsm_data := no_data |}).

(** [data[key]] *)
Definition subscript {S A} (key : string) (v : option A) : M S A :=
  match v with
  | Some a => ret a
  | None => raise (KeyError (u key))
  end.

(** A handler registered with [StateFilter(s)] runs only when the user's
    FSM state is [s]; the result tells whether it ran. *)
Definition StateFilter (s : State) (handler : M Bot unit) : M Bot bool :=
  fun bot =>
    if bool_decide (fsm_state (state bot) = Some s)
    then (handler ;;; ret true) bot
    else (bot, Ok false).

(** ** Handlers

    A callback's data reaches a handler already split at the colon, as
    the handler's first statement does it; [ADMIN_IDS] is read from the
    process environment at start-up. *)

Section Handlers.
Variable ADMIN_IDS : list Z.
Variable env : Env.

Definition is_admin_id (user_id : Z) : bool :=
  bool_decide (user_id ∈ ADMIN_IDS).

Definition process_callback_make_appointment : M Bot unit :=
  send (message_edit_text (u "👤 Введите имя и фамилию пациента:")
          (Some get_cancel_keyboard)) ;;;
  set_state (Booking AppointmentStates.waiting_for_patient_name) ;;;
  send (callback_answer None).

(** [message_text] is [message.text], which is [None] for a message
    that carries no text. *)
Definition process_patient_name (message_text : option pystr) : M Bot unit :=
  match message_text with
  | None => raise AttributeError
  | Some t =>
      let patient_name := strip t in
      if (len patient_name <? 2) || (50 <? len patient_name)
      then send (message_answer
                   (u "❌ Пожалуйста, введите корректное имя (от 2 до 50 символов):")
                   None)
      else
        update_data (fun d =>
          mkStateData (Some patient_name) (sd_doctor d) (sd_procedure d)
            (sd_date d) (sd_time d) (sd_edit_appointment_id d)) ;;;
        send (message_answer (u "👨‍⚕️ Выберите врача:")
                (Some get_doctors_keyboard)) ;;;
        set_state (Booking AppointmentStates.waiting_for_doctor)
  end.

(** [today] is the day of [datetime.now()] at the call. *)
Definition process_callback_select_procedure (today : Z) (procedure : pystr)
    : M Bot unit :=
  update_data (fun d =>
    mkStateData (sd_patient_name d) (sd_doctor d) (Some procedure)
      (sd_date d) (sd_time d) (sd_edit_appointment_id d)) ;;;
  send (message_edit_text (u "📅 Выберите дату:")
          (Some (get_dates_keyboard today))) ;;;
  set_state (Booking AppointmentStates.waiting_for_date) ;;;
  send (callback_answer None).

Definition process_callback_select_date (date : pystr) : M Bot unit :=
  update_data (fun d =>
    mkStateData (sd_patient_name d) (sd_doctor d) (sd_procedure d)
      (Some date) (sd_time d) (sd_edit_appointment_id d)) ;;;
  send (message_edit_text (u "⏰ Выберите время:")
          (Some get_times_keyboard)) ;;;
  set_state (Booking AppointmentStates.waiting_for_time) ;;;
  send (callback_answer None).

Definition process_callback_select_time (time : pystr) : M Bot unit :=
  data <- get_data ;;
  doctor <- subscript "doctor" (sd_doctor data) ;;
  date <- subscript "date" (sd_date data) ;;
  available <- gets (fun bot => is_appointment_available (db bot) doctor date time) ;;
  if negb available
  then
    send (message_edit_text
            (u "❌ Это время уже занято. Пожалуйста, выберите другое время:")
            (Some get_times_keyboard)) ;;;
    send (callback_answer None)
  else
    update_data (fun d =>
      mkStateData (sd_patient_name d) (sd_doctor d) (sd_procedure d)
        (sd_date d) (Some time) (sd_edit_appointment_id d)) ;;;
    patient_name <- subscript "patient_name" (sd_patient_name data) ;;
    procedure <- subscript "procedure" (sd_procedure data) ;;
    let appointment_info :=
      u "📋 Проверьте данные записи:" ++ [10; 10]%N
      ++ u "👤 Пациент: " ++ patient_name ++ [10]%N
      ++ u "👨‍⚕️ Врач: " ++ doctor ++ [10]%N
      ++ u "💉 Процедура: " ++ procedure ++ [10]%N
      ++ u "📅 Дата: " ++ date ++ [10]%N
      ++ u "⏰ Время: " ++ time ++ [10; 10]%N
      ++ u "Всё верно?" in
    send (message_edit_text appointment_info
            (Some get_confirmation_keyboard)) ;;;
    set_state (Booking AppointmentStates.waiting_for_confirmation) ;;;
    send (callback_answer None).

Definition process_callback_confirm (user_id : Z) : M Bot unit :=
  data <- get_data ;;
  patient_name <- subscript "patient_name" (sd_patient_name data) ;;
  doctor <- subscript "doctor" (sd_doctor data) ;;
  procedure <- subscript "procedure" (sd_procedure data) ;;
  date <- subscript "date" (sd_date data) ;;
  time <- subscript "time" (sd_time data) ;;
  appointment_id <-
    on_db (create_appointment env user_id patient_name doctor procedure
             date time) ;;
  let success_text :=
    u "✅ Запись успешно создана!" ++ [10; 10]%N
    ++ u "Номер записи: #" ++ str_of_int appointment_id ++ [10]%N
    ++ u "👤 Пациент: " ++ patient_name ++ [10]%N
    ++ u "👨‍⚕️ Врач: " ++ doctor ++ [10]%N
    ++ u "💉 Процедура: " ++ procedure ++ [10]%N
    ++ u "📅 Дата: " ++ date ++ [10]%N
    ++ u "⏰ Время: " ++ time in
  send (message_edit_text success_text None) ;;;
  send (message_answer (u "Главное меню:")
          (Some (get_main_keyboard (is_admin_id user_id)))) ;;;
  clear ;;;
  send (callback_answer None).

Definition process_callback_cancel_appointment (user_id appointment_id : Z)
    : M Bot unit :=
  ok <- on_db (delete_appointment env appointment_id) ;;
  (if ok : bool
   then send (message_edit_text (u "✅ Запись успешно отменена.")
                (Some (get_main_keyboard (is_admin_id user_id))))
   else send (message_edit_text (u "❌ Не удалось отменить запись.")
                (Some (get_main_keyboard (is_admin_id user_id))))) ;;;
  send (callback_answer None).

Definition process_callback_select_new_doctor (doctor : pystr) : M Bot unit :=
  data <- get_data ;;
  let appointment_id := sd_edit_appointment_id data in
  ok <- on_db (update_appointment env appointment_id [kw_doctor doctor]) ;;
  (if ok : bool
   then send (message_edit_text (u "✅ Врач успешно обновлен!") None)
   else send (message_edit_text (u "❌ Не удалось обновить врача.") None)) ;;;
  clear ;;;
  send (callback_answer None).

(** [today] is the day of [datetime.now()] at the call. *)
Definition process_callback_edit_date (today user_id appointment_id : Z)
    : M Bot unit :=
  if negb (is_admin_id user_id)
  then send (callback_answer (Some (u "⛔ Доступ запрещен")))
  else
    update_data (fun d =>
      mkStateData (sd_patient_name d) (sd_doctor d) (sd_procedure d)
        (sd_date d) (sd_time d) (Some appointment_id)) ;;;
    send (message_edit_text (u "📅 Выберите новую дату:")
            (Some (edit_date_keyboard today appointment_id))) ;;;
    set_state (Editing EditStates.waiting_for_new_date) ;;;
    send (callback_answer None).

Definition process_callback_select_new_date (date : pystr) : M Bot unit :=
  data <- get_data ;;
  let appointment_id := sd_edit_appointment_id data in
  ok <- on_db (update_appointment env appointment_id [kw_date date]) ;;
  (if ok : bool
   then send (message_edit_text (u "✅ Дата успешно обновлена!") None)
   else send (message_edit_text (u "❌ Не удалось обновить дату.") None)) ;;;
  clear ;;;
  send (callback_answer None).

Definition process_callback_select_new_time (time : pystr) : M Bot unit :=
  data <- get_data ;;
  let appointment_id := sd_edit_appointment_id data in
  ok <- on_db (update_appointment env appointment_id [kw_time time]) ;;
  (if ok : bool
   then send (message_edit_text (u "✅ Время успешно обновлено!") None)
   else send (message_edit_text (u "❌ Не удалось обновить время.") None)) ;;;
  clear ;;;
  send (callback_answer None).

(** The handlers as registered: with their state filters. *)
Definition on_select_procedure (today : Z) (procedure : pystr) : M Bot bool :=
  StateFilter (Booking AppointmentStates.waiting_for_procedure)
    (process_callback_select_procedure today procedure).

Definition on_select_date (date : pystr) : M Bot bool :=
  StateFilter (Booking AppointmentStates.waiting_for_date)
    (process_callback_select_date date).

Definition on_select_time (time : pystr) : M Bot bool :=
  StateFilter (Booking AppointmentStates.waiting_for_time)
    (process_callback_select_time time).

Definition on_confirm (user_id : Z) : M Bot bool :=
  StateFilter (Booking AppointmentStates.waiting_for_confirmation)
    (process_callback_confirm user_id).

Definition on_edit_select_doctor (doctor : pystr) : M Bot bool :=
  StateFilter (Editing EditStates.waiting_for_new_doctor)
    (process_callback_select_new_doctor doctor).

Definition on_edit_select_date (date : pystr) : M Bot bool :=
  StateFilter (Editing EditStates.waiting_for_new_date)
    (process_callback_select_new_date date).

Definition on_edit_select_time (time : pystr) : M Bot bool :=
  StateFilter (Editing EditStates.waiting_for_new_time)
    (process_callback_select_new_time time).
End Handlers.

(** ** Calls on the store, as traces

    The store is driven by a sequence of method calls, each made in its
    own environment.  A call that raises leaves the store as it was at
    the raise, and the next call finds it so. *)

Inductive call :=
| call_add_user (user_id : Z) (username : option pystr) (first_name : pystr)
| call_create_appointment (user_id : Z)
    (patient_name doctor procedure date time : pystr)
| call_update_appointment (appointment_id : option Z) (kwargs : list kwarg)
| call_delete_appointment (appointment_id : Z).

(** The value a call returns: [None], an [int] or a [bool]. *)
Inductive value :=
| VNone
| VInt (n : Z)
| VBool (b : bool).

Definition returning {A} (f : A -> value) (m : M Database A)
    : M Database value :=
  a <- m ;; ret (f a).

Definition exec (env : Env) (c : call) : M Database value :=
  match c with
  | call_add_user user_id username first_name =>
      returning (fun _ => VNone) (add_user env user_id username first_name)
  | call_create_appointment user_id patient_name doctor procedure date time =>
      returning VInt
        (create_appointment env user_id patient_name doctor procedure
           date time)
  | call_update_appointment appointment_id kwargs =>
      returning VBool (update_appointment env appointment_id kwargs)
  | call_delete_appointment appointment_id =>
      returning VBool (delete_appointment env appointment_id)
  end.

Definition run_calls (cs : list (Env * call)) (self : Database) : Database :=
  fold_left (fun s ec => (exec (fst ec) (snd ec) s).1) cs self.

(** Whether a call reaches [save_data]. *)
Definition writes (c : call) (self : Database) : bool :=
  match c with
  | call_add_user user_id _ _ =>
      bool_decide (users (data self) !! str_of_int user_id = None)
  | call_create_appointment _ _ _ _ _ _ => true
  | call_update_appointment appointment_id _ =>
      bool_decide (is_Some (get_appointment self appointment_id))
  | call_delete_appointment appointment_id =>
      bool_decide (is_Some (get_appointment self (Some appointment_id)))
  end.

(** The keyword arguments the handlers pass to [update_appointment]:
    never [id], and [status] only as ['deleted']. *)
Definition wizard_kwarg (kw : kwarg) : bool :=
  match kw with
  | kw_id _ => false
  | kw_status v => bool_decide (v = deleted)
  | _ => true
  end.

Definition wizard_call (c : call) : bool :=
  match c with
  | call_update_appointment _ kwargs => forallb wizard_kwarg kwargs
  | _ => true
  end.

(** Keyword arguments that leave the doctor, date, time and status of a
    record as they are. *)
Definition keeps_slot (kw : kwarg) : bool :=
  match kw with
  | kw_doctor _ | kw_date _ | kw_time _ | kw_status _ => false
  | _ => true
  end.

(** A call of the handlers that neither soft-deletes the appointment [i]
    nor moves it to another doctor, date or time: it addresses another
    appointment, or updates other keys of this one. *)
Definition keeps_in_slot (i : Z) (c : call) : bool :=
  wizard_call c &&
  match c with
  | call_update_appointment j kwargs =>
      bool_decide (j ≠ Some i) || forallb keeps_slot kwargs
  | call_delete_appointment j => bool_decide (j ≠ i)
  | _ => true
  end.

(** An active appointment in the slot [(doctor, date, time)]. *)
Definition occupies (doctor date time : pystr) (a : Appointment) : bool :=
  bool_decide (apt_status a = active)
  && bool_decide (apt_doctor a = doctor)
  && bool_decide (apt_date a = date)
  && bool_decide (apt_time a = time).

(** Ids are assigned from [next_id]: every stored id is below it and no
    two records share one. *)
Definition well_formed (self : Database) : Prop :=
  NoDup (map apt_id (appointments (data self)))
  /\ Forall (fun a => apt_id a < next_id (data self))
       (appointments (data self)).

Definition mark_deleted (a : Appointment) : Appointment :=
  dict_update a [kw_status deleted].

(** ** Vocabulary of the properties *)

Definition new_appointment (env : Env) (self : Database) (user_id : Z)
    (patient_name doctor procedure date time : pystr) : Appointment :=
  mkAppointment (next_id (data self)) user_id patient_name doctor procedure
    date time (now_isoformat env) active.

Definition appointments_after (env : Env) (c : call) (self : Database)
    : list Appointment :=
  let l := appointments (data self) in
  match c with
  | call_add_user _ _ _ => l
  | call_create_appointment user_id patient_name doctor procedure date time =>
      l ++ [new_appointment env self user_id patient_name doctor procedure
              date time]
  | call_update_appointment j kwargs => default l (update_first l j kwargs)
  | call_delete_appointment j =>
      default l (update_first l (Some j) [kw_status deleted])
  end.

Ltac run_store :=
  unfold exec, returning, delete_appointment, update_appointment,
    create_appointment, add_user, save_data, set_data, bind, ret, gets,
    modify; simpl.

(** A store holding the records [l], with [n] the next id. *)
Definition stored (l : list Appointment) (n : Z) : Database :=
  {| data := {| appointments := l; users := ∅; next_id := n |};
     file := None |}.

Definition booked (i user_id : Z) (doctor date time status : pystr)
    : Appointment :=
  mkAppointment i user_id (u "Ann Lee") doctor (u "Консультация") date time
    (u "2026-11-04T08:00:00") status.

(** The choices of a keyboard whose last row is the "back" button: the
    buttons of the other rows. *)
Definition choices (kb : InlineKeyboardMarkup) : list InlineKeyboardButton :=
  concat (removelast kb).

(** The keyboards among the messages a handler sent. *)
Definition keyboards_sent (bot : Bot) : list InlineKeyboardMarkup :=
  omap (fun act =>
          match act with
          | message_edit_text _ kb => kb
          | message_answer _ kb => kb
          | callback_answer _ => None
          end) (sent bot).

(** How both flows render day [today + i]. *)
Definition date_label (today i : Z) : pystr :=
  strftime_d_m_Y (today + i) ++ u " (" ++ take 3 (strftime_A (today + i))
  ++ u ")".

Definition with_patient_name (d : StateData) (patient_name : pystr)
    : StateData :=
  mkStateData (Some patient_name) (sd_doctor d) (sd_procedure d) (sd_date d)
    (sd_time d) (sd_edit_appointment_id d).

(** What [process_patient_name] leaves when it turns a name down: the
    same store and FSM context, and one more prompt. *)
Definition name_rejected (bot : Bot) : Bot * result unit :=
  ({| db := db bot;
      state := state bot;
      sent := sent bot ++
        [message_answer
           (u "❌ Пожалуйста, введите корректное имя (от 2 до 50 символов):")
           None] |},
   Ok tt).

(** What it leaves when it takes the name. *)
Definition name_accepted (bot : Bot) (patient_name : pystr)
    : Bot * result unit :=
  ({| db := db bot;
      state :=
        {| fsm_state := Some (Booking AppointmentStates.waiting_for_doctor);
           fsm_data := with_patient_name (fsm_data (state bot)) patient_name |};
      sent := sent bot ++
        [message_answer (u "👨‍⚕️ Выберите врача:")
           (Some get_doctors_keyboard)] |},
   Ok tt).

Ltac run_handler :=
  unfold StateFilter, on_db, send, set_state, update_data, get_data, clear,
    on_state, subscript, bind, ret, gets, modify, raise; simpl.

(** The next update comes from the user whose FSM context is [c]. *)
Definition as_user (c : FSMContext) (bot : Bot) : Bot :=
  {| db := db bot; state := c; sent := sent bot |}.

(** A user at the time step, with the form filled in so far. *)
Definition at_time_step (patient_name doctor procedure date : pystr)
    : FSMContext :=
  {| fsm_state := Some (Booking AppointmentStates.waiting_for_time);
     fsm_data := mkStateData (Some patient_name) (Some doctor)
                   (Some procedure) (Some date) None None |}.

(** One attempt to book: the user picks a time, then presses "confirm".
    Each component of the result tells whether the handler ran. *)
Definition booking_attempt (ADMIN_IDS : list Z) (env : Env) (user_id : Z)
    (time : pystr) : M Bot (bool * bool) :=
  picked <- on_select_time time ;;
  confirmed <- on_confirm ADMIN_IDS env user_id ;;
  ret (picked, confirmed).

Definition slot_taken_notice : list Action :=
  [message_edit_text
     (u "❌ Это время уже занято. Пожалуйста, выберите другое время:")
     (Some get_times_keyboard);
   callback_answer None].

Definition cleared : FSMContext := {| fsm_state := None; fsm_data := no_data |}.

(** What an edit handler leaves when [update_appointment] found the
    record [a] under the id kept in the FSM data and wrote the file. *)
Definition edited (bot : Bot) (a : Appointment) (kwargs : list kwarg)
    (notice : pystr) (bot' : Bot) : Prop :=
  get_appointment (db bot')
    (sd_edit_appointment_id (fsm_data (state bot)))
  = Some (dict_update a kwargs)
  /\ next_id (data (db bot')) = next_id (data (db bot))
  /\ file (db bot') = Some (data (db bot'))
  /\ state bot' = cleared
  /\ sent bot'
     = sent bot ++ [message_edit_text notice None; callback_answer None].

Definition demo_env : Env :=
  {| now_isoformat := u "2026-11-04T08:00:00"; writable := true |}.

Definition offline_env : Env :=
  {| now_isoformat := u "2026-11-04T08:00:00"; writable := false |}.

Definition surgeon : pystr := u "Хирург Петров В.И.".
Definition therapist : pystr := u "Терапевт Иванова А.С.".

Definition demo_empty : Database :=
  {| data := empty_data; file := Some empty_data |}.

(** Two active appointments at the same date and time, with different
    doctors and owners. *)
Definition demo_store : Database :=
  stored [booked 1 5 surgeon (u "05.11.2026") (u "09:00") active;
          booked 2 6 therapist (u "05.11.2026") (u "09:00") active] 3.

Definition demo_calls : list (Env * call) :=
  [(demo_env, call_add_user 8 (Some (u "bob")) (u "Bob"));
   (demo_env,
    call_create_appointment 8 (u "Bob Ray") surgeon (u "Перевязка")
      (u "05.11.2026") (u "10:00"));
   (offline_env, call_update_appointment (Some 2) [kw_time (u "11:00")]);
   (demo_env, call_delete_appointment 2)].

(** [demo_calls], then the patient of appointment 1 is renamed. *)
Definition demo_calls_renaming : list (Env * call) :=
  demo_calls
  ++ [(demo_env, call_update_appointment (Some 1) [kw_patient_name (u "Ann Li")])].

(** ** Callback data and the words of a doctor's label *)

(** [s.startswith(prefix)] *)
Fixpoint startswith (s prefix : pystr) : bool :=
  match prefix, s with
  | [], _ => true
  | p :: prefix', c :: s' => (c =? p)%N && startswith s' prefix'
  | _ :: _, [] => false
  end.

(** [s.split(':', 1)[1]]: what follows the first colon; [None] stands
    for the [IndexError] of a string without a colon. *)
Fixpoint after_colon (s : pystr) : option pystr :=
  match s with
  | [] => None
  | c :: s' => if (c =? 58)%N then Some s' else after_colon s'
  end.

Fixpoint until_space (s : pystr) : pystr :=
  match s with
  | [] => []
  | c :: s' => if isspace c then [] else c :: until_space s'
  end.

(** [s.split()[0]]: the first run of characters that are not white
    space; [None] stands for the [IndexError] of a blank string. *)
Definition first_word (s : pystr) : option pystr :=
  match lstrip s with
  | [] => None
  | w => Some (until_space w)
  end.

(** [d.get(k, default)] on a dict written as its items. *)
Fixpoint dict_get {V} (d : list (pystr * V)) (k : pystr) (default : V) : V :=
  match d with
  | [] => default
  | (k', v) :: d' => if bool_decide (k' = k) then v else dict_get d' k default
  end.

Definition PROCEDURES : list (pystr * list pystr) :=
  [(u "терапевт", [u "Общий осмотр"; u "Консультация"; u "Выписка рецепта"]);
   (u "хирург", [u "Консультация"; u "Малая операция"; u "Перевязка"]);
   (u "стоматолог", [u "Лечение кариеса"; u "Чистка зубов"; u "Удаление зуба"]);
   (u "окулист", [u "Проверка зрения"; u "Подбор очков"; u "Консультация"]);
   (u "невролог", [u "Консультация"; u "МРТ"; u "ЭЭГ"])].

(** What can end a handler early, beside the exceptions of the store and
    of the FSM data: the [IndexError] of [doctor.split()[0]]. *)
Inductive error :=
| Builtin (e : exn)
| IndexError.

Inductive outcome (A : Type) :=
| Returns (a : A)
| Raises (e : error).
Arguments Returns {A} a.
Arguments Raises {A} e.

Definition lift {S A} (m : M S A) : S -> S * outcome A :=
  fun s =>
    match m s with
    | (s', Ok a) => (s', Returns a)
    | (s', Raise e) => (s', Raises (Builtin e))
    end.

(** ** The other keyboards and texts *)

Definition procedure_buttons (prefix : pystr) (procedures : list pystr)
    : InlineKeyboardMarkup :=
  map (fun procedure => [mkButton procedure (prefix ++ procedure)]) procedures.

Definition get_appointments_keyboard (appointments : list Appointment)
    (is_admin : bool) : InlineKeyboardMarkup :=
  map (fun apt =>
         let txt := apt_date apt ++ u " " ++ apt_time apt ++ u " - "
                    ++ apt_doctor apt in
         let callback :=
           if is_admin
           then u "admin_view:" ++ str_of_int (apt_id apt)
           else u "view_appointment:" ++ str_of_int (apt_id apt) in
         [mkButton txt callback]) appointments
  ++ [[mkButton (u "◀️ Назад") (u "main_menu")]].

Definition get_appointment_actions_keyboard (appointment_id : Z)
    (is_admin : bool) : InlineKeyboardMarkup :=
  if is_admin
  then
    [[mkButton (u "✏️ Редактировать")
        (u "edit_appointment:" ++ str_of_int appointment_id)];
     [mkButton (u "❌ Удалить")
        (u "delete_appointment:" ++ str_of_int appointment_id)];
     [mkButton (u "📅 В календарь")
        (u "add_to_calendar:" ++ str_of_int appointment_id)];
     [mkButton (u "◀️ Назад") (u "all_appointments")]]
  else
    [[mkButton (u "❌ Отменить")
        (u "cancel_appointment:" ++ str_of_int appointment_id)];
     [mkButton (u "📅 В календарь")
        (u "add_to_calendar:" ++ str_of_int appointment_id)];
     [mkButton (u "◀️ Назад") (u "my_appointments")]].

Definition get_admin_edit_keyboard (appointment_id : Z)
    : InlineKeyboardMarkup :=
  [[mkButton (u "👤 Имя пациента")
      (u "edit_patient_name:" ++ str_of_int appointment_id)];
   [mkButton (u "👨‍⚕️ Врача")
      (u "edit_doctor:" ++ str_of_int appointment_id)];
   [mkButton (u "💉 Процедуру")
      (u "edit_procedure:" ++ str_of_int appointment_id)];
   [mkButton (u "📅 Дату")
      (u "edit_date:" ++ str_of_int appointment_id)];
   [mkButton (u "⏰ Время")
      (u "edit_time:" ++ str_of_int appointment_id)];
   [mkButton (u "◀️ Назад")
      (u "view_appointment:" ++ str_of_int appointment_id)]].

(** The keyboard built inline by [process_callback_edit_time]. *)
Definition edit_time_keyboard (appointment_id : Z) : InlineKeyboardMarkup :=
  map (fun time => [mkButton time (u "edit_select_time:" ++ time)])
    AVAILABLE_TIMES
  ++ [[mkButton (u "◀️ Назад")
         (u "view_appointment:" ++ str_of_int appointment_id)]].

Definition status_emoji (status : pystr) : pystr :=
  dict_get [(u "active", u "✅"); (u "deleted", u "❌"); (u "completed", u "✔️")]
    status (u "⏳").

Definition format_appointment (appointment : Appointment) (is_admin : bool)
    : pystr :=
  let txt :=
    status_emoji (apt_status appointment) ++ u " Запись #"
    ++ str_of_int (apt_id appointment) ++ [10; 10]%N in
  let txt := txt ++ u "👤 Пациент: " ++ apt_patient_name appointment ++ [10]%N in
  let txt := txt ++ u "👨‍⚕️ Врач: " ++ apt_doctor appointment ++ [10]%N in
  let txt := txt ++ u "💉 Процедура: " ++ apt_procedure appointment ++ [10]%N in
  let txt := txt ++ u "📅 Дата: " ++ apt_date appointment ++ [10]%N in
  let txt := txt ++ u "⏰ Время: " ++ apt_time appointment ++ [10]%N in
  if is_admin
  then
    let txt := txt ++ u "🆔 ID пользователя: "
               ++ str_of_int (apt_user_id appointment) ++ [10]%N in
    let txt := txt ++ u "📝 Статус: " ++ apt_status appointment ++ [10]%N in
    txt ++ u "📅 Создано: " ++ take 16 (apt_created_at appointment) ++ [10]%N
  else txt.

(** ** Updates

    An update is a message, with what the handlers read of it (the
    sender's [username] and [first_name], and the text, [None] for a
    message without one), or a callback query whose data one of the
    registered filters accepts, with the part of the data the handler
    reads.  The callbacks of the calendar export and of the user list
    are left out. *)
Inductive Update :=
| Message (username : option pystr) (first_name : pystr)
    (message_text : option pystr)
| Callback_main_menu
| Callback_make_appointment
| Callback_select_doctor (doctor : pystr)
| Callback_select_procedure (procedure : pystr)
| Callback_select_date (date : pystr)
| Callback_select_time (time : pystr)
| Callback_confirm
| Callback_cancel
| Callback_my_appointments
| Callback_view_appointment (appointment_id : Z)
| Callback_cancel_appointment (appointment_id : Z)
| Callback_doctors_list
| Callback_about
| Callback_all_appointments
| Callback_admin_view (appointment_id : Z)
| Callback_delete_appointment (appointment_id : Z)
| Callback_edit_appointment (appointment_id : Z)
| Callback_edit_patient_name (appointment_id : Z)
| Callback_edit_doctor (appointment_id : Z)
| Callback_edit_select_doctor (doctor : pystr)
| Callback_edit_procedure (appointment_id : Z)
| Callback_edit_select_procedure (procedure : pystr)
| Callback_edit_date (appointment_id : Z)
| Callback_edit_select_date (date : pystr)
| Callback_edit_time (appointment_id : Z)
| Callback_edit_select_time (time : pystr).

(** The data filters of the callback handlers, in the order in which
    the handlers are registered. *)
Definition callback_filters : list (pystr -> bool) :=
  [(fun c => bool_decide (c = u "main_menu"));
   (fun c => bool_decide (c = u "make_appointment"));
   (fun c => startswith c (u "select_doctor:"));
   (fun c => startswith c (u "select_procedure:"));
   (fun c => startswith c (u "select_date:"));
   (fun c => startswith c (u "select_time:"));
   (fun c => bool_decide (c = u "confirm"));
   (fun c => bool_decide (c = u "cancel"));
   (fun c => bool_decide (c = u "my_appointments"));
   (fun c => startswith c (u "view_appointment:"));
   (fun c => startswith c (u "cancel_appointment:"));
   (fun c => startswith c (u "add_to_calendar:"));
   (fun c => bool_decide (c = u "doctors_list"));
   (fun c => bool_decide (c = u "about"));
   (fun c => bool_decide (c = u "all_appointments"));
   (fun c => startswith c (u "admin_view:"));
   (fun c => startswith c (u "delete_appointment:"));
   (fun c => startswith c (u "edit_appointment:"));
   (fun c => bool_decide (c = u "users_list"));
   (fun c => startswith c (u "edit_patient_name:"));
   (fun c => startswith c (u "edit_doctor:"));
   (fun c => startswith c (u "edit_select_doctor:"));
   (fun c => startswith c (u "edit_procedure:"));
   (fun c => startswith c (u "edit_select_procedure:"));
   (fun c => startswith c (u "edit_date:"));
   (fun c => startswith c (u "edit_select_date:"));
   (fun c => startswith c (u "edit_time:"));
   (fun c => startswith c (u "edit_select_time:"))].

(** Whether some handler's data filter accepts the callback data. *)
Definition accepted (callback_data : pystr) : bool :=
  existsb (fun f => f callback_data) callback_filters.

(** ** The other handlers and the routing of updates

    [lower] is [str.lower]; [today] is the day of [datetime.now()] when
    the update is handled.  [command_of] stands for the parsing done by
    aiogram's [Command] filter, which is not part of the repository: the
    name of the command that a text holds for this bot, [None] when the
    text is no command (no leading slash, or a mention of another
    bot). *)

Section Routing.
Variable ADMIN_IDS : list Z.
Variable env : Env.
Variable lower : pystr -> pystr.
Variable command_of : pystr -> option pystr.
Variable today : Z.

(** The filter [Command(name)] on a message with the given text; a
    message without text is taken to have no caption either. *)
Definition Command (name : pystr) (message_text : option pystr) : bool :=
  match message_text with
  | Some t => bool_decide (command_of t = Some name)
  | None => false
  end.

(** A message that one of the four command handlers takes. *)
Definition commanded (message_text : option pystr) : bool :=
  Command (u "start") message_text || Command (u "help") message_text
  || Command (u "menu") message_text || Command (u "stop") message_text.

Definition get_procedures_keyboard (doctor : pystr)
    : option InlineKeyboardMarkup :=
  match first_word doctor with
  | None => None
  | Some w =>
      let doctor_key := lower w in
      let procedures := dict_get PROCEDURES doctor_key [u "Консультация"] in
      Some (procedure_buttons (u "select_procedure:") procedures
            ++ [[mkButton (u "◀️ Назад") (u "select_doctor")]])
  end.

Definition access_denied : M Bot unit :=
  send (callback_answer (Some (u "⛔ Доступ запрещен"))).

Definition cmd_start (user_id : Z) (username : option pystr)
    (first_name : pystr) : M Bot unit :=
  on_db (add_user env user_id username first_name) ;;;
  let welcome_text :=
    u "👋 Здравствуйте, " ++ first_name ++ u "!" ++ [10; 10]%N
    ++ u "Добро пожаловать в бот клиники «Здоровье»." ++ [10]%N
    ++ u "Здесь вы можете записаться на прием к врачу, "
    ++ u "просмотреть свои записи и управлять ими." in
  send (message_answer welcome_text
          (Some (get_main_keyboard (is_admin_id ADMIN_IDS user_id)))).

Definition cmd_help : M Bot unit :=
  let help_text :=
    u "📋 Доступные команды:" ++ [10; 10]%N
    ++ u "/start - Начать работу с ботом" ++ [10]%N
    ++ u "/help - Показать это сообщение" ++ [10]%N
    ++ u "/menu - Главное меню" ++ [10]%N
    ++ u "/stop - Завершить работу" ++ [10; 10]%N
    ++ u "Также вы можете использовать инлайн-кнопки для навигации." in
  send (message_answer help_text None).

Definition cmd_menu (user_id : Z) : M Bot unit :=
  send (message_answer (u "Главное меню:")
          (Some (get_main_keyboard (is_admin_id ADMIN_IDS user_id)))).

Definition cmd_stop : M Bot unit :=
  send (message_answer
          (u "👋 До свидания! Чтобы возобновить работу, нажмите /start")
          None).

Definition process_callback_main_menu (user_id : Z) : M Bot unit :=
  send (message_answer (u "Главное меню:")
          (Some (get_main_keyboard (is_admin_id ADMIN_IDS user_id)))) ;;;
  send (callback_answer None).

Definition process_callback_select_doctor (doctor : pystr)
    : Bot -> Bot * outcome unit :=
  fun bot =>
    let '(bot1, _) :=
      update_data (fun d =>
        mkStateData (sd_patient_name d) (Some doctor) (sd_procedure d)
          (sd_date d) (sd_time d) (sd_edit_appointment_id d)) bot in
    match get_procedures_keyboard doctor with
    | None => (bot1, Raises IndexError)
    | Some keyboard =>
        lift
          (send (message_edit_text
                   (u "💉 Выберите процедуру для " ++ doctor ++ u ":")
                   (Some keyboard)) ;;;
           set_state (Booking AppointmentStates.waiting_for_procedure) ;;;
           send (callback_answer None)) bot1
    end.

Definition process_callback_cancel (user_id : Z) : M Bot unit :=
  clear ;;;
  send (message_edit_text
          (u "❌ Действие отменено." ++ [10; 10]%N ++ u "Главное меню:")
          (Some (get_main_keyboard (is_admin_id ADMIN_IDS user_id)))) ;;;
  send (callback_answer None).

Definition process_callback_my_appointments (user_id : Z) : M Bot unit :=
  appointments <- gets (fun bot => get_appointments (db bot) (Some user_id)) ;;
  (match appointments with
   | [] =>
       send (message_answer
               (u "📭 У вас пока нет записей." ++ [10; 10]%N
                ++ u "Чтобы создать новую запись, нажмите «Записаться».")
               (Some (get_main_keyboard (is_admin_id ADMIN_IDS user_id))))
   | _ :: _ =>
       send (message_answer (u "📋 Ваши записи:")
               (Some (get_appointments_keyboard appointments false)))
   end) ;;;
  send (callback_answer None).

Definition process_callback_view_appointment (user_id appointment_id : Z)
    : M Bot unit :=
  found <- gets (fun bot => get_appointment (db bot) (Some appointment_id)) ;;
  match found with
  | None =>
      send (message_edit_text (u "❌ Запись не найдена.")
              (Some (get_main_keyboard (is_admin_id ADMIN_IDS user_id)))) ;;;
      send (callback_answer None)
  | Some appointment =>
      let txt := format_appointment appointment false in
      let is_admin := is_admin_id ADMIN_IDS user_id in
      send (message_edit_text txt
              (Some (get_appointment_actions_keyboard appointment_id
                       is_admin))) ;;;
      send (callback_answer None)
  end.

Definition process_callback_doctors_list (user_id : Z) : M Bot unit :=
  let txt :=
    fold_left (fun txt doctor => txt ++ u "• " ++ doctor ++ [10]%N) DOCTORS
      (u "👨‍⚕️ Наши врачи:" ++ [10; 10]%N) in
  send (message_answer txt
          (Some (get_main_keyboard (is_admin_id ADMIN_IDS user_id)))) ;;;
  send (callback_answer None).

Definition process_callback_about (user_id : Z) : M Bot unit :=
  let txt :=
    u "🏥 Клиника «Здоровье»" ++ [10; 10]%N
    ++ u "📍 Адрес: г. Москва, ул. Медицинская, д. 10" ++ [10]%N
    ++ u "📞 Телефон: +7 (495) 123-45-67" ++ [10]%N
    ++ u "🕒 Режим работы: Пн-Пт 8:00-20:00, Сб 9:00-18:00" ++ [10; 10]%N
    ++ u "Мы заботимся о вашем здоровье!" in
  send (message_answer txt
          (Some (get_main_keyboard (is_admin_id ADMIN_IDS user_id)))) ;;;
  send (callback_answer None).

Definition process_callback_all_appointments (user_id : Z) : M Bot unit :=
  if negb (is_admin_id ADMIN_IDS user_id)
  then access_denied
  else
    appointments <- gets (fun bot => get_appointments (db bot) None) ;;
    match appointments with
    | [] =>
        send (message_answer (u "📭 Нет записей.")
                (Some (get_main_keyboard true))) ;;;
        send (callback_answer None)
    | _ :: _ =>
        send (message_answer (u "📋 Все записи:")
                (Some (get_appointments_keyboard appointments true))) ;;;
        send (callback_answer None)
    end.

Definition process_callback_admin_view (user_id appointment_id : Z)
    : M Bot unit :=
  if negb (is_admin_id ADMIN_IDS user_id)
  then access_denied
  else
    found <- gets (fun bot => get_appointment (db bot) (Some appointment_id)) ;;
    match found with
    | None =>
        send (message_edit_text (u "❌ Запись не найдена.")
                (Some (get_main_keyboard true))) ;;;
        send (callback_answer None)
    | Some appointment =>
        let txt := format_appointment appointment true in
        send (message_edit_text txt
                (Some (get_appointment_actions_keyboard appointment_id
                         true))) ;;;
        send (callback_answer None)
    end.

Definition process_callback_delete_appointment (user_id appointment_id : Z)
    : M Bot unit :=
  if negb (is_admin_id ADMIN_IDS user_id)
  then access_denied
  else
    ok <- on_db (delete_appointment env appointment_id) ;;
    (if ok : bool
     then send (message_edit_text (u "✅ Запись успешно удалена.")
                  (Some (get_main_keyboard true)))
     else send (message_edit_text (u "❌ Не удалось удалить запись.")
                  (Some (get_main_keyboard true)))) ;;;
    send (callback_answer None).

Definition process_callback_edit_appointment (user_id appointment_id : Z)
    : M Bot unit :=
  if negb (is_admin_id ADMIN_IDS user_id)
  then access_denied
  else
    send (message_edit_text (u "✏️ Что вы хотите отредактировать?")
            (Some (get_admin_edit_keyboard appointment_id))) ;;;
    send (callback_answer None).

Definition set_edit_appointment_id (appointment_id : Z) : M Bot unit :=
  update_data (fun d =>
    mkStateData (sd_patient_name d) (sd_doctor d) (sd_procedure d)
      (sd_date d) (sd_time d) (Some appointment_id)).

Definition process_callback_edit_patient_name (user_id appointment_id : Z)
    : M Bot unit :=
  if negb (is_admin_id ADMIN_IDS user_id)
  then access_denied
  else
    set_edit_appointment_id appointment_id ;;;
    send (message_edit_text (u "👤 Введите новое имя пациента:")
            (Some get_cancel_keyboard)) ;;;
    set_state (Editing EditStates.waiting_for_new_patient_name) ;;;
    send (callback_answer None).

Definition process_new_patient_name (message_text : option pystr)
    : M Bot unit :=
  data <- get_data ;;
  let appointment_id := sd_edit_appointment_id data in
  match message_text with
  | None => raise AttributeError
  | Some t =>
      let new_name := strip t in
      if (len new_name <? 2) || (50 <? len new_name)
      then send (message_answer (u "❌ Некорректное имя. Попробуйте снова:")
                   None)
      else
        ok <- on_db (update_appointment env appointment_id
                       [kw_patient_name new_name]) ;;
        (if ok : bool
         then send (message_answer (u "✅ Имя пациента успешно обновлено!")
                      None)
         else send (message_answer (u "❌ Не удалось обновить имя.") None)) ;;;
        clear
  end.

Definition process_callback_edit_doctor (user_id appointment_id : Z)
    : M Bot unit :=
  if negb (is_admin_id ADMIN_IDS user_id)
  then access_denied
  else
    set_edit_appointment_id appointment_id ;;;
    send (message_edit_text (u "👨‍⚕️ Выберите нового врача:")
            (Some get_doctors_keyboard_for_edit)) ;;;
    set_state (Editing EditStates.waiting_for_new_doctor) ;;;
    send (callback_answer None).

Definition process_callback_edit_procedure (user_id appointment_id : Z)
    : Bot -> Bot * outcome unit :=
  fun bot =>
    if negb (is_admin_id ADMIN_IDS user_id)
    then lift access_denied bot
    else
      match get_appointment (db bot) (Some appointment_id) with
      | None =>
          lift (send (message_edit_text (u "❌ Запись не найдена") None) ;;;
                send (callback_answer None)) bot
      | Some appointment =>
          let '(bot1, _) := set_edit_appointment_id appointment_id bot in
          match first_word (apt_doctor appointment) with
          | None => (bot1, Raises IndexError)
          | Some w =>
              let doctor_key := lower w in
              let procedures :=
                dict_get PROCEDURES doctor_key [u "Консультация"] in
              let buttons :=
                procedure_buttons (u "edit_select_procedure:") procedures
                ++ [[mkButton (u "◀️ Назад")
                       (u "view_appointment:"
                        ++ str_of_int appointment_id)]] in
              lift
                (send (message_edit_text
                         (u "💉 Выберите новую процедуру для "
                          ++ apt_doctor appointment ++ u ":")
                         (Some buttons)) ;;;
                 set_state (Editing EditStates.waiting_for_new_procedure) ;;;
                 send (callback_answer None)) bot1
          end
      end.

Definition process_callback_select_new_procedure (procedure : pystr)
    : M Bot unit :=
  data <- get_data ;;
  let appointment_id := sd_edit_appointment_id data in
  ok <- on_db (update_appointment env appointment_id [kw_procedure procedure]) ;;
  (if ok : bool
   then send (message_edit_text (u "✅ Процедура успешно обновлена!") None)
   else send (message_edit_text (u "❌ Не удалось обновить процедуру.") None)) ;;;
  clear ;;;
  send (callback_answer None).

Definition process_callback_edit_time (user_id appointment_id : Z)
    : M Bot unit :=
  if negb (is_admin_id ADMIN_IDS user_id)
  then access_denied
  else
    set_edit_appointment_id appointment_id ;;;
    send (message_edit_text (u "⏰ Выберите новое время:")
            (Some (edit_time_keyboard appointment_id))) ;;;
    set_state (Editing EditStates.waiting_for_new_time) ;;;
    send (callback_answer None).

Definition ran (handler : M Bot unit) : Bot -> Bot * outcome bool :=
  lift (handler ;;; ret true).

Definition ran_in (s : State) (handler : M Bot unit)
    : Bot -> Bot * outcome bool :=
  lift (StateFilter s handler).

Definition then_true (handler : Bot -> Bot * outcome unit)
    : Bot -> Bot * outcome bool :=
  fun bot =>
    match handler bot with
    | (bot', Returns _) => (bot', Returns true)
    | (bot', Raises e) => (bot', Raises e)
    end.

(** The handler that an update of user [user_id] reaches: the first
    one, in the order of registration, whose filters accept it.  For a
    message these are the four command handlers, which have no state
    filter, and then the two name steps.  The result tells whether a
    handler ran. *)
Definition dispatch (user_id : Z) (upd : Update) : Bot -> Bot * outcome bool :=
  match upd with
  | Message username first_name message_text =>
      fun bot =>
        if Command (u "start") message_text
        then ran (cmd_start user_id username first_name) bot
        else if Command (u "help") message_text then ran cmd_help bot
        else if Command (u "menu") message_text
        then ran (cmd_menu user_id) bot
        else if Command (u "stop") message_text then ran cmd_stop bot
        else if bool_decide
                  (fsm_state (state bot)
                   = Some (Booking AppointmentStates.waiting_for_patient_name))
        then ran (process_patient_name message_text) bot
        else
          ran_in (Editing EditStates.waiting_for_new_patient_name)
            (process_new_patient_name message_text) bot
  | Callback_main_menu => ran (process_callback_main_menu user_id)
  | Callback_make_appointment => ran process_callback_make_appointment
  | Callback_select_doctor doctor =>
      fun bot =>
        if bool_decide
             (fsm_state (state bot)
              = Some (Booking AppointmentStates.waiting_for_doctor))
        then then_true (process_callback_select_doctor doctor) bot
        else (bot, Returns false)
  | Callback_select_procedure procedure =>
      lift (on_select_procedure today procedure)
  | Callback_select_date date => lift (on_select_date date)
  | Callback_select_time time => lift (on_select_time time)
  | Callback_confirm => lift (on_confirm ADMIN_IDS env user_id)
  | Callback_cancel => ran (process_callback_cancel user_id)
  | Callback_my_appointments => ran (process_callback_my_appointments user_id)
  | Callback_view_appointment appointment_id =>
      ran (process_callback_view_appointment user_id appointment_id)
  | Callback_cancel_appointment appointment_id =>
      ran (process_callback_cancel_appointment ADMIN_IDS env user_id
             appointment_id)
  | Callback_doctors_list => ran (process_callback_doctors_list user_id)
  | Callback_about => ran (process_callback_about user_id)
  | Callback_all_appointments =>
      ran (process_callback_all_appointments user_id)
  | Callback_admin_view appointment_id =>
      ran (process_callback_admin_view user_id appointment_id)
  | Callback_delete_appointment appointment_id =>
      ran (process_callback_delete_appointment user_id appointment_id)
  | Callback_edit_appointment appointment_id =>
      ran (process_callback_edit_appointment user_id appointment_id)
  | Callback_edit_patient_name appointment_id =>
      ran (process_callback_edit_patient_name user_id appointment_id)
  | Callback_edit_doctor appointment_id =>
      ran (process_callback_edit_doctor user_id appointment_id)
  | Callback_edit_select_doctor doctor =>
      lift (on_edit_select_doctor env doctor)
  | Callback_edit_procedure appointment_id =>
      then_true (process_callback_edit_procedure user_id appointment_id)
  | Callback_edit_select_procedure procedure =>
      ran_in (Editing EditStates.waiting_for_new_procedure)
        (process_callback_select_new_procedure procedure)
  | Callback_edit_date appointment_id =>
      ran (process_callback_edit_date ADMIN_IDS today user_id appointment_id)
  | Callback_edit_select_date date => lift (on_edit_select_date env date)
  | Callback_edit_time appointment_id =>
      ran (process_callback_edit_time user_id appointment_id)
  | Callback_edit_select_time time => lift (on_edit_select_time env time)
  end.
End Routing.

(** ** The bot with the FSM contexts of all its users *)

(** [MemoryStorage] keeps one context per user; a user it has not seen
    has no state and no data. *)
Record World := mkWorld {
  w_db : Database;
  storage : gmap Z FSMContext
}.

Definition context_of (w : World) (user_id : Z) : FSMContext :=
  default {| fsm_state := None; fsm_data := no_data |} (storage w !! user_id).

(** One update as it arrives: from whom, when, and with what file system. *)
Record Delivery := mkDelivery {
  at_env : Env;
  at_day : Z;
  from_user : Z;
  update : Update
}.

Definition handle (ADMIN_IDS : list Z) (lower : pystr -> pystr)
    (command_of : pystr -> option pystr) (d : Delivery) (w : World)
    : Bot * outcome bool :=
  dispatch ADMIN_IDS (at_env d) lower command_of (at_day d) (from_user d)
    (update d)
    {| db := w_db w; state := context_of w (from_user d); sent := [] |}.

(** The world after an update; an exception of the handler is logged by
    the dispatcher and what the handler did before it stays done. *)
Definition deliver (ADMIN_IDS : list Z) (lower : pystr -> pystr)
    (command_of : pystr -> option pystr) (w : World) (d : Delivery) : World :=
  let bot := (handle ADMIN_IDS lower command_of d w).1 in
  {| w_db := db bot;
     storage := <[from_user d := state bot]> (storage w) |}.

Definition deliver_all (ADMIN_IDS : list Z) (lower : pystr -> pystr)
    (command_of : pystr -> option pystr) (ds : list Delivery) (w : World)
    : World :=
  fold_left (deliver ADMIN_IDS lower command_of) ds w.

(** The bot at start-up with no file: the empty store, written or not,
    and no contexts. *)
Definition fresh_world (env : Env) : World :=
  {| w_db := (load_data env None).1; storage := ∅ |}.

(** ** Vocabulary of the further properties *)

(** Ids 1, 2, ... in the order of the records, and [next_id] the one
    after the last. *)
Definition sequential (self : Database) : Prop :=
  map apt_id (appointments (data self))
  = seqZ 1 (Z.of_nat (length (appointments (data self))))
  /\ next_id (data self) = 1 + Z.of_nat (length (appointments (data self))).

Definition creations (cs : list (Env * call)) : nat :=
  length (List.filter
            (fun ec => match ec.2 with
                       | call_create_appointment _ _ _ _ _ _ => true
                       | _ => false
                       end) cs).

(** The calls the handlers make: [update_appointment] with one of the
    five editable fields, or with [status='deleted'] through
    [delete_appointment]. *)
Definition handler_call (c : call) : bool :=
  match c with
  | call_update_appointment _ [kw_patient_name _]
  | call_update_appointment _ [kw_doctor _]
  | call_update_appointment _ [kw_procedure _]
  | call_update_appointment _ [kw_date _]
  | call_update_appointment _ [kw_time _] => true
  | call_update_appointment _ _ => false
  | _ => true
  end.

(** [str.lower] on the Latin and Russian alphabets, to run the handlers
    on the roster. *)
Definition lower_basic (s : pystr) : pystr :=
  map (fun c =>
         if ((65 <=? c) && (c <=? 90))%N then (c + 32)%N
         else if ((1040 <=? c) && (c <=? 1071))%N then (c + 32)%N
         else if ((1024 <=? c) && (c <=? 1039))%N then (c + 80)%N
         else c) s.

(** The parsing of [Command] on a text without a mention: the first
    word, when it begins with a slash, without the slash; to run the
    dispatcher on examples. *)
Definition command_basic (t : pystr) : option pystr :=
  match first_word t with
  | Some (47 :: name)%N => Some name
  | _ => None
  end.

(** A context that is in one of the edit states. *)
Definition editing (c : FSMContext) : bool :=
  match fsm_state c with
  | Some (Editing _) => true
  | _ => false
  end.

(** No user outside [ADMIN_IDS] is in an edit state. *)
Definition edit_states_are_admins (ADMIN_IDS : list Z) (w : World) : Prop :=
  forall user_id,
    is_admin_id ADMIN_IDS user_id = false ->
    editing (context_of w user_id) = false.

(** The calls that do not rewrite the fields of a record: registration,
    creation and soft delete. *)
Definition member_call (c : call) : bool :=
  match c with
  | call_update_appointment _ _ => false
  | _ => true
  end.

(** The updates whose handlers begin with the administrator check. *)
Definition admin_only (upd : Update) : bool :=
  match upd with
  | Callback_all_appointments
  | Callback_admin_view _
  | Callback_delete_appointment _
  | Callback_edit_appointment _
  | Callback_edit_patient_name _
  | Callback_edit_doctor _
  | Callback_edit_procedure _
  | Callback_edit_date _
  | Callback_edit_time _ => true
  | _ => false
  end.

(** The updates whose handlers are registered with a state filter: the
    messages that are no command, and the selections of the wizards. *)
Definition state_filtered (command_of : pystr -> option pystr) (upd : Update)
    : bool :=
  match upd with
  | Message _ _ message_text => negb (commanded command_of message_text)
  | Callback_select_doctor _
  | Callback_select_procedure _
  | Callback_select_date _
  | Callback_select_time _
  | Callback_confirm
  | Callback_edit_select_doctor _
  | Callback_edit_select_procedure _
  | Callback_edit_select_date _
  | Callback_edit_select_time _ => true
  | _ => false
  end.

Definition denied (bot : Bot) : Bot :=
  {| db := db bot; state := state bot;
     sent := sent bot ++ [callback_answer (Some (u "⛔ Доступ запрещен"))] |}.

Definition welcome (ADMIN_IDS : list Z) (user_id : Z) (first_name : pystr)
    : Action :=
  message_answer
    (u "👋 Здравствуйте, " ++ first_name ++ u "!" ++ [10; 10]%N
     ++ u "Добро пожаловать в бот клиники «Здоровье»." ++ [10]%N
     ++ u "Здесь вы можете записаться на прием к врачу, "
     ++ u "просмотреть свои записи и управлять ими.")
    (Some (get_main_keyboard (is_admin_id ADMIN_IDS user_id))).

(** The active appointments of one owner, in the order of the store. *)
Definition own_active (self : Database) (user_id : Z) : list Appointment :=
  List.filter (fun a => bool_decide (apt_user_id a = user_id) && is_active a)
    (appointments (data self)).

(** One pass of a user through the booking wizard, from the menu button
    to "confirm"; the [k]-th update is handled at clock and file system
    [clock k] and on day [day k]. *)
Definition booking_pass (clock : nat -> Env) (day : nat -> Z) (user_id : Z)
    (username : option pystr) (first_name : pystr)
    (name doctor procedure date time : pystr) : list Delivery :=
  [mkDelivery (clock 0%nat) (day 0%nat) user_id Callback_make_appointment;
   mkDelivery (clock 1%nat) (day 1%nat) user_id
     (Message username first_name (Some name));
   mkDelivery (clock 2%nat) (day 2%nat) user_id (Callback_select_doctor doctor);
   mkDelivery (clock 3%nat) (day 3%nat) user_id
     (Callback_select_procedure procedure);
   mkDelivery (clock 4%nat) (day 4%nat) user_id (Callback_select_date date);
   mkDelivery (clock 5%nat) (day 5%nat) user_id (Callback_select_time time);
   mkDelivery (clock 6%nat) (day 6%nat) user_id Callback_confirm].

(** Keyword arguments without the key [id]. *)
Definition keeps_id (kwargs : list kwarg) : bool :=
  forallb (fun kw => match kw with kw_id _ => false | _ => true end) kwargs.

Ltac run_routing :=
  unfold ran, ran_in, then_true, lift, StateFilter, on_db, send, set_state,
    update_data, set_edit_appointment_id, get_data, clear, on_state,
    access_denied, subscript, bind, ret, gets, modify, raise; simpl.

Ltac listed := apply (bool_decide_unpack _); vm_compute; exact I.

Ltac in_filters :=
  unfold callback_filters; repeat (first [left; reflexivity | right]).

(** ** Further concrete inputs *)

Definition demo_world : World := {| w_db := demo_store; storage := ∅ |}.

Definition demo_pass (user_id : Z) (name doctor time : pystr)
    : list Delivery :=
  booking_pass (fun _ => demo_env) (fun _ => 739924) user_id None name name
    doctor (u "Консультация") (u "05.11.2026") time.

(** A user starts the bot; two users book, an outsider tries the edit
    menu, and the second user cancels the first user's appointment. *)
Definition demo_deliveries : list Delivery :=
  [mkDelivery demo_env 739924 7
     (Message (Some (u "ann")) (u "Ann") (Some (u "/start")))]
  ++ demo_pass 7 (u "Ann Lee") surgeon (u "09:00")
  ++ demo_pass 8 (u "Bob Ray") therapist (u "10:00")
  ++ [mkDelivery demo_env 739924 8 (Callback_edit_doctor 1);
      mkDelivery demo_env 739924 8 (Callback_edit_select_doctor therapist);
      mkDelivery offline_env 739924 8 (Callback_cancel_appointment 1)].

Definition demo_bot (c : FSMContext) : Bot :=
  {| db := demo_store; state := c; sent := [] |}.

(** * Properties *)

(** ** The lists behind the store's methods *)

Lemma deleted_not_active : deleted ≠ active.
Proof. unfold deleted, active. vm_compute. discriminate. Qed.

Lemma slot_free_step a l doctor date time :
  slot_free (a :: l) doctor date time
  = if occupies doctor date time a then false
    else slot_free l doctor date time.
Proof. reflexivity. Qed.

Lemma slot_free_filter l doctor date time :
  slot_free l doctor date time = true
  <-> List.filter (occupies doctor date time) l = [].
Proof.
  induction l as [|a l IH]; [done|].
  rewrite slot_free_step. simpl List.filter.
  destruct (occupies doctor date time a); [split; discriminate | exact IH].
Qed.

Lemma slot_free_occupied l doctor date time a :
  a ∈ l -> occupies doctor date time a = true ->
  slot_free l doctor date time = false.
Proof.
  intros Hin Hocc. apply not_true_is_false. intros Hfree.
  apply slot_free_filter in Hfree.
  assert (In a (List.filter (occupies doctor date time) l)) as Hf.
  { apply filter_In. split; [by apply list_elem_of_In | done]. }
  rewrite Hfree in Hf. destruct Hf.
Qed.

Lemma find_appointment_elem l j a :
  find_appointment l j = Some a -> a ∈ l /\ Some (apt_id a) = j.
Proof.
  induction l as [|b l IH]; simpl; [done|].
  case_bool_decide as Hb.
  - intros [= <-]. split; [left | done].
  - intros H. destruct (IH H). split; [by right | done].
Qed.

Lemma find_appointment_app l b j a :
  find_appointment l j = Some a -> find_appointment (l ++ [b]) j = Some a.
Proof.
  induction l as [|c l IH]; simpl; [done|].
  case_bool_decide; [done | exact IH].
Qed.

Lemma find_appointment_fresh l b (i : Z) :
  Forall (fun a => apt_id a ≠ i) l -> apt_id b = i ->
  find_appointment (l ++ [b]) (Some i) = Some b.
Proof.
  intros Hl Hb. induction Hl as [|c l Hc Hl IH]; simpl.
  - rewrite bool_decide_true; [done | by rewrite Hb].
  - rewrite bool_decide_false; [exact IH | congruence].
Qed.

Lemma find_appointment_unique l a b :
  NoDup (map apt_id l) ->
  find_appointment l (Some (apt_id b)) = Some a -> b ∈ l -> b = a.
Proof.
  induction l as [|c l IH]; simpl; intros Hnd Hfind Hin.
  - by apply elem_of_nil in Hin.
  - apply NoDup_cons in Hnd as [Hc Hnd].
    case_bool_decide as Hid.
    + injection Hfind as <-. apply elem_of_cons in Hin as [->|Hin]; [done|].
      exfalso. apply Hc. injection Hid as ->.
      apply list_elem_of_fmap. by exists b.
    + apply elem_of_cons in Hin as [->|Hin]; [done | by apply IH].
Qed.

Lemma dict_update_id a kwargs :
  forallb wizard_kwarg kwargs = true ->
  apt_id (dict_update a kwargs) = apt_id a.
Proof.
  unfold dict_update. revert a.
  induction kwargs as [|kw kwargs IH]; intros a; simpl; [done|].
  intros [Hkw Hrest]%andb_true_iff. rewrite (IH _ Hrest).
  by destruct kw.
Qed.

Lemma dict_update_deleted a kwargs :
  forallb wizard_kwarg kwargs = true ->
  apt_status a = deleted -> apt_status (dict_update a kwargs) = deleted.
Proof.
  unfold dict_update. revert a.
  induction kwargs as [|kw kwargs IH]; intros a; simpl; [done|].
  intros [Hkw Hrest]%andb_true_iff Ha. apply (IH _ Hrest).
  destruct kw; simpl in *; try done. by apply bool_decide_eq_true in Hkw.
Qed.

Lemma update_first_ids l j kwargs l' :
  forallb wizard_kwarg kwargs = true ->
  update_first l j kwargs = Some l' -> map apt_id l' = map apt_id l.
Proof.
  intros Hkw. revert l'.
  induction l as [|b l IH]; intros l'; simpl; [done|].
  case_bool_decide.
  - intros [= <-]. simpl. by rewrite dict_update_id.
  - destruct (update_first l j kwargs) as [l0|]; simpl; [|done].
    intros [= <-]. simpl. by rewrite (IH l0).
Qed.

Lemma find_update_first l j kwargs l' k :
  forallb wizard_kwarg kwargs = true ->
  update_first l j kwargs = Some l' ->
  find_appointment l' k
  = if bool_decide (j = k)
    then (fun a => dict_update a kwargs) <$> find_appointment l k
    else find_appointment l k.
Proof.
  intros Hkw. revert l'.
  induction l as [|b l IH]; intros l'; simpl; [done|].
  destruct (bool_decide (Some (apt_id b) = j)) eqn:Hb.
  - apply bool_decide_eq_true in Hb. intros [= <-]. simpl.
    rewrite dict_update_id by done. subst j.
    by destruct (bool_decide (Some (apt_id b) = k)).
  - apply bool_decide_eq_false in Hb.
    destruct (update_first l j kwargs) as [l0|]; simpl; [|done].
    intros [= <-]. simpl. specialize (IH l0 eq_refl).
    destruct (bool_decide (Some (apt_id b) = k)) eqn:Hk.
    + apply bool_decide_eq_true in Hk.
      rewrite bool_decide_false; [done | congruence].
    + exact IH.
Qed.

Lemma update_first_found l j kwargs a :
  find_appointment l j = Some a ->
  exists l1 l2, l = l1 ++ a :: l2
    /\ update_first l j kwargs = Some (l1 ++ dict_update a kwargs :: l2).
Proof.
  induction l as [|b l IH]; simpl; [done|].
  case_bool_decide.
  - intros [= <-]. by exists [], l.
  - intros Hf. destruct (IH Hf) as (l1 & l2 & -> & ->).
    by exists (b :: l1), l2.
Qed.

Lemma update_first_missing l j kwargs :
  find_appointment l j = None -> update_first l j kwargs = None.
Proof.
  induction l as [|b l IH]; simpl; [done|].
  case_bool_decide; [done|]. intros Hf. by rewrite IH.
Qed.

(** ** What a call does to the document in memory *)

Lemma returning_fst {A} (f : A -> value) (m : M Database A) self :
  (returning f m self).1 = (m self).1.
Proof. unfold returning, bind, ret. by destruct (m self) as [s' [a|e]]. Qed.

Lemma exec_appointments env c self :
  appointments (data (exec env c self).1) = appointments_after env c self.
Proof.
  destruct c; run_store.
  - destruct (users (data self) !! str_of_int user_id); simpl; [done|].
    by destruct (writable env).
  - by destruct (writable env).
  - destruct (update_first _ _ _); simpl; [|done]. by destruct (writable env).
  - destruct (update_first _ _ _); simpl; [|done]. by destruct (writable env).
Qed.

Lemma exec_next_id env c self :
  next_id (data (exec env c self).1)
  = match c with
    | call_create_appointment _ _ _ _ _ _ => next_id (data self) + 1
    | _ => next_id (data self)
    end.
Proof.
  destruct c; run_store.
  - destruct (users (data self) !! str_of_int user_id); simpl; [done|].
    by destruct (writable env).
  - by destruct (writable env).
  - destruct (update_first _ _ _); simpl; [|done]. by destruct (writable env).
  - destruct (update_first _ _ _); simpl; [|done]. by destruct (writable env).
Qed.

Lemma wizard_status_deleted : forallb wizard_kwarg [kw_status deleted] = true.
Proof. vm_compute. reflexivity. Qed.

Lemma ids_below_map (n : Z) (l : list Appointment) :
  Forall (fun a => apt_id a < n) l <-> Forall (fun x => x < n) (map apt_id l).
Proof.
  induction l as [|a l IH]; simpl.
  - split; intros; constructor.
  - rewrite !Forall_cons. by rewrite IH.
Qed.

Lemma exec_well_formed env c self :
  wizard_call c = true -> well_formed self -> well_formed (exec env c self).1.
Proof.
  intros Hc [Hnd Hlt]. unfold well_formed.
  rewrite exec_appointments, exec_next_id.
  destruct c; simpl in *.
  - done.
  - split.
    + rewrite map_app. simpl. apply NoDup_app. split; [done|]. split.
      * intros x Hx ->%list_elem_of_singleton.
        apply list_elem_of_fmap in Hx as (a & Ha & Hin).
        rewrite Forall_forall in Hlt. specialize (Hlt a Hin). simpl in *. lia.
      * apply NoDup_singleton.
    + apply Forall_app. split.
      * eapply Forall_impl; [exact Hlt|]. simpl. intros; lia.
      * apply Forall_singleton. simpl. lia.
  - destruct (update_first _ _ _) as [l'|] eqn:Hu; simpl; [|done].
    pose proof (update_first_ids _ _ _ _ Hc Hu) as Hids.
    split; [by rewrite Hids|].
    apply ids_below_map. rewrite Hids. by apply ids_below_map.
  - destruct (update_first _ _ _) as [l'|] eqn:Hu; simpl; [|done].
    pose proof (update_first_ids _ _ _ _ wizard_status_deleted Hu) as Hids.
    split; [by rewrite Hids|].
    apply ids_below_map. rewrite Hids. by apply ids_below_map.
Qed.

Lemma run_calls_well_formed cs self :
  Forall (fun ec => wizard_call ec.2 = true) cs ->
  well_formed self -> well_formed (run_calls cs self).
Proof.
  intros Hcs. revert self.
  induction Hcs as [|[env c] cs Hc Hcs IH]; intros self Hwf; [done|].
  simpl. apply IH. by apply exec_well_formed.
Qed.

Lemma empty_well_formed f :
  well_formed {| data := empty_data; file := f |}.
Proof. split; simpl; [apply NoDup_nil_2 | apply Forall_nil_2]. Qed.

Lemma set_key_occupies doctor date time a kw :
  keeps_slot kw = true ->
  occupies doctor date time (set_key a kw) = occupies doctor date time a.
Proof. by destruct kw. Qed.

Lemma dict_update_occupies doctor date time a kwargs :
  forallb keeps_slot kwargs = true ->
  occupies doctor date time (dict_update a kwargs)
  = occupies doctor date time a.
Proof.
  unfold dict_update. revert a.
  induction kwargs as [|kw kwargs IH]; intros a; simpl; [done|].
  intros [Hkw Hrest]%andb_true_iff.
  by rewrite (IH _ Hrest), set_key_occupies.
Qed.

(** A call that keeps appointment [i] in its slot: the record found under
    [i] is still an active one of that slot. *)
Lemma exec_keeps_in_slot env c self i a doctor date time :
  keeps_in_slot i c = true ->
  get_appointment self (Some i) = Some a ->
  occupies doctor date time a = true ->
  exists a', get_appointment (exec env c self).1 (Some i) = Some a'
    /\ occupies doctor date time a' = true.
Proof.
  unfold get_appointment. rewrite exec_appointments.
  intros [Hw Hc]%andb_true_iff Hfind Hocc. destruct c; simpl in *.
  - by exists a.
  - exists a. split; [by apply find_appointment_app | done].
  - destruct (update_first _ _ _) as [l'|] eqn:Hu; simpl; [|by exists a].
    rewrite (find_update_first _ _ _ _ _ Hw Hu), Hfind.
    destruct (bool_decide (appointment_id = Some i)) eqn:Hj; [|by exists a].
    apply bool_decide_eq_true in Hj.
    apply orb_true_iff in Hc as [Hc|Hc].
    + by apply bool_decide_eq_true in Hc.
    + eexists. split; [reflexivity|]. by rewrite dict_update_occupies.
  - apply bool_decide_eq_true in Hc.
    destruct (update_first _ _ _) as [l'|] eqn:Hu; simpl; [|by exists a].
    rewrite (find_update_first _ _ _ _ _ wizard_status_deleted Hu).
    rewrite bool_decide_false; [by exists a | congruence].
Qed.

Lemma run_calls_keep_in_slot cs self i a doctor date time :
  Forall (fun ec => keeps_in_slot i ec.2 = true) cs ->
  get_appointment self (Some i) = Some a ->
  occupies doctor date time a = true ->
  exists a', get_appointment (run_calls cs self) (Some i) = Some a'
    /\ occupies doctor date time a' = true.
Proof.
  intros Hcs. revert self a.
  induction Hcs as [|[env c] cs Hc Hcs IH]; intros self a Hf Ho.
  - by exists a.
  - simpl.
    destruct (exec_keeps_in_slot env c self i a _ _ _ Hc Hf Ho)
      as (a' & Hf' & Ho').
    by apply (IH _ a').
Qed.

(** No call of the wizards brings a deleted record back. *)
Lemma exec_stays_deleted env c self i a :
  wizard_call c = true ->
  get_appointment self (Some i) = Some a -> apt_status a = deleted ->
  exists a', get_appointment (exec env c self).1 (Some i) = Some a'
    /\ apt_status a' = deleted.
Proof.
  unfold get_appointment. rewrite exec_appointments.
  intros Hw Hfind Hdel. destruct c; simpl in *.
  - by exists a.
  - exists a. split; [by apply find_appointment_app | done].
  - destruct (update_first _ _ _) as [l'|] eqn:Hu; simpl; [|by exists a].
    rewrite (find_update_first _ _ _ _ _ Hw Hu), Hfind.
    case_bool_decide; simpl; [|by exists a].
    eexists. split; [done|]. by apply dict_update_deleted.
  - destruct (update_first _ _ _) as [l'|] eqn:Hu; simpl; [|by exists a].
    rewrite (find_update_first _ _ _ _ _ wizard_status_deleted Hu), Hfind.
    case_bool_decide; simpl; [|by exists a].
    by eexists.
Qed.

Lemma run_calls_stays_deleted cs self i a :
  Forall (fun ec => wizard_call ec.2 = true) cs ->
  get_appointment self (Some i) = Some a -> apt_status a = deleted ->
  exists a', get_appointment (run_calls cs self) (Some i) = Some a'
    /\ apt_status a' = deleted.
Proof.
  intros Hcs. revert self a.
  induction Hcs as [|[env c] cs Hc Hcs IH]; intros self a Hf Hd.
  - by exists a.
  - simpl.
    destruct (exec_stays_deleted env c self i a Hc Hf Hd) as (a' & Hf' & Hd').
    by apply (IH _ a').
Qed.

Lemma found_unavailable self j a doctor date time :
  get_appointment self j = Some a ->
  occupies doctor date time a = true ->
  is_appointment_available self doctor date time = false.
Proof.
  intros Hf Ho. apply find_appointment_elem in Hf as [Hin _].
  by eapply slot_free_occupied.
Qed.

Lemma update_appointment_found env self j kwargs a :
  get_appointment self j = Some a ->
  exists l1 l2,
    appointments (data self) = l1 ++ a :: l2
    /\ update_appointment env j kwargs self
       = (if writable env
          then ({| data := {| appointments := l1 ++ dict_update a kwargs :: l2;
                              users := users (data self);
                              next_id := next_id (data self) |};
                   file := Some {| appointments := l1 ++ dict_update a kwargs :: l2;
                                   users := users (data self);
                                   next_id := next_id (data self) |} |},
                Ok true)
          else ({| data := {| appointments := l1 ++ dict_update a kwargs :: l2;
                              users := users (data self);
                              next_id := next_id (data self) |};
                   file := file self |},
                Raise OSError)).
Proof.
  intros Hf.
  destruct (update_first_found _ _ kwargs _ Hf) as (l1 & l2 & Hl & Hu).
  exists l1, l2. split; [done|].
  unfold update_appointment. rewrite Hu. run_store.
  by destruct (writable env).
Qed.

Lemma update_appointment_missing env self j kwargs :
  get_appointment self j = None ->
  update_appointment env j kwargs self = (self, Ok false).
Proof.
  intros Hf. unfold update_appointment.
  by rewrite (update_first_missing _ _ _ Hf).
Qed.

Lemma get_after_update env self j kwargs a :
  forallb wizard_kwarg kwargs = true ->
  get_appointment self j = Some a ->
  get_appointment (update_appointment env j kwargs self).1 j
  = Some (dict_update a kwargs).
Proof.
  intros Hkw Hf. unfold get_appointment, update_appointment.
  destruct (update_first_found _ _ kwargs _ Hf) as (l1 & l2 & Hl & Hu).
  rewrite Hu. run_store.
  assert (find_appointment (l1 ++ dict_update a kwargs :: l2) j
          = Some (dict_update a kwargs)) as Hfind.
  { rewrite (find_update_first _ _ _ _ j Hkw Hu).
    rewrite bool_decide_true by done. unfold get_appointment in Hf.
    by rewrite Hf. }
  by destruct (writable env).
Qed.

Lemma filter_cons_false {A} (p : A -> bool) x l :
  p x = false -> List.filter p (x :: l) = List.filter p l.
Proof. intros H. simpl. by rewrite H. Qed.

Lemma filter_singleton_middle {A} (p : A -> bool) l1 a l2 :
  p a = true -> List.filter p (l1 ++ a :: l2) = [a] ->
  List.filter p l1 = [] /\ List.filter p l2 = [].
Proof.
  intros Ha. rewrite List.filter_app. simpl. rewrite Ha.
  destruct (List.filter p l1) as [|x f1]; simpl.
  - intros H. by simplify_eq.
  - intros H. simplify_eq. by destruct f1.
Qed.

Lemma new_appointment_occupies env self user_id patient_name doctor
    procedure date time :
  occupies doctor date time
    (new_appointment env self user_id patient_name doctor procedure date time)
  = true.
Proof. unfold occupies. simpl. by rewrite !bool_decide_true. Qed.

Lemma create_appointment_found env self user_id patient_name doctor
    procedure date time :
  well_formed self ->
  get_appointment
    (create_appointment env user_id patient_name doctor procedure date time
       self).1 (Some (next_id (data self)))
  = Some (new_appointment env self user_id patient_name doctor procedure
            date time).
Proof.
  intros [_ Hlt]. unfold get_appointment.
  rewrite <- (returning_fst VInt).
  change (returning VInt _ self)
    with (exec env (call_create_appointment user_id patient_name doctor
                      procedure date time) self).
  rewrite exec_appointments. simpl.
  apply find_appointment_fresh; [|done].
  eapply Forall_impl; [exact Hlt|]. simpl. intros; lia.
Qed.

Lemma mark_deleted_vacates doctor date time a :
  occupies doctor date time (mark_deleted a) = false.
Proof.
  reflexivity.
Qed.

(** ** C1: a created appointment holds its slot until it is soft-deleted
    or moved *)

(** C1, amended.  After a successful [create_appointment] for a triple
    (doctor, date, time), [is_appointment_available] is false for that
    triple.  It stays false through every sequence of the handlers' store
    calls that neither soft-delete the new appointment nor update its
    doctor, date or time: the record found under its id is then still an
    active one of the triple.  From there, any update of that appointment
    ([delete_appointment] is the update to status deleted) frees the
    triple exactly when the updated record is no longer an active one of
    it, provided the appointment was the only active one there; so the
    soft delete makes the triple available again, and so does moving
    the appointment to another doctor, date or time. *)
Theorem slot_taken_until_deleted_or_moved
    (env : Env) (user_id : Z)
    (patient_name doctor procedure date time : pystr) (self : Database) :
  writable env = true ->
  well_formed self ->
  let i := next_id (data self) in
  exists db1,
    create_appointment env user_id patient_name doctor procedure date time
      self = (db1, Ok i)
    /\ is_appointment_available db1 doctor date time = false
    /\ forall cs, Forall (fun ec => keeps_in_slot i ec.2 = true) cs ->
       let db2 := run_calls cs db1 in
       is_appointment_available db2 doctor date time = false
       /\ exists a,
            get_appointment db2 (Some i) = Some a
            /\ apt_status a = active /\ apt_doctor a = doctor
            /\ apt_date a = date /\ apt_time a = time
            /\ (forall env',
                  let db3 := (delete_appointment env' i db2).1 in
                  (writable env' = true ->
                   (delete_appointment env' i db2).2 = Ok true)
                  /\ get_appointment db3 (Some i) = Some (mark_deleted a)
                  /\ (List.filter (occupies doctor date time)
                        (appointments (data db2)) = [a] ->
                      is_appointment_available db3 doctor date time = true))
            /\ forall env' kwargs,
                 let db3 := (update_appointment env' (Some i) kwargs db2).1 in
                 List.filter (occupies doctor date time)
                   (appointments (data db2)) = [a] ->
                 is_appointment_available db3 doctor date time
                 = negb (occupies doctor date time (dict_update a kwargs)).
Proof.
  intros Hw Hwf i.
  pose proof (create_appointment_found env self user_id patient_name doctor
                procedure date time Hwf) as Hfound.
  destruct (create_appointment env user_id patient_name doctor procedure
              date time self) as [db1 r] eqn:Hc.
  exists db1. simpl in Hfound. fold i in Hfound.
  assert (r = Ok i) as ->.
  { revert Hc. run_store. rewrite Hw. by intros [= _ <-]. }
  pose proof (new_appointment_occupies env self user_id patient_name doctor
                procedure date time) as Hocc.
  split; [done|]. split; [by eapply found_unavailable|].
  intros cs Hcs db2.
  destruct (run_calls_keep_in_slot cs db1 i _ _ _ _ Hcs Hfound Hocc)
    as (a & Hf2 & Ho2).
  fold db2 in Hf2.
  split; [by eapply found_unavailable|].
  exists a. split; [exact Hf2|].
  pose proof Ho2 as Ho2'. unfold occupies in Ho2'.
  apply andb_true_iff in Ho2' as [Ho2' Ht%bool_decide_eq_true].
  apply andb_true_iff in Ho2' as [Ho2' Hd%bool_decide_eq_true].
  apply andb_true_iff in Ho2' as [Hs%bool_decide_eq_true Hdoc%bool_decide_eq_true].
  do 4 (split; [done|]).
  assert (forall env' kwargs,
            List.filter (occupies doctor date time) (appointments (data db2))
            = [a] ->
            is_appointment_available
              (update_appointment env' (Some i) kwargs db2).1 doctor date time
            = negb (occupies doctor date time (dict_update a kwargs)))
    as Hmove.
  { intros env' kwargs.
    destruct (update_appointment_found env' db2 (Some i) kwargs a Hf2)
      as (l1 & l2 & Hl & Hu).
    rewrite Hl. intros Honly.
    destruct (filter_singleton_middle _ _ _ _ Ho2 Honly) as [H1 H2].
    assert (appointments (data (update_appointment env' (Some i) kwargs db2).1)
            = l1 ++ dict_update a kwargs :: l2) as Hafter.
    { rewrite Hu. by destruct (writable env'). }
    unfold is_appointment_available. rewrite Hafter.
    destruct (occupies doctor date time (dict_update a kwargs)) eqn:Hk; simpl.
    - eapply slot_free_occupied; [|exact Hk].
      apply elem_of_app. right. left.
    - apply slot_free_filter. rewrite List.filter_app, H1.
      by rewrite filter_cons_false. }
  split; [|exact Hmove].
  intros env' db3. unfold db3. split; [|split].
  - intros Hw'. unfold delete_appointment.
    destruct (update_appointment_found env' db2 (Some i) [kw_status deleted]
                a Hf2) as (l1 & l2 & Hl & Hu).
    by rewrite Hu, Hw'.
  - unfold delete_appointment.
    by apply get_after_update; [apply wizard_status_deleted|].
  - intros Honly. unfold delete_appointment. by rewrite Hmove.
Qed.

(** ** C5: soft-deleted records are hidden from listings, not from lookup *)

Lemma get_appointments_elem self user_id a :
  a ∈ get_appointments self user_id ->
  a ∈ appointments (data self) /\ apt_status a = active.
Proof.
  unfold get_appointments. intros Hin. apply list_elem_of_In in Hin.
  destruct (truthy user_id); apply filter_In in Hin as [Hin Hp].
  - apply andb_true_iff in Hp as [_ Hp]. apply bool_decide_eq_true in Hp.
    split; [by apply list_elem_of_In | done].
  - apply bool_decide_eq_true in Hp.
    split; [by apply list_elem_of_In | done].
Qed.

Lemma filter_sublist {A} (p : A -> bool) (l : list A) :
  sublist (List.filter p l) l.
Proof.
  induction l as [|x l IH]; simpl; [constructor|].
  destruct (p x); by constructor.
Qed.

Lemma get_appointments_sublist self user_id :
  sublist (get_appointments self user_id) (appointments (data self)).
Proof.
  unfold get_appointments. destruct (truthy user_id); apply filter_sublist.
Qed.

(** The owner filter of [get_appointments]: no filter when the argument
    is falsy, else equality with the record's [user_id]. *)
Lemma get_appointments_listed self user_id a :
  a ∈ get_appointments self user_id
  <-> a ∈ appointments (data self)
      /\ apt_status a = active
      /\ (truthy user_id = true -> user_id = Some (apt_user_id a)).
Proof.
  unfold get_appointments, is_active. rewrite !list_elem_of_In.
  destruct (truthy user_id); rewrite filter_In.
  - rewrite andb_true_iff, !bool_decide_eq_true. split.
    + intros (Hin & Ho & Ha). split; [done|]. split; [done|]. by intros _.
    + intros (Hin & Ha & Ho). split; [done|]. split; [|done].
      symmetry. by apply Ho.
  - rewrite bool_decide_eq_true. split.
    + intros [Hin Ha]. split; [done|]. split; [done|]. intros [=].
    + by intros (Hin & Ha & _).
Qed.

Lemma get_appointments_create env self owner user_id patient_name doctor
    procedure date time :
  get_appointments
    (create_appointment env user_id patient_name doctor procedure date time
       self).1 owner
  = get_appointments self owner
    ++ (if truthy owner && negb (bool_decide (owner = Some user_id))
        then []
        else [new_appointment env self user_id patient_name doctor procedure
                date time]).
Proof.
  unfold get_appointments.
  rewrite <- (returning_fst VInt).
  change (returning VInt _ self)
    with (exec env (call_create_appointment user_id patient_name doctor
                      procedure date time) self).
  rewrite exec_appointments. simpl appointments_after.
  destruct (truthy owner); rewrite List.filter_app; simpl; [|done].
  fold (new_appointment env self user_id patient_name doctor procedure
          date time).
  destruct (bool_decide (owner = Some user_id)) eqn:Ho.
  - apply bool_decide_eq_true in Ho. subst owner.
    by rewrite bool_decide_true.
  - apply bool_decide_eq_false in Ho.
    rewrite bool_decide_false; [done | congruence].
Qed.

(** C5.  [get_appointments] lists exactly the records whose status is
    active and, when an owner is given (one that is not falsy), whose
    [user_id] is that owner; it lists them in the order in which the
    store holds them, and a newly created record comes last in every
    listing that admits its owner.  Once [delete_appointment] has found
    a record under an id, [get_appointment] returns that record with its
    status set to deleted and every other field as it was; and through
    every later sequence of calls that the handlers can make, the record
    found under the id stays deleted and is in no listing. *)
Theorem soft_deleted_hidden_but_retrievable :
  (forall self user_id a,
     a ∈ get_appointments self user_id
     <-> a ∈ appointments (data self)
         /\ apt_status a = active
         /\ (truthy user_id = true -> user_id = Some (apt_user_id a)))
  /\ (forall self user_id,
        sublist (get_appointments self user_id) (appointments (data self)))
  /\ (forall env self owner user_id patient_name doctor procedure date time,
        get_appointments
          (create_appointment env user_id patient_name doctor procedure
             date time self).1 owner
        = get_appointments self owner
          ++ (if truthy owner && negb (bool_decide (owner = Some user_id))
              then []
              else [new_appointment env self user_id patient_name doctor
                      procedure date time]))
  /\ forall env self i a,
       get_appointment self (Some i) = Some a ->
       let db1 := (delete_appointment env i self).1 in
       get_appointment db1 (Some i)
       = Some (mkAppointment (apt_id a) (apt_user_id a) (apt_patient_name a)
                 (apt_doctor a) (apt_procedure a) (apt_date a) (apt_time a)
                 (apt_created_at a) deleted)
       /\ forall cs, Forall (fun ec => wizard_call ec.2 = true) cs ->
          let db2 := run_calls cs db1 in
          (exists a', get_appointment db2 (Some i) = Some a'
             /\ apt_status a' = deleted
             /\ forall user_id, a' ∉ get_appointments db2 user_id)
          /\ (well_formed self ->
              forall user_id b,
                b ∈ get_appointments db2 user_id -> apt_id b ≠ i).
Proof.
  split; [apply get_appointments_listed|].
  split; [apply get_appointments_sublist|].
  split; [apply get_appointments_create|].
  intros env self i a Hf db1.
  assert (get_appointment db1 (Some i) = Some (mark_deleted a)) as Hf1.
  { unfold db1, delete_appointment.
    by apply get_after_update; [apply wizard_status_deleted|]. }
  split; [exact Hf1|].
  intros cs Hcs db2.
  destruct (run_calls_stays_deleted cs db1 i (mark_deleted a) Hcs Hf1 eq_refl)
    as (a' & Hf2 & Hd2).
  fold db2 in Hf2.
  assert (forall uid, a' ∉ get_appointments db2 uid) as Hnot.
  { intros uid Hin. apply get_appointments_elem in Hin as [_ Hact].
    rewrite Hd2 in Hact. by apply deleted_not_active. }
  split; [by exists a'|].
  intros Hwf uid b Hb Hid.
  assert (well_formed db2) as [Hnd _].
  { apply run_calls_well_formed; [done|].
    unfold db1. rewrite <- (returning_fst VBool).
    by apply (exec_well_formed env (call_delete_appointment i)). }
  pose proof Hb as Hb'. apply get_appointments_elem in Hb' as [Hin _].
  unfold get_appointment in Hf2. rewrite <- Hid in Hf2.
  rewrite (find_appointment_unique _ _ _ Hnd Hf2 Hin) in Hb.
  by apply (Hnot uid).
Qed.

(** ** C4: registering a user twice *)

Lemma add_user_registers env user_id username first_name self :
  is_Some (users (data (add_user env user_id username first_name self).1)
             !! str_of_int user_id).
Proof.
  unfold add_user.
  destruct (users (data self) !! str_of_int user_id) as [usr|] eqn:Hu.
  - simpl. by rewrite Hu.
  - run_store. destruct (writable env); simpl; by rewrite lookup_insert_eq.
Qed.

(** C4.  [add_user] on an id that is already registered changes nothing,
    in memory or in the file, whatever the username, first name, clock or
    file system; so a second [add_user] with the same id leaves the store
    of the first call, with its [registered_at], as it is. *)
Theorem add_user_idempotent :
  (forall env user_id username first_name self,
     is_Some (users (data self) !! str_of_int user_id) ->
     add_user env user_id username first_name self = (self, Ok tt))
  /\ (forall env1 env2 user_id username1 first_name1 username2 first_name2
        self,
        let db1 := (add_user env1 user_id username1 first_name1 self).1 in
        add_user env2 user_id username2 first_name2 db1 = (db1, Ok tt)).
Proof.
  assert (forall env user_id username first_name self,
     is_Some (users (data self) !! str_of_int user_id) ->
     add_user env user_id username first_name self = (self, Ok tt)) as Hnoop.
  { intros env user_id username first_name self [usr Hu].
    unfold add_user. by rewrite Hu. }
  split; [exact Hnoop|].
  intros. apply Hnoop, add_user_registers.
Qed.

(** ** C9: the owner filter is skipped for a falsy owner id *)

(** C9.  [get_appointments] with owner id [0], like with [None], returns
    every active appointment, whoever owns it; in particular it can
    return appointments that user [0] does not own. *)
Theorem get_appointments_falsy_owner :
  (forall self,
     get_appointments self (Some 0) = List.filter is_active (appointments (data self))
     /\ get_appointments self None = List.filter is_active (appointments (data self)))
  /\ (forall self a,
        a ∈ appointments (data self) -> apt_status a = active ->
        a ∈ get_appointments self (Some 0))
  /\ exists self a,
       a ∈ get_appointments self (Some 0) /\ apt_user_id a ≠ 0.
Proof.
  split; [by intros self|]. split.
  - intros self a Hin Hact. unfold get_appointments. simpl.
    apply list_elem_of_In, filter_In. split; [by apply list_elem_of_In|].
    by apply bool_decide_eq_true.
  - exists (stored [booked 1 5 (u "Хирург Петров В.И.") (u "04.11.2026")
                      (u "09:00") active] 2).
    exists (booked 1 5 (u "Хирург Петров В.И.") (u "04.11.2026") (u "09:00")
              active).
    split; [|simpl; lia].
    replace (get_appointments _ _)
      with [booked 1 5 (u "Хирург Петров В.И.") (u "04.11.2026") (u "09:00")
              active] by (vm_compute; reflexivity).
    apply list_elem_of_here.
Qed.

(** ** C8: a write that fails *)

(** C8 at one input: [create_appointment] on the empty store, with
    a file that cannot be written, raises, and the document in memory has
    the new appointment all the same. *)
Lemma create_appointment_keeps_mutation_on_failed_write :
  let env := {| now_isoformat := u "2026-11-04T08:00:00"; writable := false |} in
  let self := {| data := empty_data; file := Some empty_data |} in
  let after :=
    create_appointment env 7 (u "Ann Lee") (u "Хирург Петров В.И.")
      (u "Консультация") (u "05.11.2026") (u "09:00") self in
  after.2 = Raise OSError
  /\ data after.1 ≠ data self
  /\ appointments (data after.1)
     = [mkAppointment 1 7 (u "Ann Lee") (u "Хирург Петров В.И.")
          (u "Консультация") (u "05.11.2026") (u "09:00")
          (u "2026-11-04T08:00:00") active]
  /\ next_id (data after.1) = 2.
Proof.
  simpl. split; [reflexivity|]. split; [|split; reflexivity].
  intros H. apply (f_equal appointments) in H. discriminate H.
Qed.

(** C8, as the code has it.  Every mutating call changes the document in
    memory first and writes the file last.  When the write fails, a call
    that reaches it raises [OSError] to its caller, and the document in
    memory is the one the call would have committed: the mutation is not
    undone.  A call that does not reach the write returns as usual. *)
Theorem failed_write_raises_and_keeps_mutation
    (env : Env) (c : call) (self : Database) :
  writable env = false ->
  let ok := {| now_isoformat := now_isoformat env; writable := true |} in
  data (exec env c self).1 = data (exec ok c self).1
  /\ (writes c self = true ->
      (exec env c self).2 = Raise OSError
      /\ file (exec ok c self).1 = Some (data (exec ok c self).1))
  /\ (writes c self = false ->
      (exec env c self).1 = self
      /\ exists v, (exec env c self).2 = Ok v).
Proof.
  intros Hw ok. destruct c; run_store; rewrite ?Hw.
  - destruct (users (data self) !! str_of_int user_id) as [usr|] eqn:Hu;
      simpl; rewrite ?Hw; simpl.
    + repeat split; try done; try by eexists.
    + repeat split; try done; try by eexists.
  - repeat split; try done; try by eexists.
  - unfold get_appointment.
    destruct (find_appointment _ _) as [a|] eqn:Hf.
    + destruct (update_first_found _ _ kwargs _ Hf) as (l1 & l2 & Hl & ->).
      simpl; rewrite ?Hw; simpl. repeat split; try done; try by eexists.
    + rewrite (update_first_missing _ _ _ Hf). simpl.
      repeat split; try done; try by eexists.
  - unfold get_appointment.
    destruct (find_appointment _ _) as [a|] eqn:Hf.
    + destruct (update_first_found _ _ [kw_status deleted] _ Hf)
        as (l1 & l2 & Hl & ->).
      simpl; rewrite ?Hw; simpl. repeat split; try done; try by eexists.
    + rewrite (update_first_missing _ _ _ Hf). simpl.
      repeat split; try done; try by eexists.
Qed.

(** ** C6: the dates offered when booking and when editing *)

(** C6 at one day: on 4 November 2026 the edit flow offers
    fourteen dates and the booking wizard seven. *)
Lemma edit_flow_offers_other_dates :
  map text (choices (edit_date_keyboard 739924 1))
  ≠ map text (choices (get_dates_keyboard 739924))
  /\ length (choices (edit_date_keyboard 739924 1)) = 14%nat
  /\ length (choices (get_dates_keyboard 739924)) = 7%nat
  /\ map text (choices (get_dates_keyboard 739924))
     = [u "04.11.2026 (Wed)"; u "05.11.2026 (Thu)"; u "06.11.2026 (Fri)";
        u "07.11.2026 (Sat)"; u "08.11.2026 (Sun)"; u "09.11.2026 (Mon)";
        u "10.11.2026 (Tue)"].
Proof.
  split; [|split; [|split]]; try (vm_compute; reflexivity).
  intros H. apply (f_equal length) in H. vm_compute in H. discriminate H.
Qed.

(** C6, as the code has it.  The edit flow for the date offers a rolling
    window of fourteen days, today + 0..13, and the booking wizard one of
    seven, today + 0..6; each flow renders a day as its date and weekday
    abbreviation, in the same way, so the booking wizard's choices are
    the first seven of the edit flow's. *)
Theorem edit_dates_extend_booking_dates (ADMIN_IDS : list Z)
    (today user_id appointment_id : Z) (procedure : pystr) (bot : Bot) :
  is_admin_id ADMIN_IDS user_id = true ->
  sent (process_callback_select_procedure today procedure bot).1
  = sent bot ++
    [message_edit_text (u "📅 Выберите дату:")
       (Some (get_dates_keyboard today));
     callback_answer None]
  /\ sent (process_callback_edit_date ADMIN_IDS today user_id appointment_id
             bot).1
     = sent bot ++
       [message_edit_text (u "📅 Выберите новую дату:")
          (Some (edit_date_keyboard today appointment_id));
        callback_answer None]
  /\ map text (choices (edit_date_keyboard today appointment_id))
     = map (date_label today) (seqZ 0 14)
  /\ map text (choices (get_dates_keyboard today))
     = map (date_label today) (seqZ 0 7)
  /\ map text (choices (get_dates_keyboard today))
     = take 7 (map text (choices (edit_date_keyboard today appointment_id)))
  /\ map callback_data (choices (get_dates_keyboard today))
     = map (fun i => u "select_date:" ++ strftime_d_m_Y (today + i))
         (seqZ 0 7)
  /\ map callback_data (choices (edit_date_keyboard today appointment_id))
     = map (fun i => u "edit_select_date:" ++ strftime_d_m_Y (today + i))
         (seqZ 0 14).
Proof.
  intros Hadmin. split; [|split].
  - unfold process_callback_select_procedure. run_handler.
    by rewrite <- app_assoc.
  - unfold process_callback_edit_date. rewrite Hadmin. run_handler.
    by rewrite <- app_assoc.
  - unfold choices, edit_date_keyboard, get_dates_keyboard.
    rewrite !removelast_last.
    repeat split; reflexivity.
Qed.

(** ** C3: the length gate at the name step *)

Lemma process_patient_name_gate (t : pystr) (bot : Bot) :
  process_patient_name (Some t) bot
  = if (len (strip t) <? 2) || (50 <? len (strip t))
    then name_rejected bot
    else name_accepted bot (strip t).
Proof.
  unfold process_patient_name.
  destruct ((len (strip t) <? 2) || (50 <? len (strip t))); reflexivity.
Qed.

(** C3.  At the name step a text whose stripped length is 1 or 51 (or
    any length outside 2..50) is turned down: nothing is stored, the FSM
    state is the one it was, and the prompt is sent again.  A text whose
    stripped length is 2 or 50 (or any length in 2..50) is stored,
    stripped, as [patient_name], and the state becomes
    [waiting_for_doctor]. *)
Theorem patient_name_length_gate (t : pystr) (bot : Bot) :
  (len (strip t) = 1 \/ len (strip t) = 51 ->
   process_patient_name (Some t) bot = name_rejected bot)
  /\ (len (strip t) = 2 \/ len (strip t) = 50 ->
      process_patient_name (Some t) bot = name_accepted bot (strip t))
  /\ (len (strip t) < 2 \/ 50 < len (strip t) ->
      process_patient_name (Some t) bot = name_rejected bot)
  /\ (2 <= len (strip t) <= 50 ->
      process_patient_name (Some t) bot = name_accepted bot (strip t)).
Proof.
  rewrite process_patient_name_gate.
  repeat split; intros H;
    destruct (Z.ltb_spec (len (strip t)) 2), (Z.ltb_spec 50 (len (strip t)));
    simpl; try reflexivity; lia.
Qed.

(** ** C2: the availability check at the time step *)

Lemma select_time_taken (time doctor date : pystr) (bot : Bot) :
  fsm_state (state bot) = Some (Booking AppointmentStates.waiting_for_time) ->
  sd_doctor (fsm_data (state bot)) = Some doctor ->
  sd_date (fsm_data (state bot)) = Some date ->
  is_appointment_available (db bot) doctor date time = false ->
  on_select_time time bot
  = ({| db := db bot; state := state bot;
        sent := sent bot ++ slot_taken_notice |}, Ok true).
Proof.
  intros Hs Hd Hdt Hav. unfold on_select_time, StateFilter.
  rewrite Hs, bool_decide_true by done.
  unfold process_callback_select_time. run_handler.
  rewrite Hd, Hdt. simpl. rewrite Hav. simpl.
  by rewrite <- app_assoc.
Qed.

Lemma select_time_free (time patient_name doctor procedure date : pystr)
    (self : Database) (out : list Action) :
  is_appointment_available self doctor date time = true ->
  exists out',
    on_select_time time
      {| db := self;
         state := at_time_step patient_name doctor procedure date;
         sent := out |}
    = ({| db := self;
          state :=
            {| fsm_state :=
                 Some (Booking AppointmentStates.waiting_for_confirmation);
               fsm_data := mkStateData (Some patient_name) (Some doctor)
                             (Some procedure) (Some date) (Some time) None |};
          sent := out' |}, Ok true).
Proof.
  intros Hav. unfold on_select_time, StateFilter. simpl.
  unfold process_callback_select_time. run_handler.
  rewrite Hav. simpl. by eexists.
Qed.

Lemma confirm_creates ADMIN_IDS env user_id
    (patient_name doctor procedure date time : pystr)
    (self : Database) (out : list Action) :
  writable env = true ->
  exists db1 out',
    create_appointment env user_id patient_name doctor procedure date time
      self = (db1, Ok (next_id (data self)))
    /\ on_confirm ADMIN_IDS env user_id
         {| db := self;
            state :=
              {| fsm_state :=
                   Some (Booking AppointmentStates.waiting_for_confirmation);
                 fsm_data := mkStateData (Some patient_name) (Some doctor)
                               (Some procedure) (Some date) (Some time) None |};
            sent := out |}
       = ({| db := db1;
             state := {| fsm_state := None; fsm_data := no_data |};
             sent := out' |}, Ok true).
Proof.
  intros Hw. unfold on_confirm, StateFilter. simpl.
  unfold process_callback_confirm. run_handler.
  unfold create_appointment. run_store. rewrite Hw. simpl.
  eexists _, _. split; reflexivity.
Qed.

Lemma create_appointment_ok env user_id patient_name doctor procedure date
    time self :
  writable env = true ->
  create_appointment env user_id patient_name doctor procedure date time self
  = (let d :=
       {| appointments :=
            appointments (data self)
            ++ [new_appointment env self user_id patient_name doctor
                  procedure date time];
          users := users (data self);
          next_id := next_id (data self) + 1 |} in
     {| data := d; file := Some d |},
     Ok (next_id (data self))).
Proof. intros Hw. run_store. by rewrite Hw. Qed.

(** C2.  At the time step, a selection whose slot is not available leaves
    the user in [waiting_for_time] with nothing stored and the store
    untouched, and shows the times again under a notice.  Hence, of two
    attempts made one after the other for a slot that was free, the first
    is committed and the second is stopped at the time step: its
    "confirm" finds no handler, and the slot holds exactly one active
    appointment, the first user's. *)
Theorem occupied_slot_rejected_at_time_selection :
  (forall (time doctor date : pystr) (bot : Bot),
     fsm_state (state bot)
       = Some (Booking AppointmentStates.waiting_for_time) ->
     sd_doctor (fsm_data (state bot)) = Some doctor ->
     sd_date (fsm_data (state bot)) = Some date ->
     is_appointment_available (db bot) doctor date time = false ->
     on_select_time time bot
     = ({| db := db bot; state := state bot;
           sent := sent bot ++ slot_taken_notice |}, Ok true))
  /\ (forall ADMIN_IDS env1 env2 user1 user2
        (name1 procedure1 name2 procedure2 doctor date time : pystr) self,
        writable env1 = true ->
        is_appointment_available self doctor date time = true ->
        let first :=
          booking_attempt ADMIN_IDS env1 user1 time
            {| db := self;
               state := at_time_step name1 doctor procedure1 date;
               sent := [] |} in
        let second :=
          booking_attempt ADMIN_IDS env2 user2 time
            (as_user (at_time_step name2 doctor procedure2 date) first.1) in
        first.2 = Ok (true, true)
        /\ second.2 = Ok (true, false)
        /\ state second.1 = at_time_step name2 doctor procedure2 date
        /\ db second.1 = db first.1
        /\ List.filter (occupies doctor date time)
             (appointments (data (db second.1)))
           = [new_appointment env1 self user1 name1 doctor procedure1 date
                time]
        /\ sent second.1 = sent first.1 ++ slot_taken_notice).
Proof.
  split; [apply select_time_taken|].
  intros ADMIN_IDS env1 env2 user1 user2 name1 procedure1 name2 procedure2
    doctor date time self Hw Hfree first second.
  destruct (select_time_free time name1 doctor procedure1 date self [] Hfree)
    as (out1 & Hpick).
  destruct (confirm_creates ADMIN_IDS env1 user1 name1 doctor procedure1 date
              time self out1 Hw) as (db1 & out2 & Hcreate & Hconfirm).
  assert (first = ({| db := db1;
                      state := {| fsm_state := None; fsm_data := no_data |};
                      sent := out2 |}, Ok (true, true))) as Hfirst.
  { unfold first, booking_attempt, bind at 1. rewrite Hpick.
    unfold bind at 1. by rewrite Hconfirm. }
  rewrite create_appointment_ok in Hcreate by done.
  injection Hcreate as Hdb1.
  assert (List.filter (occupies doctor date time) (appointments (data db1))
          = [new_appointment env1 self user1 name1 doctor procedure1 date
               time]) as Hone.
  { rewrite <- Hdb1. simpl. rewrite List.filter_app.
    apply slot_free_filter in Hfree. rewrite Hfree. simpl.
    by rewrite new_appointment_occupies. }
  assert (is_appointment_available db1 doctor date time = false) as Htaken.
  { apply not_true_is_false. intros Hav. apply slot_free_filter in Hav.
    rewrite Hav in Hone. discriminate Hone. }
  assert (second
          = ({| db := db1;
                state := at_time_step name2 doctor procedure2 date;
                sent := out2 ++ slot_taken_notice |}, Ok (true, false)))
    as Hsecond.
  { unfold second, booking_attempt, bind at 1. rewrite Hfirst. simpl.
    rewrite (select_time_taken time doctor date) by done.
    reflexivity. }
  rewrite Hsecond, Hfirst. simpl. by repeat split.
Qed.

(** ** C7: the edit flows make no availability check *)

Lemma update_overbooks env self j kwargs a doctor date time :
  get_appointment self j = Some a ->
  occupies doctor date time a = false ->
  occupies doctor date time (dict_update a kwargs) = true ->
  is_appointment_available self doctor date time = false ->
  (2 <= length (List.filter (occupies doctor date time)
                  (appointments (data (update_appointment env j kwargs self).1))))%nat.
Proof.
  intros Hf Hno Hyes Hav.
  destruct (update_appointment_found env self j kwargs a Hf)
    as (l1 & l2 & Hl & Hu).
  assert (List.filter (occupies doctor date time) (appointments (data self))
          ≠ []) as Hocc.
  { intros H. apply slot_free_filter in H.
    unfold is_appointment_available in Hav. congruence. }
  rewrite Hl, List.filter_app, filter_cons_false in Hocc by done.
  assert (appointments (data (update_appointment env j kwargs self).1)
          = l1 ++ dict_update a kwargs :: l2) as ->.
  { rewrite Hu. by destruct (writable env). }
  rewrite List.filter_app. simpl. rewrite Hyes.
  rewrite length_app. simpl.
  destruct (List.filter (occupies doctor date time) l1);
    destruct (List.filter (occupies doctor date time) l2); simpl in *;
    try lia. done.
Qed.

Lemma edit_handler_applies env (bot : Bot) (a : Appointment)
    (kwargs : list kwarg) (ok_notice fail_notice : pystr) :
  writable env = true ->
  forallb wizard_kwarg kwargs = true ->
  get_appointment (db bot) (sd_edit_appointment_id (fsm_data (state bot)))
  = Some a ->
  let handler : M Bot unit :=
    (data <- get_data ;;
     let appointment_id := sd_edit_appointment_id data in
     ok <- on_db (update_appointment env appointment_id kwargs) ;;
     (if ok : bool
      then send (message_edit_text ok_notice None)
      else send (message_edit_text fail_notice None)) ;;;
     clear ;;;
     send (callback_answer None)) in
  (handler bot).2 = Ok tt
  /\ edited bot a kwargs ok_notice (handler bot).1
  /\ db (handler bot).1
     = (update_appointment env
          (sd_edit_appointment_id (fsm_data (state bot))) kwargs (db bot)).1.
Proof.
  intros Hw Hkw Hf handler.
  pose proof (get_after_update env (db bot) _ kwargs a Hkw Hf) as Hget.
  destruct (update_appointment_found env (db bot) _ kwargs a Hf)
    as (l1 & l2 & Hl & Hu).
  rewrite Hw in Hu. unfold handler, edited. run_handler.
  rewrite Hu in *. simpl in *.
  repeat split; try done. by rewrite <- app_assoc.
Qed.

(** C7.  When an administrator picks a new doctor, date or time for an
    appointment that exists, the handler applies the update and reports
    success without calling [is_appointment_available]: the outcome is
    the same whether or not the resulting slot is taken.  If the
    appointment is active and another active appointment already holds
    the resulting slot, the store then has two active appointments in
    that slot. *)
Theorem edit_skips_slot_check (env : Env) (bot : Bot) (a : Appointment)
    (v : pystr) :
  writable env = true ->
  get_appointment (db bot) (sd_edit_appointment_id (fsm_data (state bot)))
  = Some a ->
  let doctor' := process_callback_select_new_doctor env v bot in
  let date' := process_callback_select_new_date env v bot in
  let time' := process_callback_select_new_time env v bot in
  (doctor'.2 = Ok tt
   /\ edited bot a [kw_doctor v] (u "✅ Врач успешно обновлен!") doctor'.1)
  /\ (date'.2 = Ok tt
      /\ edited bot a [kw_date v] (u "✅ Дата успешно обновлена!") date'.1)
  /\ (time'.2 = Ok tt
      /\ edited bot a [kw_time v] (u "✅ Время успешно обновлено!") time'.1)
  /\ (apt_status a = active ->
      (apt_doctor a ≠ v ->
       is_appointment_available (db bot) v (apt_date a) (apt_time a) = false ->
       2 <= length (List.filter (occupies v (apt_date a) (apt_time a))
                      (appointments (data (db doctor'.1)))))%nat
      /\ (apt_date a ≠ v ->
          is_appointment_available (db bot) (apt_doctor a) v (apt_time a)
          = false ->
          2 <= length (List.filter (occupies (apt_doctor a) v (apt_time a))
                         (appointments (data (db date'.1)))))%nat
      /\ (apt_time a ≠ v ->
          is_appointment_available (db bot) (apt_doctor a) (apt_date a) v
          = false ->
          2 <= length (List.filter (occupies (apt_doctor a) (apt_date a) v)
                         (appointments (data (db time'.1)))))%nat).
Proof.
  intros Hw Hf doctor' date' time'.
  destruct (edit_handler_applies env bot a [kw_doctor v]
              (u "✅ Врач успешно обновлен!") (u "❌ Не удалось обновить врача.")
              Hw eq_refl Hf) as (Hr1 & He1 & Hd1).
  destruct (edit_handler_applies env bot a [kw_date v]
              (u "✅ Дата успешно обновлена!") (u "❌ Не удалось обновить дату.")
              Hw eq_refl Hf) as (Hr2 & He2 & Hd2).
  destruct (edit_handler_applies env bot a [kw_time v]
              (u "✅ Время успешно обновлено!")
              (u "❌ Не удалось обновить время.")
              Hw eq_refl Hf) as (Hr3 & He3 & Hd3).
  split; [exact (conj Hr1 He1)|].
  split; [exact (conj Hr2 He2)|].
  split; [exact (conj Hr3 He3)|].
  intros Hact.
  assert (forall x y : pystr, x ≠ y -> bool_decide (x = y) = false) as Hne
    by (intros; by apply bool_decide_eq_false).
  assert (forall x : pystr, bool_decide (x = x) = true) as Heq
    by (intros; by apply bool_decide_eq_true).
  split; [|split]; intros Hdiff Hav.
  - change (db doctor'.1 = (update_appointment env
              (sd_edit_appointment_id (fsm_data (state bot))) [kw_doctor v] (db bot)).1)
      in Hd1.
    rewrite Hd1.
    apply (update_overbooks env (db bot) _ _ a); [exact Hf | | | exact Hav].
    + unfold occupies. rewrite (Hne _ _ Hdiff). by rewrite andb_false_r.
    + unfold occupies, dict_update. cbn [fold_left set_key apt_status
        apt_doctor apt_date apt_time]. by rewrite Hact, !Heq.
  - change (db date'.1 = (update_appointment env
              (sd_edit_appointment_id (fsm_data (state bot))) [kw_date v] (db bot)).1)
      in Hd2.
    rewrite Hd2.
    apply (update_overbooks env (db bot) _ _ a); [exact Hf | | | exact Hav].
    + unfold occupies. rewrite (Hne _ _ Hdiff). by rewrite andb_false_r.
    + unfold occupies, dict_update. cbn [fold_left set_key apt_status
        apt_doctor apt_date apt_time]. by rewrite Hact, !Heq.
  - change (db time'.1 = (update_appointment env
              (sd_edit_appointment_id (fsm_data (state bot))) [kw_time v] (db bot)).1)
      in Hd3.
    rewrite Hd3.
    apply (update_overbooks env (db bot) _ _ a); [exact Hf | | | exact Hav].
    + unfold occupies. rewrite (Hne _ _ Hdiff). by rewrite andb_false_r.
    + unfold occupies, dict_update. cbn [fold_left set_key apt_status
        apt_doctor apt_date apt_time]. by rewrite Hact, !Heq.
Qed.

(** ** C10: cancelling asks nothing about the caller *)

(** C10.  [process_callback_cancel_appointment] marks the appointment
    found under the id deleted and reports success, for every caller:
    the caller's id is compared neither with the owner of the
    appointment nor with [ADMIN_IDS], and only picks the menu that is
    shown.  The mark is made in memory even when the file cannot be
    written; the report is sent when it can. *)
Theorem cancel_ignores_ownership (ADMIN_IDS : list Z) (env : Env)
    (caller appointment_id : Z) (a : Appointment) (bot : Bot) :
  get_appointment (db bot) (Some appointment_id) = Some a ->
  let after :=
    process_callback_cancel_appointment ADMIN_IDS env caller appointment_id
      bot in
  get_appointment (db after.1) (Some appointment_id) = Some (mark_deleted a)
  /\ db after.1 = (delete_appointment env appointment_id (db bot)).1
  /\ state after.1 = state bot
  /\ (writable env = true ->
      after.2 = Ok tt
      /\ sent after.1
         = sent bot ++
           [message_edit_text (u "✅ Запись успешно отменена.")
              (Some (get_main_keyboard (is_admin_id ADMIN_IDS caller)));
            callback_answer None]).
Proof.
  intros Hf after.
  pose proof (get_after_update env (db bot) _ [kw_status deleted] a
                wizard_status_deleted Hf) as Hget.
  destruct (update_appointment_found env (db bot) _ [kw_status deleted] a Hf)
    as (l1 & l2 & Hl & Hu).
  unfold after, process_callback_cancel_appointment, delete_appointment in *.
  run_handler. rewrite Hu in *.
  destruct (writable env); simpl in *.
  - split; [exact Hget|]. split; [reflexivity|]. split; [reflexivity|].
    intros _. split; [reflexivity|]. by rewrite <- app_assoc.
  - split; [exact Hget|]. split; [reflexivity|]. split; [reflexivity|].
    intros Hw. discriminate Hw.
Qed.

(** ** The properties at concrete inputs *)

Lemma demo_store_well_formed : well_formed demo_store.
Proof.
  split; simpl.
  - apply NoDup_cons. split; [|apply NoDup_singleton].
    intros H%list_elem_of_singleton. discriminate H.
  - repeat (apply Forall_cons; split; [simpl; lia|]). apply Forall_nil_2.
Qed.

Lemma demo_calls_keep_1_in_slot :
  Forall (fun ec => keeps_in_slot 1 ec.2 = true) demo_calls_renaming.
Proof.
  unfold demo_calls_renaming, demo_calls.
  repeat (apply Forall_cons; split; [reflexivity|]). apply Forall_nil_2.
Qed.

Lemma demo_calls_wizard : Forall (fun ec => wizard_call ec.2 = true) demo_calls.
Proof.
  unfold demo_calls.
  repeat (apply Forall_cons; split; [reflexivity|]). apply Forall_nil_2.
Qed.

Lemma slot_taken_until_deleted_or_moved_witness :
  exists db1,
    create_appointment demo_env 7 (u "Ann Lee") surgeon (u "Консультация")
      (u "05.11.2026") (u "09:00") demo_empty = (db1, Ok 1)
    /\ is_appointment_available db1 surgeon (u "05.11.2026") (u "09:00")
       = false
    /\ is_appointment_available (run_calls demo_calls_renaming db1) surgeon
         (u "05.11.2026") (u "09:00") = false
    /\ is_appointment_available
         (delete_appointment demo_env 1 (run_calls demo_calls_renaming db1)).1
         surgeon (u "05.11.2026") (u "09:00") = true
    /\ is_appointment_available
         (update_appointment demo_env (Some 1) [kw_time (u "12:00")]
            (run_calls demo_calls_renaming db1)).1
         surgeon (u "05.11.2026") (u "09:00") = true.
Proof.
  destruct (slot_taken_until_deleted_or_moved demo_env 7 (u "Ann Lee") surgeon
              (u "Консультация") (u "05.11.2026") (u "09:00") demo_empty
              eq_refl (empty_well_formed _))
    as (db1 & Hc & Hav & Hrest).
  exists db1. split; [exact Hc|]. split; [exact Hav|].
  destruct (Hrest demo_calls_renaming demo_calls_keep_1_in_slot)
    as (H2 & a & Hget & _ & _ & _ & _ & Hdel & Hmove).
  split; [exact H2|].
  assert (db1
          = (create_appointment demo_env 7 (u "Ann Lee") surgeon
               (u "Консультация") (u "05.11.2026") (u "09:00") demo_empty).1)
    as Hdb1 by (rewrite Hc; reflexivity).
  assert (a = mkAppointment 1 7 (u "Ann Li") surgeon (u "Консультация")
                (u "05.11.2026") (u "09:00") (u "2026-11-04T08:00:00") active)
    as Ha.
  { apply (inj Some). rewrite <- Hget, Hdb1. vm_compute. reflexivity. }
  split.
  - destruct (Hdel demo_env) as (_ & _ & H3). apply H3.
    rewrite Ha, Hdb1. vm_compute. reflexivity.
  - etrans; [apply Hmove|].
    + rewrite Ha, Hdb1. vm_compute. reflexivity.
    + rewrite Ha. vm_compute. reflexivity.
Defined.

Lemma occupied_slot_rejected_at_time_selection_witness :
  let taken :=
    {| db := demo_store;
       state := at_time_step (u "Bob Ray") surgeon (u "Перевязка")
                  (u "05.11.2026");
       sent := [] |} in
  let first :=
    booking_attempt [1] demo_env 7 (u "09:00")
      {| db := demo_empty;
         state := at_time_step (u "Ann Lee") surgeon (u "Консультация")
                    (u "05.11.2026");
         sent := [] |} in
  let second :=
    booking_attempt [1] demo_env 8 (u "09:00")
      (as_user
         (at_time_step (u "Bob Ray") surgeon (u "Перевязка") (u "05.11.2026"))
         first.1) in
  on_select_time (u "09:00") taken
  = ({| db := demo_store; state := state taken; sent := slot_taken_notice |},
     Ok true)
  /\ first.2 = Ok (true, true)
  /\ second.2 = Ok (true, false)
  /\ state second.1
     = at_time_step (u "Bob Ray") surgeon (u "Перевязка") (u "05.11.2026")
  /\ length (get_appointments (db second.1) None) = 1%nat.
Proof.
  intros taken first second.
  destruct occupied_slot_rejected_at_time_selection as [Hstay Htwice].
  split.
  - apply (Hstay (u "09:00") surgeon (u "05.11.2026") taken); reflexivity.
  - destruct (Htwice [1] demo_env demo_env 7 8 (u "Ann Lee") (u "Консультация")
                (u "Bob Ray") (u "Перевязка") surgeon (u "05.11.2026")
                (u "09:00") demo_empty eq_refl eq_refl)
      as (H1 & H2 & H3 & H4 & H5 & H6).
    split; [exact H1|]. split; [exact H2|]. split; [exact H3|].
    vm_compute. reflexivity.
Defined.

Lemma patient_name_length_gate_witness :
  let bot :=
    {| db := demo_empty;
       state :=
         {| fsm_state :=
              Some (Booking AppointmentStates.waiting_for_patient_name);
            fsm_data := no_data |};
       sent := [] |} in
  process_patient_name (Some (u " Я ")) bot = name_rejected bot
  /\ process_patient_name (Some (replicate 51 1071%N)) bot = name_rejected bot
  /\ process_patient_name (Some (u " Ян ")) bot = name_accepted bot (u "Ян")
  /\ process_patient_name (Some (replicate 50 1071%N)) bot
     = name_accepted bot (replicate 50 1071%N).
Proof.
  intros bot. split; [|split; [|split]].
  - apply (proj1 (patient_name_length_gate (u " Я ") bot)).
    left. reflexivity.
  - apply (proj1 (patient_name_length_gate (replicate 51 1071%N) bot)).
    right. reflexivity.
  - apply (proj1 (proj2 (patient_name_length_gate (u " Ян ") bot))).
    left. reflexivity.
  - apply (proj1 (proj2 (patient_name_length_gate (replicate 50 1071%N) bot))).
    right. reflexivity.
Defined.

Lemma add_user_idempotent_witness :
  let first := (add_user demo_env 7 (Some (u "ann")) (u "Ann") demo_empty).1 in
  add_user offline_env 7 None (u "Anna") first = (first, Ok tt)
  /\ usr_registered_at <$> users (data first) !! str_of_int 7
     = Some (u "2026-11-04T08:00:00").
Proof.
  intros first. split.
  - apply (proj1 add_user_idempotent). apply add_user_registers.
  - vm_compute. reflexivity.
Defined.

Lemma soft_deleted_hidden_but_retrievable_witness :
  let db1 := (delete_appointment demo_env 1 demo_store).1 in
  let db2 := run_calls demo_calls db1 in
  get_appointment db1 (Some 1)
  = Some (booked 1 5 surgeon (u "05.11.2026") (u "09:00") deleted)
  /\ (forall user_id b, b ∈ get_appointments db2 user_id -> apt_id b ≠ 1)
  /\ (booked 1 5 surgeon (u "05.11.2026") (u "09:00") active
       ∈ get_appointments demo_store (Some 5))
  /\ (booked 1 5 surgeon (u "05.11.2026") (u "09:00") active
       ∉ get_appointments demo_store (Some 6))
  /\ get_appointments
       (create_appointment demo_env 5 (u "Ann Lee") surgeon (u "Перевязка")
          (u "06.11.2026") (u "09:00") demo_store).1 (Some 5)
     = [booked 1 5 surgeon (u "05.11.2026") (u "09:00") active;
        mkAppointment 3 5 (u "Ann Lee") surgeon (u "Перевязка")
          (u "06.11.2026") (u "09:00") (u "2026-11-04T08:00:00") active].
Proof.
  intros db1 db2.
  destruct soft_deleted_hidden_but_retrievable
    as (Hlisted & _ & Hcreate & Hdel).
  destruct (Hdel demo_env demo_store 1
              (booked 1 5 surgeon (u "05.11.2026") (u "09:00") active)
              eq_refl) as [Hget Hlater].
  destruct (Hlater demo_calls demo_calls_wizard) as [_ Hhidden].
  split; [etrans; [exact Hget | vm_compute; reflexivity]|].
  split; [exact (Hhidden demo_store_well_formed)|].
  split; [|split].
  - apply (proj2 (Hlisted demo_store (Some 5) _)).
    split; [apply list_elem_of_here|]. split; reflexivity.
  - intros Hin. apply (proj1 (Hlisted demo_store (Some 6) _)) in Hin
      as (_ & _ & Hown).
    specialize (Hown eq_refl). discriminate Hown.
  - etrans; [apply Hcreate|]. vm_compute. reflexivity.
Defined.

Lemma edit_skips_slot_check_witness :
  let bot :=
    {| db := demo_store;
       state :=
         {| fsm_state := Some (Editing EditStates.waiting_for_new_doctor);
            fsm_data := mkStateData None None None None None (Some 2) |};
       sent := [] |} in
  let after := process_callback_select_new_doctor demo_env surgeon bot in
  is_appointment_available demo_store surgeon (u "05.11.2026") (u "09:00")
  = false
  /\ after.2 = Ok tt
  /\ get_appointment (db after.1) (Some 2)
     = Some (booked 2 6 surgeon (u "05.11.2026") (u "09:00") active)
  /\ (2 <= length (List.filter
                     (occupies surgeon (u "05.11.2026") (u "09:00"))
                     (appointments (data (db after.1)))))%nat.
Proof.
  intros bot after.
  destruct (edit_skips_slot_check demo_env bot
              (booked 2 6 therapist (u "05.11.2026") (u "09:00") active)
              surgeon eq_refl eq_refl)
    as ((Hr & Hget & _) & _ & _ & Hover).
  split; [vm_compute; reflexivity|]. split; [exact Hr|].
  split; [etrans; [exact Hget | vm_compute; reflexivity]|].
  destruct (Hover eq_refl) as (Hdoc & _ & _).
  apply Hdoc; [|vm_compute; reflexivity].
  intros H. vm_compute in H. discriminate H.
Defined.

Lemma failed_write_raises_and_keeps_mutation_witness :
  let c :=
    call_create_appointment 7 (u "Ann Lee") surgeon (u "Консультация")
      (u "05.11.2026") (u "09:00") in
  (exec offline_env c demo_empty).2 = Raise OSError
  /\ data (exec offline_env c demo_empty).1
     = data (exec demo_env c demo_empty).1.
Proof.
  intros c.
  destruct (failed_write_raises_and_keeps_mutation offline_env c demo_empty
              eq_refl) as (Hdata & Hraise & _).
  split; [exact (proj1 (Hraise eq_refl)) | exact Hdata].
Defined.

Lemma get_appointments_falsy_owner_witness :
  booked 1 5 surgeon (u "05.11.2026") (u "09:00") active
    ∈ get_appointments demo_store (Some 0).
Proof.
  apply (proj1 (proj2 get_appointments_falsy_owner) demo_store).
  - apply list_elem_of_here.
  - reflexivity.
Defined.

Lemma cancel_ignores_ownership_witness :
  let bot :=
    {| db := demo_store;
       state := {| fsm_state := None; fsm_data := no_data |};
       sent := [] |} in
  let after := process_callback_cancel_appointment [1] demo_env 99 1 bot in
  apt_user_id (booked 1 5 surgeon (u "05.11.2026") (u "09:00") active) ≠ 99
  /\ is_admin_id [1] 99 = false
  /\ after.2 = Ok tt
  /\ get_appointment (db after.1) (Some 1)
     = Some (booked 1 5 surgeon (u "05.11.2026") (u "09:00") deleted)
  /\ sent after.1
     = [message_edit_text (u "✅ Запись успешно отменена.")
          (Some (get_main_keyboard false));
        callback_answer None].
Proof.
  intros bot after.
  destruct (cancel_ignores_ownership [1] demo_env 99 1
              (booked 1 5 surgeon (u "05.11.2026") (u "09:00") active) bot
              eq_refl) as (Hget & _ & _ & Hok).
  destruct (Hok eq_refl) as [Hr Hsent].
  split; [simpl; lia|]. split; [vm_compute; reflexivity|].
  split; [exact Hr|]. split.
  - etrans; [exact Hget | vm_compute; reflexivity].
  - etrans; [exact Hsent | vm_compute; reflexivity].
Defined.

(** Beside C2: the check is made when the time is picked and not again
    at "confirm", so two users who both pick a free slot before either
    confirms are both booked into it. *)
Example interleaved_attempts_double_book :
  let ann := at_time_step (u "Ann Lee") surgeon (u "Консультация")
               (u "05.11.2026") in
  let bob := at_time_step (u "Bob Ray") surgeon (u "Перевязка")
               (u "05.11.2026") in
  let s1 := (on_select_time (u "09:00")
               {| db := demo_empty; state := ann; sent := [] |}).1 in
  let s2 := (on_select_time (u "09:00") (as_user bob s1)).1 in
  let s3 := (on_confirm [1] demo_env 7 (as_user (state s1) s2)).1 in
  let s4 := (on_confirm [1] demo_env 8 (as_user (state s2) s3)).1 in
  length (List.filter (occupies surgeon (u "05.11.2026") (u "09:00"))
            (appointments (data (db s4)))) = 2%nat.
Proof. vm_compute. reflexivity. Qed.

Lemma edit_dates_extend_booking_dates_witness :
  let bot :=
    {| db := demo_store;
       state := {| fsm_state := None; fsm_data := no_data |};
       sent := [] |} in
  map text
    (choices (default [] (last (keyboards_sent
       (process_callback_select_procedure 739924 (u "Перевязка") bot).1))))
  = take 7
      (map text
         (choices (default [] (last (keyboards_sent
            (process_callback_edit_date [1] 739924 1 2 bot).1))))).
Proof.
  intros bot.
  destruct (edit_dates_extend_booking_dates [1] 739924 1 2 (u "Перевязка") bot
              eq_refl) as (Hbook & Hedit & _ & _ & Htake & _).
  unfold keyboards_sent. rewrite Hbook, Hedit.
  etrans; [|etrans; [exact Htake|]]; vm_compute; reflexivity.
Defined.

(** C1 at one input: an administrator's edit of the doctor moves a newly
    created appointment, and the slot it held is available again
    although the appointment was not soft-deleted and is still active. *)
Lemma edited_appointment_frees_slot :
  let created :=
    create_appointment demo_env 7 (u "Ann Lee") surgeon (u "Консультация")
      (u "05.11.2026") (u "09:00") demo_empty in
  let bot :=
    {| db := created.1;
       state :=
         {| fsm_state := Some (Editing EditStates.waiting_for_new_doctor);
            fsm_data := mkStateData None None None None None (Some 1) |};
       sent := [] |} in
  let after := process_callback_select_new_doctor demo_env therapist bot in
  created.2 = Ok 1
  /\ is_appointment_available created.1 surgeon (u "05.11.2026") (u "09:00")
     = false
  /\ after.2 = Ok tt
  /\ get_appointment (db after.1) (Some 1)
     = Some (mkAppointment 1 7 (u "Ann Lee") therapist (u "Консультация")
               (u "05.11.2026") (u "09:00") (u "2026-11-04T08:00:00") active)
  /\ is_appointment_available (db after.1) surgeon (u "05.11.2026")
       (u "09:00") = true.
Proof. vm_compute. repeat split; reflexivity. Qed.

(** * Further properties of the store *)

(** From here on a literal stays a literal unless it is evaluated. *)
Opaque u.

Lemma wizard_of_handler_call c : handler_call c = true -> wizard_call c = true.
Proof.
  destruct c as [| |j kwargs|]; simpl; try done.
  destruct kwargs as [|[] [|]]; done.
Qed.

Lemma exec_sequential env c self :
  wizard_call c = true -> sequential self -> sequential (exec env c self).1.
Proof.
  intros Hc [Hids Hnext]. unfold sequential.
  rewrite exec_appointments, exec_next_id.
  destruct c; simpl in *.
  - done.
  - rewrite map_app, length_app, Hids. simpl.
    rewrite Nat.add_1_r, seqZ_S, Hnext. split; [done | lia].
  - destruct (update_first _ _ _) as [l'|] eqn:Hu; simpl; [|done].
    pose proof (update_first_ids _ _ _ _ Hc Hu) as Hl.
    assert (length l' = length (appointments (data self))) as Hlen.
    { rewrite <- (length_map apt_id l'), Hl. apply length_map. }
    by rewrite Hl, Hlen.
  - destruct (update_first _ _ _) as [l'|] eqn:Hu; simpl; [|done].
    pose proof (update_first_ids _ _ _ _ wizard_status_deleted Hu) as Hl.
    assert (length l' = length (appointments (data self))) as Hlen.
    { rewrite <- (length_map apt_id l'), Hl. apply length_map. }
    by rewrite Hl, Hlen.
Qed.

Lemma update_first_length l j kwargs l' :
  update_first l j kwargs = Some l' -> length l' = length l.
Proof.
  revert l'. induction l as [|b l IH]; intros l'; simpl; [done|].
  case_bool_decide.
  - by intros [= <-].
  - destruct (update_first l j kwargs) as [l0|]; simpl; [|done].
    intros [= <-]. simpl. by rewrite (IH l0).
Qed.

(** X1.  No call removes a record: after any calls the store holds the records
    it held, in number, plus one for each [create_appointment]. *)
Theorem calls_never_remove_records (cs : list (Env * call))
    (self : Database) :
  length (appointments (data (run_calls cs self)))
  = (length (appointments (data self)) + creations cs)%nat.
Proof.
  revert self. induction cs as [|[env c] cs IH]; intros self.
  - unfold creations. simpl. lia.
  - simpl. rewrite IH, exec_appointments. unfold creations. simpl.
    destruct c; simpl.
    + done.
    + rewrite length_app. simpl. lia.
    + destruct (update_first _ _ _) as [l'|] eqn:Hu; simpl; [|done].
      by rewrite (update_first_length _ _ _ _ Hu).
    + destruct (update_first _ _ _) as [l'|] eqn:Hu; simpl; [|done].
      by rewrite (update_first_length _ _ _ _ Hu).
Qed.

(** X2.  Soft delete twice: the second [delete_appointment] of an id finds
    the record, deleted as it is, returns [True] again and leaves the
    document as the first left it. *)
Theorem delete_appointment_twice (env1 env2 : Env) (i : Z)
    (self : Database) (a : Appointment) :
  get_appointment self (Some i) = Some a ->
  let db1 := (delete_appointment env1 i self).1 in
  data (delete_appointment env2 i db1).1 = data db1
  /\ get_appointment (delete_appointment env2 i db1).1 (Some i)
     = Some (mark_deleted a)
  /\ (writable env2 = true -> (delete_appointment env2 i db1).2 = Ok true).
Proof.
  intros Hf db1.
  assert (get_appointment db1 (Some i) = Some (mark_deleted a)) as Hf1.
  { unfold db1, delete_appointment.
    by apply get_after_update; [apply wizard_status_deleted|]. }
  unfold delete_appointment.
  destruct (update_appointment_found env2 db1 (Some i) [kw_status deleted]
              (mark_deleted a) Hf1) as (l1 & l2 & Hl & Hu).
  change (dict_update (mark_deleted a) [kw_status deleted])
    with (mark_deleted a) in Hu.
  rewrite <- Hl in Hu. rewrite Hu.
  assert ({| appointments := appointments (data db1);
             users := users (data db1);
             next_id := next_id (data db1) |} = data db1) as Hd
    by (by destruct (data db1)).
  rewrite Hd in *.
  split; [by destruct (writable env2)|]. split.
  - destruct (writable env2); simpl; unfold get_appointment; simpl;
      exact Hf1.
  - by intros ->.
Qed.

(** X3.  An id that is not in the store, or [None] in place of an id: the
    update and the delete return [False] and touch neither the document
    nor the file, whether or not the file could be written. *)
Theorem absent_id_changes_nothing :
  (forall self, get_appointment self None = None)
  /\ (forall env j kwargs self,
        get_appointment self j = None ->
        update_appointment env j kwargs self = (self, Ok false))
  /\ (forall env i self,
        get_appointment self (Some i) = None ->
        delete_appointment env i self = (self, Ok false)).
Proof.
  split; [|split].
  - intros self. unfold get_appointment.
    induction (appointments (data self)) as [|a l IH]; [done|].
    exact IH.
  - intros. by apply update_appointment_missing.
  - intros. by apply update_appointment_missing.
Qed.

(** X4.  Whole-document persistence: a call whose write succeeds leaves the
    file equal to the document in memory, whatever earlier writes
    failed; and while writes succeed the two stay equal. *)
Theorem successful_write_synchronises (env : Env) (c : call)
    (self : Database) :
  writable env = true ->
  writes c self = true \/ file self = Some (data self) ->
  file (exec env c self).1 = Some (data (exec env c self).1).
Proof.
  intros Hw Hcase. destruct c; run_store; rewrite ?Hw.
  - destruct (users (data self) !! str_of_int user_id) as [usr|] eqn:Hu;
      simpl; rewrite ?Hw; simpl; [|done].
    destruct Hcase as [H|H]; [|done]. simpl in H. rewrite Hu in H.
    by apply bool_decide_eq_true in H.
  - done.
  - destruct (find_appointment (appointments (data self)) appointment_id)
      as [a|] eqn:Hf.
    + destruct (update_first_found _ _ kwargs _ Hf) as (l1 & l2 & Hl & ->).
      simpl; rewrite ?Hw; by simpl.
    + rewrite (update_first_missing _ _ _ Hf). simpl.
      destruct Hcase as [H|H]; [|done]. simpl in H. unfold get_appointment in H.
      rewrite Hf in H. apply bool_decide_eq_true in H. by destruct H.
  - destruct (find_appointment (appointments (data self))
                (Some appointment_id)) as [a|] eqn:Hf.
    + destruct (update_first_found _ _ [kw_status deleted] _ Hf)
        as (l1 & l2 & Hl & ->).
      simpl; rewrite ?Hw; by simpl.
    + rewrite (update_first_missing _ _ _ Hf). simpl.
      destruct Hcase as [H|H]; [|done]. simpl in H. unfold get_appointment in H.
      rewrite Hf in H. apply bool_decide_eq_true in H. by destruct H.
Qed.

(** X5.  A slot is available exactly when no appointment in the listing of
    all active appointments has its doctor, date and time. *)
Theorem available_iff_not_listed (self : Database)
    (doctor date time : pystr) :
  is_appointment_available self doctor date time = true
  <-> forall a, a ∈ get_appointments self None ->
        ~ (apt_doctor a = doctor /\ apt_date a = date /\ apt_time a = time).
Proof.
  unfold is_appointment_available. rewrite slot_free_filter.
  unfold get_appointments. simpl. split.
  - intros Hnone a Ha (Hd & Hdt & Ht).
    apply list_elem_of_In, filter_In in Ha as [Hin Hact].
    assert (In a (List.filter (occupies doctor date time)
                    (appointments (data self)))) as Hocc.
    { apply filter_In. split; [done|]. unfold occupies.
      unfold is_active in Hact. rewrite Hact.
      by rewrite !bool_decide_true. }
    rewrite Hnone in Hocc. destruct Hocc.
  - intros Hno.
    destruct (List.filter (occupies doctor date time)
                (appointments (data self))) as [|a f] eqn:Hf; [done|].
    assert (In a (List.filter (occupies doctor date time)
                    (appointments (data self)))) as Hocc
      by (rewrite Hf; by left).
    apply filter_In in Hocc as [Hin Hocc]. unfold occupies in Hocc.
    apply andb_true_iff in Hocc as [Hocc Ht].
    apply andb_true_iff in Hocc as [Hocc Hdt].
    apply andb_true_iff in Hocc as [Hact Hd].
    apply bool_decide_eq_true in Ht, Hdt, Hd.
    destruct (Hno a); [|done].
    apply list_elem_of_In, filter_In. by split.
Qed.

(** X6.  With an owner id other than 0, [get_appointments] returns the
    owner's part of the listing of all active appointments, in the same
    order. *)
Theorem owner_listing_is_part_of_full_listing (self : Database) (n : Z) :
  n ≠ 0 ->
  get_appointments self (Some n)
  = List.filter (fun a => bool_decide (apt_user_id a = n))
      (get_appointments self None).
Proof.
  intros Hn. unfold get_appointments. simpl.
  rewrite (proj2 (Z.eqb_neq n 0) Hn). simpl.
  induction (appointments (data self)) as [|a l IH]; [done|]. simpl.
  destruct (is_active a) eqn:Hact; simpl.
  - rewrite andb_true_r.
    destruct (decide (apt_user_id a = n)) as [Heq|Hne].
    + rewrite !bool_decide_true by congruence. by rewrite IH.
    + rewrite !bool_decide_false by congruence. exact IH.
  - rewrite andb_false_r. exact IH.
Qed.

Lemma exec_users env c self k usr :
  users (data self) !! k = Some usr ->
  users (data (exec env c self).1) !! k = Some usr.
Proof.
  intros Hk. destruct c; run_store.
  - destruct (users (data self) !! str_of_int user_id) as [usr'|] eqn:Hu;
      simpl; [done|].
    assert (str_of_int user_id ≠ k) as Hne by congruence.
    destruct (writable env); simpl; by rewrite lookup_insert_ne.
  - by destruct (writable env).
  - destruct (update_first _ _ _); simpl; [|done]. by destruct (writable env).
  - destruct (update_first _ _ _); simpl; [|done]. by destruct (writable env).
Qed.

(** X7.  A registered user is never removed or changed: after any calls on
    the store, with any arguments, the record under a user's key is the
    one made at registration. *)
Theorem registered_user_never_changes (cs : list (Env * call))
    (self : Database) (k : pystr) (usr : User) :
  users (data self) !! k = Some usr ->
  users (data (run_calls cs self)) !! k = Some usr.
Proof.
  revert self. induction cs as [|[env c] cs IH]; intros self Hk; [done|].
  simpl. apply IH. by apply exec_users.
Qed.

(** * Further properties of the handlers *)

Lemma lift_fst {S A} (m : M S A) (s : S) : (lift m s).1 = (m s).1.
Proof. unfold lift. by destruct (m s) as [s' [a|e]]. Qed.

Lemma then_true_fst (h : Bot -> Bot * outcome unit) (bot : Bot) :
  (then_true h bot).1 = (h bot).1.
Proof. unfold then_true. by destruct (h bot) as [bot' [a|e]]. Qed.

Lemma on_db_exec {A} (f : A -> value) (m : M Database A) bot :
  db (on_db m bot).1 = (returning f m (db bot)).1.
Proof.
  rewrite returning_fst. unfold on_db. by destruct (m (db bot)) as [s' r].
Qed.

(** What an update does to the store: nothing, or one of the calls the
    handlers make. *)
Lemma dispatch_db_effect ADMIN_IDS env lower command_of today user_id upd bot :
  let bot' := (dispatch ADMIN_IDS env lower command_of today user_id upd bot).1 in
  db bot' = db bot
  \/ exists c, handler_call c = true /\ db bot' = (exec env c (db bot)).1.
Proof.
  intros bot'. unfold bot'. clear bot'.
  destruct upd; unfold dispatch.
  - (* a message: /start, the other commands, or no command *)
    destruct (Command command_of (u "start") message_text).
    { right. exists (call_add_user user_id username first_name).
      split; [done|]. unfold exec. rewrite returning_fst.
      unfold cmd_start. run_routing.
      by destruct (add_user env user_id username first_name (db bot))
        as [db' [[]|e]]. }
    destruct (Command command_of (u "help") message_text); [by left|].
    destruct (Command command_of (u "menu") message_text); [by left|].
    destruct (Command command_of (u "stop") message_text); [by left|].
    case_bool_decide as Hs.
    + left. unfold process_patient_name. run_routing.
      destruct message_text as [t|]; [|done].
      by destruct ((len (strip t) <? 2) || (50 <? len (strip t))).
    + unfold process_new_patient_name. run_routing.
      case_bool_decide as Hs'; [|by left].
      destruct message_text as [t|]; [|by left].
      destruct ((len (strip t) <? 2) || (50 <? len (strip t))); [by left|].
      right.
      exists (call_update_appointment
                (sd_edit_appointment_id (fsm_data (state bot)))
                [kw_patient_name (strip t)]).
      split; [done|]. unfold exec. rewrite returning_fst.
      by destruct (update_appointment env _ _ (db bot)) as [db' [[]|e]].
  - by left.
  - by left.
  - (* select_doctor *)
    left. case_bool_decide; [|done].
    unfold process_callback_select_doctor. run_routing.
    by destruct (get_procedures_keyboard lower doctor).
  - left. unfold on_select_procedure, process_callback_select_procedure.
    run_routing. by case_bool_decide.
  - left. unfold on_select_date, process_callback_select_date.
    run_routing. by case_bool_decide.
  - left. unfold on_select_time, process_callback_select_time.
    run_routing. case_bool_decide; [|done].
    destruct (sd_doctor _); [|done]. destruct (sd_date _); simpl; [|done].
    destruct (is_appointment_available _ _ _ _); simpl; [|done].
    destruct (sd_patient_name _); [|done]. by destruct (sd_procedure _).
  - (* confirm *)
    unfold on_confirm, process_callback_confirm. run_routing.
    case_bool_decide; [|by left].
    destruct (sd_patient_name _) as [pn|]; [|by left].
    destruct (sd_doctor _) as [d|]; [|by left].
    destruct (sd_procedure _) as [pr|]; [|by left].
    destruct (sd_date _) as [dt|]; [|by left].
    destruct (sd_time _) as [t|]; simpl; [|by left].
    right. exists (call_create_appointment user_id pn d pr dt t).
    split; [done|]. unfold exec. rewrite returning_fst.
    by destruct (create_appointment env user_id pn d pr dt t (db bot))
      as [db' [i|e]].
  - by left.
  - left. unfold process_callback_my_appointments. run_routing.
    by destruct (get_appointments _ _).
  - left. unfold process_callback_view_appointment. run_routing.
    by destruct (get_appointment _ _).
  - (* cancel_appointment *)
    right. exists (call_delete_appointment appointment_id).
    split; [done|]. unfold exec. rewrite returning_fst.
    unfold process_callback_cancel_appointment. run_routing.
    by destruct (delete_appointment env appointment_id (db bot))
      as [db' [[]|e]].
  - by left.
  - by left.
  - left. unfold process_callback_all_appointments. run_routing.
    destruct (is_admin_id ADMIN_IDS user_id); simpl; [|done].
    by destruct (get_appointments _ _).
  - left. unfold process_callback_admin_view. run_routing.
    destruct (is_admin_id ADMIN_IDS user_id); simpl; [|done].
    by destruct (get_appointment _ _).
  - (* delete_appointment *)
    unfold process_callback_delete_appointment. run_routing.
    destruct (is_admin_id ADMIN_IDS user_id); simpl; [|by left].
    right. exists (call_delete_appointment appointment_id).
    split; [done|]. unfold exec. rewrite returning_fst.
    by destruct (delete_appointment env appointment_id (db bot))
      as [db' [[]|e]].
  - left. unfold process_callback_edit_appointment. run_routing.
    by destruct (is_admin_id ADMIN_IDS user_id).
  - left. unfold process_callback_edit_patient_name. run_routing.
    by destruct (is_admin_id ADMIN_IDS user_id).
  - left. unfold process_callback_edit_doctor. run_routing.
    by destruct (is_admin_id ADMIN_IDS user_id).
  - (* edit_select_doctor *)
    unfold on_edit_select_doctor, process_callback_select_new_doctor.
    run_routing. case_bool_decide; [|by left].
    right.
    exists (call_update_appointment
              (sd_edit_appointment_id (fsm_data (state bot)))
              [kw_doctor doctor]).
    split; [done|]. unfold exec. rewrite returning_fst.
    by destruct (update_appointment env _ _ (db bot)) as [db' [[]|e]].
  - left. unfold process_callback_edit_procedure. run_routing.
    destruct (is_admin_id ADMIN_IDS user_id); simpl; [|done].
    destruct (get_appointment _ _) as [a|]; simpl; [|done].
    by destruct (first_word (apt_doctor a)).
  - unfold process_callback_select_new_procedure.
    run_routing. case_bool_decide; [|by left].
    right.
    exists (call_update_appointment
              (sd_edit_appointment_id (fsm_data (state bot)))
              [kw_procedure procedure]).
    split; [done|]. unfold exec. rewrite returning_fst.
    by destruct (update_appointment env _ _ (db bot)) as [db' [[]|e]].
  - left. unfold process_callback_edit_date. run_routing.
    by destruct (is_admin_id ADMIN_IDS user_id).
  - unfold on_edit_select_date, process_callback_select_new_date.
    run_routing. case_bool_decide; [|by left].
    right.
    exists (call_update_appointment
              (sd_edit_appointment_id (fsm_data (state bot)))
              [kw_date date]).
    split; [done|]. unfold exec. rewrite returning_fst.
    by destruct (update_appointment env _ _ (db bot)) as [db' [[]|e]].
  - left. unfold process_callback_edit_time. run_routing.
    by destruct (is_admin_id ADMIN_IDS user_id).
  - unfold on_edit_select_time, process_callback_select_new_time.
    run_routing. case_bool_decide; [|by left].
    right.
    exists (call_update_appointment
              (sd_edit_appointment_id (fsm_data (state bot)))
              [kw_time time]).
    split; [done|]. unfold exec. rewrite returning_fst.
    by destruct (update_appointment env _ _ (db bot)) as [db' [[]|e]].
Qed.

(** What an update of a user who is no administrator, and is in no edit
    state, does: the user stays out of the edit states, and the store
    sees at most a registration, a creation or a soft delete. *)
Lemma dispatch_non_admin ADMIN_IDS env lower command_of today user_id upd bot :
  is_admin_id ADMIN_IDS user_id = false ->
  editing (state bot) = false ->
  let bot' := (dispatch ADMIN_IDS env lower command_of today user_id upd bot).1 in
  editing (state bot') = false
  /\ (db bot' = db bot
      \/ exists c, member_call c = true /\ db bot' = (exec env c (db bot)).1).
Proof.
  intros Hadmin Hed bot'. unfold bot'. clear bot'.
  assert (forall s, bool_decide (fsm_state (state bot) = Some (Editing s))
                    = false) as Hno.
  { intros s. apply bool_decide_eq_false. intros Hs.
    unfold editing in Hed. by rewrite Hs in Hed. }
  destruct upd; unfold dispatch.
  - (* a message: /start, the other commands, or no command *)
    destruct (Command command_of (u "start") message_text).
    { split.
      - unfold cmd_start. run_routing.
        by destruct (add_user env user_id username first_name (db bot))
          as [db' [[]|e]].
      - right. exists (call_add_user user_id username first_name).
        split; [done|]. unfold exec. rewrite returning_fst.
        unfold cmd_start. run_routing.
        by destruct (add_user env user_id username first_name (db bot))
          as [db' [[]|e]]. }
    destruct (Command command_of (u "help") message_text);
      [by split; [|left]|].
    destruct (Command command_of (u "menu") message_text);
      [by split; [|left]|].
    destruct (Command command_of (u "stop") message_text);
      [by split; [|left]|].
    case_bool_decide as Hs.
    + unfold process_patient_name. run_routing.
      destruct message_text as [t|]; [|by split; [|left]].
      by destruct ((len (strip t) <? 2) || (50 <? len (strip t)));
        (split; [|left]).
    + run_routing. rewrite Hno. by split; [|left].
  - by split; [|left].
  - by split; [|left].
  - (* select_doctor *)
    case_bool_decide; [|by split; [|left]].
    unfold process_callback_select_doctor. run_routing.
    by destruct (get_procedures_keyboard lower doctor); (split; [|left]).
  - unfold on_select_procedure, process_callback_select_procedure.
    run_routing. by case_bool_decide; (split; [|left]).
  - unfold on_select_date, process_callback_select_date.
    run_routing. by case_bool_decide; (split; [|left]).
  - unfold on_select_time, process_callback_select_time.
    run_routing. case_bool_decide; [|by split; [|left]].
    destruct (sd_doctor _); [|by split; [|left]].
    destruct (sd_date _); simpl; [|by split; [|left]].
    destruct (is_appointment_available _ _ _ _); simpl; [|by split; [|left]].
    destruct (sd_patient_name _); [|by split; [|left]].
    by destruct (sd_procedure _); (split; [|left]).
  - (* confirm *)
    unfold on_confirm, process_callback_confirm. run_routing.
    case_bool_decide; [|by split; [|left]].
    destruct (sd_patient_name _) as [pn|]; [|by split; [|left]].
    destruct (sd_doctor _) as [d|]; [|by split; [|left]].
    destruct (sd_procedure _) as [pr|]; [|by split; [|left]].
    destruct (sd_date _) as [dt|]; [|by split; [|left]].
    destruct (sd_time _) as [t|]; simpl; [|by split; [|left]].
    split.
    + by destruct (create_appointment env user_id pn d pr dt t (db bot))
        as [db' [i|e]].
    + right. exists (call_create_appointment user_id pn d pr dt t).
      split; [done|]. unfold exec. rewrite returning_fst.
      by destruct (create_appointment env user_id pn d pr dt t (db bot))
        as [db' [i|e]].
  - by split; [|left].
  - unfold process_callback_my_appointments. run_routing.
    by destruct (get_appointments _ _); (split; [|left]).
  - unfold process_callback_view_appointment. run_routing.
    by destruct (get_appointment _ _); (split; [|left]).
  - (* cancel_appointment *)
    split.
    + unfold process_callback_cancel_appointment. run_routing.
      by destruct (delete_appointment env appointment_id (db bot))
        as [db' [[]|e]].
    + right. exists (call_delete_appointment appointment_id).
      split; [done|]. unfold exec. rewrite returning_fst.
      unfold process_callback_cancel_appointment. run_routing.
      by destruct (delete_appointment env appointment_id (db bot))
        as [db' [[]|e]].
  - by split; [|left].
  - by split; [|left].
  - unfold process_callback_all_appointments. rewrite Hadmin.
    by split; [|left].
  - unfold process_callback_admin_view. rewrite Hadmin. by split; [|left].
  - unfold process_callback_delete_appointment. rewrite Hadmin.
    by split; [|left].
  - unfold process_callback_edit_appointment. rewrite Hadmin.
    by split; [|left].
  - unfold process_callback_edit_patient_name. rewrite Hadmin.
    by split; [|left].
  - unfold process_callback_edit_doctor. rewrite Hadmin. by split; [|left].
  - unfold on_edit_select_doctor. run_routing. rewrite Hno.
    by split; [|left].
  - unfold process_callback_edit_procedure. rewrite Hadmin.
    by split; [|left].
  - run_routing. rewrite Hno. by split; [|left].
  - unfold process_callback_edit_date. rewrite Hadmin. by split; [|left].
  - unfold on_edit_select_date. run_routing. rewrite Hno. by split; [|left].
  - unfold process_callback_edit_time. rewrite Hadmin. by split; [|left].
  - unfold on_edit_select_time. run_routing. rewrite Hno. by split; [|left].
Qed.

(** * Properties of the bot over sequences of updates *)

Lemma context_of_deliver ADMIN_IDS lower command_of w d user_id :
  context_of (deliver ADMIN_IDS lower command_of w d) user_id
  = if decide (from_user d = user_id)
    then state (handle ADMIN_IDS lower command_of d w).1
    else context_of w user_id.
Proof.
  unfold context_of, deliver. simpl.
  destruct (decide (from_user d = user_id)) as [->|Hne].
  - by rewrite lookup_insert_eq.
  - by rewrite lookup_insert_ne.
Qed.

Lemma fresh_world_sequential env : sequential (w_db (fresh_world env)).
Proof.
  unfold fresh_world, load_data, save_data. by destruct (writable env).
Qed.

Lemma fresh_world_no_edit_state ADMIN_IDS env :
  edit_states_are_admins ADMIN_IDS (fresh_world env).
Proof. intros user_id _. reflexivity. Qed.

Lemma deliver_sequential ADMIN_IDS lower command_of w d :
  sequential (w_db w) -> sequential (w_db (deliver ADMIN_IDS lower command_of w d)).
Proof.
  intros Hseq. unfold deliver, handle. simpl.
  destruct (dispatch_db_effect ADMIN_IDS (at_env d) lower command_of (at_day d)
              (from_user d) (update d)
              {| db := w_db w; state := context_of w (from_user d);
                 sent := [] |}) as [->|(c & Hc & ->)]; [done|].
  simpl. apply exec_sequential; [by apply wizard_of_handler_call | done].
Qed.

(** X8.  Ids are 1, 2, 3, ... in the order of creation.  Whatever updates
    arrive, from whatever users and whether or not the file can be
    written, the stored ids stay the numbers from 1 on, in order, and
    [next_id] the number after the last; a bot started without a file
    begins so. *)
Theorem ids_stay_sequential (ADMIN_IDS : list Z) (lower : pystr -> pystr)
    (command_of : pystr -> option pystr) (ds : list Delivery) (w : World) :
  sequential (w_db w) ->
  sequential (w_db (deliver_all ADMIN_IDS lower command_of ds w)).
Proof.
  revert w. induction ds as [|d ds IH]; intros w Hseq; [done|].
  simpl. apply IH. by apply deliver_sequential.
Qed.

Lemma deliver_no_edit_state ADMIN_IDS lower command_of w d :
  edit_states_are_admins ADMIN_IDS w ->
  edit_states_are_admins ADMIN_IDS (deliver ADMIN_IDS lower command_of w d).
Proof.
  intros Hinv user_id Hadmin. rewrite context_of_deliver.
  destruct (decide (from_user d = user_id)) as [Heq|Hne]; [|by apply Hinv].
  subst user_id. unfold handle.
  by apply (dispatch_non_admin ADMIN_IDS (at_env d) lower command_of (at_day d)
              (from_user d) (update d)); [|apply Hinv].
Qed.

(** X9.  Only administrators are ever in an edit state: if no other user is
    in one, as when the bot starts, then after any updates from any
    users no other user is. *)
Theorem edit_states_stay_with_admins (ADMIN_IDS : list Z)
    (lower : pystr -> pystr) (command_of : pystr -> option pystr)
    (ds : list Delivery) (w : World) :
  edit_states_are_admins ADMIN_IDS w ->
  edit_states_are_admins ADMIN_IDS (deliver_all ADMIN_IDS lower command_of ds w).
Proof.
  revert w. induction ds as [|d ds IH]; intros w Hinv; [done|].
  simpl. apply IH. by apply deliver_no_edit_state.
Qed.

Lemma member_call_keeps_fields env c self i a :
  member_call c = true ->
  get_appointment self (Some i) = Some a ->
  get_appointment (exec env c self).1 (Some i) = Some a
  \/ get_appointment (exec env c self).1 (Some i) = Some (mark_deleted a).
Proof.
  unfold get_appointment. rewrite exec_appointments.
  intros Hc Hf. destruct c; simpl in *; try done.
  - by left.
  - left. by apply find_appointment_app.
  - destruct (update_first _ _ _) as [l'|] eqn:Hu; simpl; [|by left].
    rewrite (find_update_first _ _ _ _ _ wizard_status_deleted Hu), Hf.
    case_bool_decide; [by right | by left].
Qed.

Lemma deliver_non_admin_keeps_fields ADMIN_IDS lower command_of w d i a :
  edit_states_are_admins ADMIN_IDS w ->
  is_admin_id ADMIN_IDS (from_user d) = false ->
  get_appointment (w_db w) (Some i) = Some a ->
  get_appointment (w_db (deliver ADMIN_IDS lower command_of w d)) (Some i) = Some a
  \/ get_appointment (w_db (deliver ADMIN_IDS lower command_of w d)) (Some i)
     = Some (mark_deleted a).
Proof.
  intros Hinv Hadmin Hf. unfold deliver, handle. simpl.
  destruct (dispatch_non_admin ADMIN_IDS (at_env d) lower command_of (at_day d)
              (from_user d) (update d)
              {| db := w_db w; state := context_of w (from_user d);
                 sent := [] |} Hadmin (Hinv _ Hadmin))
    as [_ [->|(c & Hc & ->)]]; [by left|].
  by apply member_call_keeps_fields.
Qed.

(** X10.  What users who are no administrators can do to an appointment: from
    a state in which none of them is in an edit state, no sequence of
    their updates changes any field of a stored appointment, except that
    its status may become deleted. *)
Theorem members_change_only_status (ADMIN_IDS : list Z)
    (lower : pystr -> pystr) (command_of : pystr -> option pystr)
    (ds : list Delivery) (w : World) (i : Z) (a : Appointment) :
  edit_states_are_admins ADMIN_IDS w ->
  Forall (fun d => is_admin_id ADMIN_IDS (from_user d) = false) ds ->
  get_appointment (w_db w) (Some i) = Some a ->
  get_appointment (w_db (deliver_all ADMIN_IDS lower command_of ds w)) (Some i) = Some a
  \/ get_appointment (w_db (deliver_all ADMIN_IDS lower command_of ds w)) (Some i)
     = Some (mark_deleted a).
Proof.
  intros Hinv Hds. revert w a Hinv.
  induction Hds as [|d ds Hd Hds IH]; intros w a Hinv Hf; [by left|].
  simpl.
  pose proof (deliver_no_edit_state ADMIN_IDS lower command_of w d Hinv) as Hinv'.
  destruct (deliver_non_admin_keeps_fields ADMIN_IDS lower command_of w d i a Hinv Hd Hf)
    as [Hf'|Hf'].
  - by apply IH.
  - destruct (IH _ _ Hinv' Hf') as [H|H]; right; exact H.
Qed.

(** * Properties of single handlers *)

(** X11.  The administrator check: every update of the administrators' menu
    and of the entries to the edit flows, sent by a user outside
    [ADMIN_IDS], is answered with "access denied" and changes neither
    the store nor the user's FSM context. *)
Theorem admin_updates_denied_to_members (ADMIN_IDS : list Z) (env : Env)
    (lower : pystr -> pystr) (command_of : pystr -> option pystr)
    (today user_id : Z) (upd : Update) (bot : Bot) :
  is_admin_id ADMIN_IDS user_id = false ->
  admin_only upd = true ->
  dispatch ADMIN_IDS env lower command_of today user_id upd bot
  = (denied bot, Returns true).
Proof.
  intros Hadmin Hupd. destruct upd; try discriminate Hupd; unfold dispatch.
  - unfold process_callback_all_appointments. by rewrite Hadmin.
  - unfold process_callback_admin_view. by rewrite Hadmin.
  - unfold process_callback_delete_appointment. by rewrite Hadmin.
  - unfold process_callback_edit_appointment. by rewrite Hadmin.
  - unfold process_callback_edit_patient_name. by rewrite Hadmin.
  - unfold process_callback_edit_doctor. by rewrite Hadmin.
  - unfold then_true, process_callback_edit_procedure. by rewrite Hadmin.
  - unfold process_callback_edit_date. by rewrite Hadmin.
  - unfold process_callback_edit_time. by rewrite Hadmin.
Qed.

(** X12.  "Cancel" at any point of a wizard: the FSM context is emptied,
    nothing is committed, and from the emptied context every update
    that needs a wizard state finds no handler and changes nothing. *)
Theorem cancel_discards_the_form (ADMIN_IDS : list Z) (env : Env)
    (lower : pystr -> pystr) (command_of : pystr -> option pystr)
    (today user_id : Z) (bot : Bot) :
  let after :=
    (dispatch ADMIN_IDS env lower command_of today user_id Callback_cancel bot).1 in
  db after = db bot
  /\ state after = cleared
  /\ forall env' today' upd,
       state_filtered command_of upd = true ->
       dispatch ADMIN_IDS env' lower command_of today' user_id upd after
       = (after, Returns false).
Proof.
  intros after. split; [reflexivity|]. split; [reflexivity|].
  intros env' today' upd Hupd.
  destruct upd; try discriminate Hupd; try reflexivity.
  apply negb_true_iff in Hupd. unfold commanded in Hupd.
  apply orb_false_iff in Hupd as [Hupd Hstop].
  apply orb_false_iff in Hupd as [Hupd Hmenu].
  apply orb_false_iff in Hupd as [Hstart Hhelp].
  unfold dispatch. by rewrite Hstart, Hhelp, Hmenu, Hstop.
Qed.


Lemma update_none_bot env (bot : Bot) (kwargs : list kwarg) :
  get_appointment (db bot) (sd_edit_appointment_id (fsm_data (state bot)))
  = None ->
  on_db (update_appointment env
           (sd_edit_appointment_id (fsm_data (state bot))) kwargs) bot
  = (bot, Ok false).
Proof.
  intros Hf. unfold on_db. rewrite update_appointment_missing by done.
  by destruct bot.
Qed.

(** X13.  An edit whose appointment is not there (the id kept in the FSM data
    is unknown, or there is none): the handler reports the failure,
    ends the edit session and leaves the store as it is; no write is
    attempted. *)
Theorem edit_of_missing_appointment (env : Env) (v : pystr) (bot : Bot) :
  get_appointment (db bot) (sd_edit_appointment_id (fsm_data (state bot)))
  = None ->
  let failed notice :=
    ({| db := db bot; state := cleared;
        sent := sent bot ++
          [message_edit_text notice None; callback_answer None] |},
     Ok tt) in
  process_callback_select_new_doctor env v bot
  = failed (u "❌ Не удалось обновить врача.")
  /\ process_callback_select_new_procedure env v bot
     = failed (u "❌ Не удалось обновить процедуру.")
  /\ process_callback_select_new_date env v bot
     = failed (u "❌ Не удалось обновить дату.")
  /\ process_callback_select_new_time env v bot
     = failed (u "❌ Не удалось обновить время.").
Proof.
  intros Hf failed. unfold failed.
  unfold process_callback_select_new_doctor,
    process_callback_select_new_procedure, process_callback_select_new_date,
    process_callback_select_new_time.
  unfold bind at 1 5 9 13. unfold get_data, gets.
  unfold bind at 1 4 7 10.
  rewrite !(update_none_bot env bot _ Hf).
  run_routing. rewrite <- !app_assoc. by repeat split.
Qed.

(** X14.  The edit flow for the name keeps the rule of the booking wizard: a
    text whose stripped length is outside 2..50 is turned down and the
    edit session stays open; a text within it is written, stripped, into
    the appointment and the session ends; and when the appointment is not
    there the failure is reported and the session ends. *)
Theorem rename_length_gate (env : Env) (t : pystr) (bot : Bot) :
  (len (strip t) < 2 \/ 50 < len (strip t) ->
   process_new_patient_name env (Some t) bot
   = ({| db := db bot; state := state bot;
         sent := sent bot ++
           [message_answer (u "❌ Некорректное имя. Попробуйте снова:")
              None] |}, Ok tt))
  /\ (2 <= len (strip t) <= 50 ->
      (get_appointment (db bot)
         (sd_edit_appointment_id (fsm_data (state bot))) = None ->
       process_new_patient_name env (Some t) bot
       = ({| db := db bot; state := cleared;
             sent := sent bot ++
               [message_answer (u "❌ Не удалось обновить имя.") None] |},
          Ok tt))
      /\ (forall a,
            get_appointment (db bot)
              (sd_edit_appointment_id (fsm_data (state bot))) = Some a ->
            writable env = true ->
            let after := process_new_patient_name env (Some t) bot in
            after.2 = Ok tt
            /\ get_appointment (db after.1)
                 (sd_edit_appointment_id (fsm_data (state bot)))
               = Some (dict_update a [kw_patient_name (strip t)])
            /\ state after.1 = cleared
            /\ sent after.1
               = sent bot ++
                 [message_answer (u "✅ Имя пациента успешно обновлено!")
                    None])).
Proof.
  split.
  - intros Hlen. unfold process_new_patient_name. run_routing.
    destruct (Z.ltb_spec (len (strip t)) 2), (Z.ltb_spec 50 (len (strip t)));
      simpl; try reflexivity; lia.
  - intros Hlen.
    assert ((len (strip t) <? 2) || (50 <? len (strip t)) = false) as Hgate.
    { destruct (Z.ltb_spec (len (strip t)) 2),
        (Z.ltb_spec 50 (len (strip t))); simpl; try reflexivity; lia. }
    split.
    + intros Hf. unfold process_new_patient_name.
      unfold bind at 1. unfold get_data, gets. rewrite Hgate.
      unfold bind at 1. rewrite (update_none_bot env bot _ Hf).
      run_routing. reflexivity.
    + intros a Hf Hw after.
      pose proof (get_after_update env (db bot) _ [kw_patient_name (strip t)]
                    a eq_refl Hf) as Hget.
      destruct (update_appointment_found env (db bot) _
                  [kw_patient_name (strip t)] a Hf) as (l1 & l2 & Hl & Hu).
      rewrite Hw in Hu. unfold after, process_new_patient_name.
      run_routing. rewrite Hgate. rewrite Hu in *. simpl in *.
      by repeat split.
Qed.

(** X15.  Viewing an appointment asks nothing about the caller or the status:
    for every caller and every stored appointment, deleted ones
    included, the handler shows the patient's form of the record; the
    caller's id only picks the buttons under it.  An unknown id gets the
    "not found" notice.  Store and FSM context are not touched. *)
Theorem view_ignores_owner_and_status (ADMIN_IDS : list Z)
    (caller appointment_id : Z) (bot : Bot) :
  (forall a,
     get_appointment (db bot) (Some appointment_id) = Some a ->
     process_callback_view_appointment ADMIN_IDS caller appointment_id bot
     = ({| db := db bot; state := state bot;
           sent := sent bot ++
             [message_edit_text (format_appointment a false)
                (Some (get_appointment_actions_keyboard appointment_id
                         (is_admin_id ADMIN_IDS caller)));
              callback_answer None] |}, Ok tt))
  /\ (get_appointment (db bot) (Some appointment_id) = None ->
      process_callback_view_appointment ADMIN_IDS caller appointment_id bot
      = ({| db := db bot; state := state bot;
            sent := sent bot ++
              [message_edit_text (u "❌ Запись не найдена.")
                 (Some (get_main_keyboard (is_admin_id ADMIN_IDS caller)));
               callback_answer None] |}, Ok tt)).
Proof.
  split.
  - intros a Hf. unfold process_callback_view_appointment. run_routing.
    rewrite Hf. simpl. by rewrite <- app_assoc.
  - intros Hf. unfold process_callback_view_appointment. run_routing.
    rewrite Hf. simpl. by rewrite <- app_assoc.
Qed.

Lemma get_appointments_own self user_id :
  user_id ≠ 0 -> get_appointments self (Some user_id) = own_active self user_id.
Proof.
  intros Hn. unfold get_appointments, own_active. simpl.
  rewrite (proj2 (Z.eqb_neq user_id 0) Hn). simpl.
  induction (appointments (data self)) as [|a l IH]; [done|]. simpl.
  rewrite IH.
  destruct (decide (apt_user_id a = user_id)) as [Heq|Hne].
  - by rewrite !bool_decide_true by congruence.
  - by rewrite !bool_decide_false by congruence.
Qed.

Lemma appointments_keyboard_callbacks (l : list Appointment) :
  map callback_data (choices (get_appointments_keyboard l false))
  = map (fun a => u "view_appointment:" ++ str_of_int (apt_id a)) l.
Proof.
  unfold choices, get_appointments_keyboard. rewrite removelast_last.
  induction l as [|a l IH]; [done|].
  cbn [map concat app]. f_equal. exact IH.
Qed.

(** X16.  "My appointments": the handler shows one button for each active
    appointment the caller owns, in the order of the store, each carrying
    the id of its appointment, or the "no appointments yet" notice when
    there is none; it changes nothing. *)
Theorem my_appointments_lists_own_active (ADMIN_IDS : list Z)
    (user_id : Z) (bot : Bot) :
  user_id ≠ 0 ->
  let own := own_active (db bot) user_id in
  let after := process_callback_my_appointments ADMIN_IDS user_id bot in
  after.2 = Ok tt
  /\ db after.1 = db bot
  /\ state after.1 = state bot
  /\ (own = [] ->
      sent after.1
      = sent bot ++
        [message_answer
           (u "📭 У вас пока нет записей." ++ [10; 10]%N
            ++ u "Чтобы создать новую запись, нажмите «Записаться».")
           (Some (get_main_keyboard (is_admin_id ADMIN_IDS user_id)));
         callback_answer None])
  /\ (own ≠ [] ->
      sent after.1
      = sent bot ++
        [message_answer (u "📋 Ваши записи:")
           (Some (get_appointments_keyboard own false));
         callback_answer None])
  /\ map callback_data (choices (get_appointments_keyboard own false))
     = map (fun a => u "view_appointment:" ++ str_of_int (apt_id a)) own.
Proof.
  intros Hn own after. unfold after, process_callback_my_appointments.
  run_routing. rewrite (get_appointments_own _ _ Hn). fold own.
  assert (map callback_data (choices (get_appointments_keyboard own false))
          = map (fun a => u "view_appointment:" ++ str_of_int (apt_id a)) own)
    as Hbuttons.
  { apply appointments_keyboard_callbacks. }
  destruct own as [|a l]; simpl; rewrite <- app_assoc;
    repeat split; try done.
Qed.

(** X17.  [/start]: a user who is registered is greeted and the store is left
    alone.  A new user is registered with the names and the clock of
    this first contact, and greeted when the file is written.  When it
    cannot be written, [OSError] ends the handler before the greeting,
    yet the user is registered in memory: the next [/start] greets and
    writes nothing. *)
Theorem start_registers_once (ADMIN_IDS : list Z) (env : Env)
    (user_id : Z) (username : option pystr) (first_name : pystr)
    (bot : Bot) :
  let key := str_of_int user_id in
  let after := cmd_start ADMIN_IDS env user_id username first_name bot in
  state after.1 = state bot
  /\ (is_Some (users (data (db bot)) !! key) ->
      after
      = ({| db := db bot; state := state bot;
            sent := sent bot ++ [welcome ADMIN_IDS user_id first_name] |},
         Ok tt))
  /\ (users (data (db bot)) !! key = None ->
      users (data (db after.1)) !! key
      = Some {| usr_username := username;
                usr_first_name := first_name;
                usr_registered_at := now_isoformat env |}
      /\ (writable env = true ->
          after.2 = Ok tt
          /\ file (db after.1) = Some (data (db after.1))
          /\ sent after.1
             = sent bot ++ [welcome ADMIN_IDS user_id first_name])
      /\ (writable env = false ->
          after.2 = Raise OSError
          /\ sent after.1 = sent bot
          /\ forall env' username' first_name',
               cmd_start ADMIN_IDS env' user_id username' first_name' after.1
               = ({| db := db after.1; state := state bot;
                     sent := sent bot
                             ++ [welcome ADMIN_IDS user_id first_name'] |},
                  Ok tt))).
Proof.
  intros key after. unfold after, cmd_start, key. run_routing.
  unfold add_user.
  destruct (users (data (db bot)) !! str_of_int user_id) as [usr|] eqn:Hu.
  - simpl. split; [done|]. split; [done|]. intros [=].
  - run_store. split; [by destruct (writable env)|].
    split; [by intros [? [=]]|]. intros _.
    split; [destruct (writable env); simpl; by rewrite lookup_insert_eq|].
    split; intros Hw; rewrite Hw; simpl; [done|].
    split; [done|]. split; [done|].
    intros env' username' first_name'. by rewrite lookup_insert_eq.
Qed.

Lemma deliver_at ADMIN_IDS lower command_of w d self c :
  w_db w = self -> context_of w (from_user d) = c ->
  let bot' :=
    (dispatch ADMIN_IDS (at_env d) lower command_of (at_day d) (from_user d) (update d)
       {| db := self; state := c; sent := [] |}).1 in
  w_db (deliver ADMIN_IDS lower command_of w d) = db bot'
  /\ context_of (deliver ADMIN_IDS lower command_of w d) (from_user d) = state bot'.
Proof.
  intros <- <-. split; [reflexivity|].
  rewrite context_of_deliver. by rewrite decide_True.
Qed.

(** X18.  A whole pass through the booking wizard.  Whatever state and
    leftovers the user's FSM context holds, the seven updates from the
    menu button to "confirm", with a name that is none of the bot's
    commands and has 2..50 characters, a doctor label that has a word, a
    slot that is free and a file that can be written at "confirm",
    commit exactly the appointment that was entered, owned by the user,
    and empty the context. *)
Theorem booking_pass_commits_the_form (ADMIN_IDS : list Z)
    (lower : pystr -> pystr) (command_of : pystr -> option pystr)
    (clock : nat -> Env) (day : nat -> Z) (user_id : Z)
    (username : option pystr) (first_name : pystr)
    (name doctor procedure date time : pystr) (w : World) :
  commanded command_of (Some name) = false ->
  2 <= len (strip name) <= 50 ->
  first_word doctor ≠ None ->
  is_appointment_available (w_db w) doctor date time = true ->
  writable (clock 6%nat) = true ->
  let after :=
    deliver_all ADMIN_IDS lower command_of
      (booking_pass clock day user_id username first_name name doctor
         procedure date time) w in
  w_db after
  = (create_appointment (clock 6%nat) user_id (strip name) doctor procedure
       date time (w_db w)).1
  /\ appointments (data (w_db after))
     = appointments (data (w_db w))
       ++ [new_appointment (clock 6%nat) (w_db w) user_id (strip name) doctor
             procedure date time]
  /\ context_of after user_id = cleared.
Proof.
  intros Hcmd Hlen Hword Hfree Hwrite after.
  unfold commanded in Hcmd.
  apply orb_false_iff in Hcmd as [Hcmd Hstop].
  apply orb_false_iff in Hcmd as [Hcmd Hmenu].
  apply orb_false_iff in Hcmd as [Hstart Hhelp].
  assert ((len (strip name) <? 2) || (50 <? len (strip name)) = false)
    as Hgate.
  { destruct (Z.ltb_spec (len (strip name)) 2),
      (Z.ltb_spec 50 (len (strip name))); simpl; try reflexivity; lia. }
  destruct (first_word doctor) as [word|] eqn:Hw; [clear Hword|done].
  unfold after, booking_pass, deliver_all. cbn [fold_left].
  set (c0 := context_of w user_id).
  set (d1 := mkDelivery (clock 0%nat) _ _ _).
  set (d2 := mkDelivery (clock 1%nat) _ _ _).
  set (d3 := mkDelivery (clock 2%nat) _ _ _).
  set (d4 := mkDelivery (clock 3%nat) _ _ _).
  set (d5 := mkDelivery (clock 4%nat) _ _ _).
  set (d6 := mkDelivery (clock 5%nat) _ _ _).
  set (d7 := mkDelivery (clock 6%nat) _ _ _).
  set (w1 := deliver ADMIN_IDS lower command_of w d1).
  set (w2 := deliver ADMIN_IDS lower command_of w1 d2).
  set (w3 := deliver ADMIN_IDS lower command_of w2 d3).
  set (w4 := deliver ADMIN_IDS lower command_of w3 d4).
  set (w5 := deliver ADMIN_IDS lower command_of w4 d5).
  set (w6 := deliver ADMIN_IDS lower command_of w5 d6).
  set (w7 := deliver ADMIN_IDS lower command_of w6 d7).
  set (f := fsm_data c0).
  assert (w_db w1 = w_db w
          /\ context_of w1 user_id
             = {| fsm_state :=
                    Some (Booking AppointmentStates.waiting_for_patient_name);
                  fsm_data := f |}) as [Hdb1 Hc1].
  { destruct (deliver_at ADMIN_IDS lower command_of w d1 (w_db w) c0 eq_refl eq_refl)
      as [E1 E2].
    split; [exact E1 | exact E2]. }
  assert (w_db w2 = w_db w
          /\ context_of w2 user_id
             = {| fsm_state :=
                    Some (Booking AppointmentStates.waiting_for_doctor);
                  fsm_data := with_patient_name f (strip name) |})
    as [Hdb2 Hc2].
  { destruct (deliver_at ADMIN_IDS lower command_of w1 d2 _ _ Hdb1 Hc1) as [E1 E2].
    split; (etrans; [first [exact E1 | exact E2]|]);
      unfold d2, dispatch; cbn [update from_user at_env at_day];
      rewrite Hstart, Hhelp, Hmenu, Hstop;
      cbn [state fsm_state]; rewrite bool_decide_true by done;
      unfold ran, lift, bind at 1;
      rewrite process_patient_name_gate, Hgate; reflexivity. }
  assert (w_db w3 = w_db w
          /\ context_of w3 user_id
             = {| fsm_state :=
                    Some (Booking AppointmentStates.waiting_for_procedure);
                  fsm_data :=
                    mkStateData (Some (strip name)) (Some doctor)
                      (sd_procedure f) (sd_date f) (sd_time f)
                      (sd_edit_appointment_id f) |})
    as [Hdb3 Hc3].
  { destruct (deliver_at ADMIN_IDS lower command_of w2 d3 _ _ Hdb2 Hc2) as [E1 E2].
    split; (etrans; [first [exact E1 | exact E2]|]);
      unfold d3, dispatch; cbn [update from_user at_env at_day];
      cbn [state fsm_state]; rewrite bool_decide_true by done;
      unfold then_true, process_callback_select_doctor,
        get_procedures_keyboard; rewrite Hw; reflexivity. }
  assert (w_db w4 = w_db w
          /\ context_of w4 user_id
             = {| fsm_state :=
                    Some (Booking AppointmentStates.waiting_for_date);
                  fsm_data :=
                    mkStateData (Some (strip name)) (Some doctor)
                      (Some procedure) (sd_date f) (sd_time f)
                      (sd_edit_appointment_id f) |}) as [Hdb4 Hc4].
  { destruct (deliver_at ADMIN_IDS lower command_of w3 d4 _ _ Hdb3 Hc3) as [E1 E2].
    split; [exact E1 | exact E2]. }
  assert (w_db w5 = w_db w
          /\ context_of w5 user_id
             = {| fsm_state :=
                    Some (Booking AppointmentStates.waiting_for_time);
                  fsm_data :=
                    mkStateData (Some (strip name)) (Some doctor)
                      (Some procedure) (Some date) (sd_time f)
                      (sd_edit_appointment_id f) |}) as [Hdb5 Hc5].
  { destruct (deliver_at ADMIN_IDS lower command_of w4 d5 _ _ Hdb4 Hc4) as [E1 E2].
    split; [exact E1 | exact E2]. }
  assert (w_db w6 = w_db w
          /\ context_of w6 user_id
             = {| fsm_state :=
                    Some (Booking AppointmentStates.waiting_for_confirmation);
                  fsm_data :=
                    mkStateData (Some (strip name)) (Some doctor)
                      (Some procedure) (Some date) (Some time)
                      (sd_edit_appointment_id f) |})
    as [Hdb6 Hc6].
  { destruct (deliver_at ADMIN_IDS lower command_of w5 d6 _ _ Hdb5 Hc5) as [E1 E2].
    split; (etrans; [first [exact E1 | exact E2]|]);
      unfold d6, dispatch; cbn [update from_user at_env at_day];
      unfold on_select_time, process_callback_select_time; run_routing;
      rewrite Hfree; reflexivity. }
  assert (w_db w7
          = (create_appointment (clock 6%nat) user_id (strip name) doctor
               procedure date time (w_db w)).1
          /\ context_of w7 user_id = cleared) as [Hdb7 Hc7].
  { destruct (deliver_at ADMIN_IDS lower command_of w6 d7 _ _ Hdb6 Hc6) as [E1 E2].
    split; (etrans; [first [exact E1 | exact E2]|]);
      unfold d7, dispatch; cbn [update from_user at_env at_day];
      unfold on_confirm, process_callback_confirm; run_routing;
      rewrite create_appointment_ok by done; reflexivity. }
  split; [exact Hdb7|]. split; [|exact Hc7].
  rewrite Hdb7, create_appointment_ok by done. reflexivity.
Qed.

(** * Properties of the keyboards and of the callback data *)

Lemma startswith_app (p s : pystr) : startswith (p ++ s) p = true.
Proof.
  induction p as [|c p IH]; simpl; [by destruct s|].
  by rewrite N.eqb_refl.
Qed.

Lemma after_colon_app (p s : pystr) :
  forallb (fun c => negb (c =? 58)%N) p = true ->
  after_colon (p ++ 58%N :: s) = Some s.
Proof.
  induction p as [|c p IH]; simpl; [done|].
  intros [Hc Hp]%andb_true_iff.
  apply negb_true_iff in Hc. rewrite Hc. by apply IH.
Qed.

Lemma after_colon_prefixed (p q s : pystr) :
  q = p ++ [58%N] ->
  forallb (fun c => negb (c =? 58)%N) p = true ->
  after_colon (q ++ s) = Some s.
Proof. intros -> Hp. rewrite <- app_assoc. by apply after_colon_app. Qed.

Lemma select_doctor_payload s :
  startswith (u "select_doctor:" ++ s) (u "select_doctor:") = true
  /\ after_colon (u "select_doctor:" ++ s) = Some s.
Proof.
  split; [apply startswith_app|].
  apply (after_colon_prefixed (u "select_doctor")); vm_compute; reflexivity.
Qed.

Lemma select_procedure_payload s :
  startswith (u "select_procedure:" ++ s) (u "select_procedure:") = true
  /\ after_colon (u "select_procedure:" ++ s) = Some s.
Proof.
  split; [apply startswith_app|].
  apply (after_colon_prefixed (u "select_procedure")); vm_compute; reflexivity.
Qed.

Lemma select_date_payload s :
  startswith (u "select_date:" ++ s) (u "select_date:") = true
  /\ after_colon (u "select_date:" ++ s) = Some s.
Proof.
  split; [apply startswith_app|].
  apply (after_colon_prefixed (u "select_date")); vm_compute; reflexivity.
Qed.

Lemma select_time_payload s :
  startswith (u "select_time:" ++ s) (u "select_time:") = true
  /\ after_colon (u "select_time:" ++ s) = Some s.
Proof.
  split; [apply startswith_app|].
  apply (after_colon_prefixed (u "select_time")); vm_compute; reflexivity.
Qed.

Lemma Forall_map_buttons {A} (P : InlineKeyboardButton -> Prop)
    (f : A -> InlineKeyboardButton) (l : list A) :
  (forall x, x ∈ l -> P (f x)) -> Forall P (concat (map (fun x => [f x]) l)).
Proof.
  intros Hf. induction l as [|x l IH]; simpl; [constructor|].
  constructor; [apply Hf; by left|]. apply IH. intros; apply Hf. by right.
Qed.

(** X19.  What a selection button carries comes back whole.  For every button
    of the doctor, procedure, date and time keyboards of the booking
    wizard, the handler's filter accepts its callback data, and the part
    after the first colon, which the handler stores, is the doctor,
    procedure, date or time that the button offers, colons in it
    included. *)
Theorem selections_round_trip (lower : pystr -> pystr) (today : Z)
    (doctor : pystr) :
  Forall (fun b => startswith (callback_data b) (u "select_doctor:") = true
                   /\ after_colon (callback_data b) = Some (text b)
                   /\ text b ∈ DOCTORS)
    (choices get_doctors_keyboard)
  /\ Forall (fun b => startswith (callback_data b) (u "select_time:") = true
                      /\ after_colon (callback_data b) = Some (text b)
                      /\ text b ∈ AVAILABLE_TIMES)
       (choices get_times_keyboard)
  /\ (forall kb,
        get_procedures_keyboard lower doctor = Some kb ->
        Forall (fun b =>
                  startswith (callback_data b) (u "select_procedure:") = true
                  /\ after_colon (callback_data b) = Some (text b))
          (choices kb))
  /\ Forall2 (fun b i =>
                startswith (callback_data b) (u "select_date:") = true
                /\ after_colon (callback_data b)
                   = Some (strftime_d_m_Y (today + i)))
       (choices (get_dates_keyboard today)) (seqZ 0 7).
Proof.
  split; [|split; [|split]].
  - unfold choices, get_doctors_keyboard. rewrite removelast_last.
    apply Forall_map_buttons. intros d Hin. cbn [callback_data text].
    destruct (select_doctor_payload d). by repeat split.
  - unfold choices, get_times_keyboard. rewrite removelast_last.
    apply Forall_map_buttons. intros d Hin. cbn [callback_data text].
    destruct (select_time_payload d). by repeat split.
  - intros kb. unfold get_procedures_keyboard.
    destruct (first_word doctor) as [w|]; [|done]. intros [= <-].
    unfold choices. rewrite removelast_last. unfold procedure_buttons.
    apply Forall_map_buttons. intros p _. apply select_procedure_payload.
  - unfold choices, get_dates_keyboard. rewrite removelast_last.
    generalize (seqZ 0 7). intros l.
    induction l as [|i l IH]; simpl; [constructor|].
    constructor; [apply select_date_payload | exact IH].
Qed.

Lemma first_word_blank (s : pystr) :
  first_word s = None <-> forallb isspace s = true.
Proof.
  unfold first_word. induction s as [|c s IH]; simpl; [done|].
  destruct (isspace c) eqn:Hc; simpl; [exact IH|].
  split; discriminate.
Qed.

Lemma dict_get_procedures (k : pystr) :
  (length (dict_get PROCEDURES k [u "Консультация"]) = 3%nat
   /\ k ∈ map fst PROCEDURES)
  \/ (dict_get PROCEDURES k [u "Консультация"] = [u "Консультация"]
      /\ k ∉ map fst PROCEDURES).
Proof.
  unfold PROCEDURES. cbn [dict_get map fst].
  repeat case_bool_decide.
  1-5: left; split; [reflexivity | subst k; listed].
  right. split; [reflexivity|].
  intros Hin. repeat (apply elem_of_cons in Hin as [Hin|Hin]; [congruence|]).
  by apply elem_of_nil in Hin.
Qed.

(** X20.  The procedures offered for a doctor.  A label that is blank has no
    first word and the keyboard cannot be built ([IndexError]).  For
    every other label the keyboard is never without a choice: it offers
    the three procedures of the speciality named by the first word,
    lower-cased, or, when that word is no speciality, the single default
    "Консультация"; and its last row is the "back" button. *)
Theorem procedures_keyboard_has_choices (lower : pystr -> pystr)
    (doctor : pystr) :
  (get_procedures_keyboard lower doctor = None
   <-> forallb isspace doctor = true)
  /\ forall kb w,
       get_procedures_keyboard lower doctor = Some kb ->
       first_word doctor = Some w ->
       last kb = Some [mkButton (u "◀️ Назад") (u "select_doctor")]
       /\ map text (choices kb)
          = dict_get PROCEDURES (lower w) [u "Консультация"]
       /\ (lower w ∈ map fst PROCEDURES -> length (choices kb) = 3%nat)
       /\ (lower w ∉ map fst PROCEDURES ->
           map text (choices kb) = [u "Консультация"]).
Proof.
  unfold get_procedures_keyboard. split.
  - rewrite <- first_word_blank. by destruct (first_word doctor).
  - intros kb w. destruct (first_word doctor) as [w'|]; [|done].
    intros [= <-] [= ->]. unfold choices. rewrite removelast_last, last_snoc.
    assert (forall l, map text (concat (procedure_buttons
                                           (u "select_procedure:") l)) = l)
      as Htexts.
    { induction l as [|p l IH]; [done|].
      cbn [procedure_buttons map concat app]. f_equal. exact IH. }
    assert (forall l, length (concat (procedure_buttons
                                        (u "select_procedure:") l))
                      = length l) as Hlens.
    { intros l. by rewrite <- (length_map text), Htexts. }
    rewrite Htexts, Hlens.
    split; [reflexivity|]. split; [reflexivity|].
    destruct (dict_get_procedures (lower w)) as [[Hlen Hin]|[Hdef Hnot]].
    + split; [done|]. intros Hno. by destruct Hno.
    + split; [intros Hin; by destruct Hnot | done].
Qed.

Lemma accepted_by (f : pystr -> bool) (c : pystr) :
  In f callback_filters -> f c = true -> accepted c = true.
Proof.
  intros Hin Hf. unfold accepted. apply existsb_exists. by exists f.
Qed.

(** X21.  The "back" buttons of the wizard.  Under the procedures, the dates
    and the times the "back" button carries ["select_doctor"] or
    ["select_date"], data that the filter of no handler accepts: pressing
    it reaches no handler.  Every other button of these keyboards, and
    every button of the doctors keyboard with its "back" button, carries
    data that a filter accepts. *)
Theorem wizard_back_buttons_reach_no_handler (lower : pystr -> pystr)
    (today : Z) (doctor : pystr) :
  (forall kb,
     get_procedures_keyboard lower doctor = Some kb ->
     exists b, last kb = Some [b] /\ accepted (callback_data b) = false)
  /\ (exists b, last (get_dates_keyboard today) = Some [b]
                /\ accepted (callback_data b) = false)
  /\ (exists b, last get_times_keyboard = Some [b]
                /\ accepted (callback_data b) = false)
  /\ (forall kb,
        get_procedures_keyboard lower doctor = Some kb ->
        Forall (fun b => accepted (callback_data b) = true) (choices kb))
  /\ Forall (fun b => accepted (callback_data b) = true)
       (choices (get_dates_keyboard today))
  /\ Forall (fun b => accepted (callback_data b) = true)
       (choices get_times_keyboard)
  /\ Forall (fun b => accepted (callback_data b) = true)
       (concat get_doctors_keyboard).
Proof.
  split; [|split; [|split; [|split; [|split; [|split]]]]].
  - intros kb. unfold get_procedures_keyboard.
    destruct (first_word doctor) as [w|]; [|done]. intros [= <-].
    eexists. rewrite last_snoc. split; [reflexivity|].
    vm_compute. reflexivity.
  - eexists. unfold get_dates_keyboard. rewrite last_snoc.
    split; [reflexivity|]. vm_compute. reflexivity.
  - eexists. unfold get_times_keyboard. rewrite last_snoc.
    split; [reflexivity|]. vm_compute. reflexivity.
  - intros kb. unfold get_procedures_keyboard.
    destruct (first_word doctor) as [w|]; [|done]. intros [= <-].
    unfold choices. rewrite removelast_last. unfold procedure_buttons.
    apply Forall_map_buttons. intros p _. cbn [callback_data].
    apply (accepted_by (fun c => startswith c (u "select_procedure:")));
      [in_filters | apply startswith_app].
  - unfold choices, get_dates_keyboard. rewrite removelast_last.
    apply Forall_map_buttons. intros i _.
    apply (accepted_by (fun c => startswith c (u "select_date:")));
      [in_filters | apply startswith_app].
  - unfold choices, get_times_keyboard. rewrite removelast_last.
    apply Forall_map_buttons. intros t _. cbn [callback_data].
    apply (accepted_by (fun c => startswith c (u "select_time:")));
      [in_filters | apply startswith_app].
  - unfold get_doctors_keyboard. rewrite concat_app. apply Forall_app. split.
    + apply Forall_map_buttons. intros d _. cbn [callback_data].
      apply (accepted_by (fun c => startswith c (u "select_doctor:")));
        [in_filters | apply startswith_app].
    + repeat constructor.
Qed.

(** X22.  "Confirm" when the file cannot be written.  [create_appointment]
    has put the appointment into the document before the write fails,
    and the exception ends the handler before [state.clear()]: nothing
    is sent and the user is still at the confirmation step.  A second
    "confirm", once the file can be written, creates the appointment
    again: the slot then holds two more active appointments than
    before, with consecutive ids. *)
Theorem failed_confirm_repeats_the_booking (ADMIN_IDS : list Z)
    (env1 env2 : Env) (user_id : Z)
    (name doctor procedure date time : pystr) (e : option Z)
    (self : Database) (out : list Action) :
  writable env1 = false ->
  writable env2 = true ->
  let form :=
    {| fsm_state := Some (Booking AppointmentStates.waiting_for_confirmation);
       fsm_data := mkStateData (Some name) (Some doctor) (Some procedure)
                     (Some date) (Some time) e |} in
  let first :=
    on_confirm ADMIN_IDS env1 user_id
      {| db := self; state := form; sent := out |} in
  let second := on_confirm ADMIN_IDS env2 user_id first.1 in
  first.2 = Raise OSError
  /\ state first.1 = form
  /\ sent first.1 = out
  /\ second.2 = Ok true
  /\ state second.1 = cleared
  /\ appointments (data (db second.1))
     = appointments (data self)
       ++ [mkAppointment (next_id (data self)) user_id name doctor procedure
             date time (now_isoformat env1) active;
           mkAppointment (next_id (data self) + 1) user_id name doctor
             procedure date time (now_isoformat env2) active]
  /\ length (List.filter (occupies doctor date time)
               (appointments (data (db second.1))))
     = (2 + length (List.filter (occupies doctor date time)
                      (appointments (data self))))%nat.
Proof.
  intros Hw1 Hw2 form first second.
  assert (first
          = ({| db :=
                  {| data :=
                       {| appointments :=
                            appointments (data self)
                            ++ [mkAppointment (next_id (data self)) user_id
                                  name doctor procedure date time
                                  (now_isoformat env1) active];
                          users := users (data self);
                          next_id := next_id (data self) + 1 |};
                     file := file self |};
                state := form; sent := out |}, Raise OSError)) as Hfirst.
  { unfold first, on_confirm, process_callback_confirm. run_routing.
    unfold create_appointment. run_store. by rewrite Hw1. }
  assert (appointments (data (db second.1))
          = appointments (data self)
            ++ [mkAppointment (next_id (data self)) user_id name doctor
                  procedure date time (now_isoformat env1) active;
                mkAppointment (next_id (data self) + 1) user_id name doctor
                  procedure date time (now_isoformat env2) active]
          /\ second.2 = Ok true /\ state second.1 = cleared)
    as (Hl & Hr & Hs).
  { unfold second. rewrite Hfirst.
    unfold on_confirm, process_callback_confirm. run_routing.
    unfold create_appointment. run_store. rewrite Hw2. simpl.
    rewrite <- app_assoc. by repeat split. }
  rewrite Hfirst. simpl. repeat split; try done.
  rewrite Hl, List.filter_app, length_app.
  assert (forall i c,
            occupies doctor date time
              (mkAppointment i user_id name doctor procedure date time c
                 active) = true) as Hocc.
  { intros i c. unfold occupies. simpl. by rewrite !bool_decide_true. }
  cbn [List.filter]. rewrite !Hocc. simpl. lia.
Qed.

(** * Lookup after creation and after update *)

Lemma dict_update_keeps_id a kwargs :
  keeps_id kwargs = true -> apt_id (dict_update a kwargs) = apt_id a.
Proof.
  unfold dict_update, keeps_id. revert a.
  induction kwargs as [|kw kwargs IH]; intros a; simpl; [done|].
  intros [Hkw Hrest]%andb_true_iff. rewrite (IH _ Hrest).
  by destruct kw.
Qed.

Lemma find_after_update_first l j kwargs l' k :
  keeps_id kwargs = true ->
  update_first l j kwargs = Some l' ->
  find_appointment l' k
  = if bool_decide (j = k)
    then (fun a => dict_update a kwargs) <$> find_appointment l k
    else find_appointment l k.
Proof.
  intros Hkw. revert l'.
  induction l as [|b l IH]; intros l'; simpl; [done|].
  destruct (bool_decide (Some (apt_id b) = j)) eqn:Hb.
  - apply bool_decide_eq_true in Hb. intros [= <-]. simpl.
    rewrite dict_update_keeps_id by done. subst j.
    by destruct (bool_decide (Some (apt_id b) = k)).
  - apply bool_decide_eq_false in Hb.
    destruct (update_first l j kwargs) as [l0|]; simpl; [|done].
    intros [= <-]. simpl. specialize (IH l0 eq_refl).
    destruct (bool_decide (Some (apt_id b) = k)) eqn:Hk.
    + apply bool_decide_eq_true in Hk.
      rewrite bool_decide_false; [done | congruence].
    + exact IH.
Qed.

(** X23.  Update, then look up.  When [update_appointment] finds a record
    under an id and the keyword arguments do not rename the id, a lookup
    of that id afterwards returns the record with exactly the given keys
    replaced, the lookup of every other id returns what it returned
    before, and the call returns [True] if the file was written. *)
Theorem update_then_get (env : Env) (j : option Z) (kwargs : list kwarg)
    (self : Database) (a : Appointment) :
  keeps_id kwargs = true ->
  get_appointment self j = Some a ->
  let after := update_appointment env j kwargs self in
  get_appointment after.1 j = Some (dict_update a kwargs)
  /\ (forall k, k ≠ j -> get_appointment after.1 k = get_appointment self k)
  /\ (writable env = true -> after.2 = Ok true).
Proof.
  intros Hkw Hf after. unfold after, get_appointment in *.
  destruct (update_first_found _ _ kwargs _ Hf) as (l1 & l2 & Hl & Hu).
  assert (appointments (data (update_appointment env j kwargs self).1)
          = l1 ++ dict_update a kwargs :: l2) as Hafter.
  { unfold update_appointment. rewrite Hu. run_store.
    by destruct (writable env). }
  rewrite Hafter. split; [|split].
  - rewrite (find_after_update_first _ _ _ _ j Hkw Hu).
    by rewrite bool_decide_true, Hf.
  - intros k Hk. rewrite (find_after_update_first _ _ _ _ k Hkw Hu).
    by rewrite bool_decide_false.
  - intros Hw. unfold update_appointment. rewrite Hu. run_store.
    by rewrite Hw.
Qed.

(** X24.  Create, then look up.  In a store whose ids are below [next_id], the
    id that [create_appointment] returns retrieves the record just
    created, active and with the given fields and the clock of the call,
    and every id that was stored before retrieves what it did. *)
Theorem create_then_get (env : Env) (user_id : Z)
    (patient_name doctor procedure date time : pystr) (self : Database) :
  well_formed self ->
  let after :=
    create_appointment env user_id patient_name doctor procedure date time
      self in
  get_appointment after.1 (Some (next_id (data self)))
  = Some (mkAppointment (next_id (data self)) user_id patient_name doctor
            procedure date time (now_isoformat env) active)
  /\ (writable env = true -> after.2 = Ok (next_id (data self)))
  /\ (forall k a,
        get_appointment self k = Some a ->
        get_appointment after.1 k = Some a).
Proof.
  intros Hwf after. split; [|split].
  - by apply create_appointment_found.
  - intros Hw. unfold after. by rewrite create_appointment_ok.
  - intros k a Hf. unfold after, get_appointment.
    rewrite <- (returning_fst VInt).
    change (returning VInt _ self)
      with (exec env (call_create_appointment user_id patient_name doctor
                        procedure date time) self).
    rewrite exec_appointments. by apply find_appointment_app.
Qed.

(** * The further properties at concrete inputs *)

Lemma ids_stay_sequential_witness :
  sequential
    (w_db (deliver_all [1] lower_basic command_basic demo_deliveries
             (fresh_world offline_env)))
  /\ map apt_id
       (appointments
          (data (w_db (deliver_all [1] lower_basic command_basic
                         demo_deliveries (fresh_world offline_env)))))
     = [1; 2].
Proof.
  split.
  - apply (ids_stay_sequential [1] lower_basic command_basic demo_deliveries
             (fresh_world offline_env)).
    apply fresh_world_sequential.
  - vm_compute. reflexivity.
Defined.

Lemma delete_appointment_twice_witness :
  data (delete_appointment offline_env 1
          (delete_appointment demo_env 1 demo_store).1).1
  = data (delete_appointment demo_env 1 demo_store).1
  /\ (delete_appointment demo_env 1
        (delete_appointment demo_env 1 demo_store).1).2 = Ok true.
Proof.
  split.
  - apply (delete_appointment_twice demo_env offline_env 1 demo_store
             (booked 1 5 surgeon (u "05.11.2026") (u "09:00") active)).
    vm_compute. reflexivity.
  - apply (delete_appointment_twice demo_env demo_env 1 demo_store
             (booked 1 5 surgeon (u "05.11.2026") (u "09:00") active));
      vm_compute; reflexivity.
Defined.

Lemma absent_id_changes_nothing_witness :
  update_appointment offline_env None [kw_doctor surgeon] demo_store
  = (demo_store, Ok false)
  /\ delete_appointment offline_env 99 demo_store = (demo_store, Ok false).
Proof.
  destruct absent_id_changes_nothing as (Hnone & Hupd & Hdel).
  split.
  - apply Hupd, Hnone.
  - apply Hdel. vm_compute. reflexivity.
Defined.

Lemma successful_write_synchronises_witness :
  let c :=
    call_create_appointment 7 (u "Ann Lee") surgeon (u "Консультация")
      (u "05.11.2026") (u "09:00") in
  let stale := (exec offline_env c demo_empty).1 in
  file stale ≠ Some (data stale)
  /\ file (exec demo_env (call_delete_appointment 1) stale).1
     = Some (data (exec demo_env (call_delete_appointment 1) stale).1).
Proof.
  intros c stale. split.
  - vm_compute. intros H. discriminate H.
  - apply (successful_write_synchronises demo_env
             (call_delete_appointment 1) stale).
    + reflexivity.
    + left. vm_compute. reflexivity.
Defined.

Lemma available_iff_not_listed_witness :
  is_appointment_available demo_store surgeon (u "05.11.2026") (u "10:00")
  = true.
Proof.
  apply (proj2 (available_iff_not_listed demo_store surgeon (u "05.11.2026")
                  (u "10:00"))).
  intros a Ha (_ & _ & Ht).
  replace (get_appointments demo_store None)
    with [booked 1 5 surgeon (u "05.11.2026") (u "09:00") active;
          booked 2 6 therapist (u "05.11.2026") (u "09:00") active] in Ha
    by (vm_compute; reflexivity).
  apply elem_of_cons in Ha as [->|Ha];
    [vm_compute in Ht; discriminate Ht|].
  apply elem_of_cons in Ha as [->|Ha];
    [vm_compute in Ht; discriminate Ht|].
  by apply elem_of_nil in Ha.
Defined.

Lemma owner_listing_is_part_of_full_listing_witness :
  get_appointments demo_store (Some 5)
  = List.filter (fun a => bool_decide (apt_user_id a = 5))
      (get_appointments demo_store None).
Proof.
  apply (owner_listing_is_part_of_full_listing demo_store 5). lia.
Defined.

Lemma registered_user_never_changes_witness :
  let first := (add_user demo_env 7 (Some (u "ann")) (u "Ann") demo_empty).1 in
  users (data (run_calls demo_calls first)) !! str_of_int 7
  = Some {| usr_username := Some (u "ann");
            usr_first_name := u "Ann";
            usr_registered_at := u "2026-11-04T08:00:00" |}.
Proof.
  intros first.
  apply (registered_user_never_changes demo_calls first).
  vm_compute. reflexivity.
Defined.

Lemma edit_states_stay_with_admins_witness :
  editing
    (context_of
       (deliver_all [1] lower_basic command_basic demo_deliveries
          (fresh_world demo_env)) 8)
  = false.
Proof.
  apply (edit_states_stay_with_admins [1] lower_basic command_basic
           demo_deliveries (fresh_world demo_env)).
  - apply fresh_world_no_edit_state.
  - vm_compute. reflexivity.
Defined.

Lemma members_change_only_status_witness :
  let a := booked 2 6 therapist (u "05.11.2026") (u "09:00") active in
  let after :=
    deliver_all [1] lower_basic command_basic demo_deliveries demo_world in
  get_appointment (w_db after) (Some 2) = Some a
  \/ get_appointment (w_db after) (Some 2) = Some (mark_deleted a).
Proof.
  intros a after.
  apply (members_change_only_status [1] lower_basic command_basic
           demo_deliveries demo_world 2 a).
  - intros user_id _. reflexivity.
  - unfold demo_deliveries, demo_pass, booking_pass.
    repeat (apply Forall_cons; split; [vm_compute; reflexivity|]).
    apply Forall_nil_2.
  - vm_compute. reflexivity.
Defined.

Lemma admin_updates_denied_to_members_witness :
  dispatch [1] demo_env lower_basic command_basic 739924 8
    (Callback_delete_appointment 1)
    (demo_bot cleared)
  = (denied (demo_bot cleared), Returns true).
Proof.
  apply (admin_updates_denied_to_members [1] demo_env lower_basic
           command_basic 739924 8
           (Callback_delete_appointment 1) (demo_bot cleared));
    vm_compute; reflexivity.
Defined.

Lemma cancel_discards_the_form_witness :
  let filled :=
    {| fsm_state := Some (Booking AppointmentStates.waiting_for_confirmation);
       fsm_data := mkStateData (Some (u "Ann Lee")) (Some surgeon)
                     (Some (u "Консультация")) (Some (u "05.11.2026"))
                     (Some (u "10:00")) None |} in
  let after :=
    (dispatch [1] demo_env lower_basic command_basic 739924 7 Callback_cancel
       (demo_bot filled)).1 in
  dispatch [1] demo_env lower_basic command_basic 739924 7 Callback_confirm
    after
  = (after, Returns false).
Proof.
  intros filled after.
  apply (cancel_discards_the_form [1] demo_env lower_basic command_basic
           739924 7 (demo_bot filled)).
  reflexivity.
Defined.


Lemma edit_of_missing_appointment_witness :
  let bot :=
    demo_bot
      {| fsm_state := Some (Editing EditStates.waiting_for_new_doctor);
         fsm_data := mkStateData None None None None None (Some 99) |} in
  process_callback_select_new_doctor offline_env surgeon bot
  = ({| db := db bot; state := cleared;
        sent := sent bot ++
          [message_edit_text (u "❌ Не удалось обновить врача.") None;
           callback_answer None] |}, Ok tt).
Proof.
  intros bot.
  destruct (edit_of_missing_appointment offline_env surgeon bot) as (H & _).
  { vm_compute. reflexivity. }
  exact H.
Defined.

Lemma rename_length_gate_witness :
  let bot :=
    demo_bot
      {| fsm_state := Some (Editing EditStates.waiting_for_new_patient_name);
         fsm_data := mkStateData None None None None None (Some 1) |} in
  process_new_patient_name demo_env (Some (u " Я ")) bot
  = ({| db := db bot; state := state bot;
        sent := sent bot ++
          [message_answer (u "❌ Некорректное имя. Попробуйте снова:")
             None] |}, Ok tt)
  /\ apt_patient_name
       <$> get_appointment
             (db (process_new_patient_name demo_env (Some (u " Ян ")) bot).1)
             (Some 1)
     = Some (u "Ян").
Proof.
  intros bot. split.
  - apply (proj1 (rename_length_gate demo_env (u " Я ") bot)).
    left. vm_compute. reflexivity.
  - destruct (proj2 (rename_length_gate demo_env (u " Ян ") bot))
      as [_ Hok].
    { vm_compute. split; discriminate. }
    destruct (Hok (booked 1 5 surgeon (u "05.11.2026") (u "09:00") active))
      as (_ & Hget & _).
    { vm_compute. reflexivity. }
    { reflexivity. }
    etrans; [exact (f_equal (fmap apt_patient_name) Hget)|].
    vm_compute. reflexivity.
Defined.

Lemma view_ignores_owner_and_status_witness :
  let bot :=
    {| db := (delete_appointment demo_env 1 demo_store).1;
       state := cleared; sent := [] |} in
  process_callback_view_appointment [1] 99 1 bot
  = ({| db := db bot; state := state bot;
        sent := sent bot ++
          [message_edit_text
             (format_appointment
                (booked 1 5 surgeon (u "05.11.2026") (u "09:00") deleted)
                false)
             (Some (get_appointment_actions_keyboard 1 (is_admin_id [1] 99)));
           callback_answer None] |}, Ok tt).
Proof.
  intros bot.
  apply (proj1 (view_ignores_owner_and_status [1] 99 1 bot)).
  vm_compute. reflexivity.
Defined.

Lemma my_appointments_lists_own_active_witness :
  map callback_data
    (choices (get_appointments_keyboard (own_active demo_store 5) false))
  = map (fun a => u "view_appointment:" ++ str_of_int (apt_id a))
      (own_active demo_store 5)
  /\ db (process_callback_my_appointments [1] 5 (demo_bot cleared)).1
     = demo_store.
Proof.
  destruct (my_appointments_lists_own_active [1] 5 (demo_bot cleared))
    as (_ & Hdb & _ & _ & _ & Hbuttons).
  { lia. }
  split; [exact Hbuttons | exact Hdb].
Defined.

Lemma start_registers_once_witness :
  let bot := {| db := demo_empty; state := cleared; sent := [] |} in
  let after := cmd_start [1] offline_env 7 (Some (u "ann")) (u "Ann") bot in
  after.2 = Raise OSError
  /\ sent after.1 = []
  /\ cmd_start [1] demo_env 7 None (u "Anna") after.1
     = ({| db := db after.1; state := cleared;
           sent := [] ++ [welcome [1] 7 (u "Anna")] |}, Ok tt).
Proof.
  intros bot after.
  destruct (start_registers_once [1] offline_env 7 (Some (u "ann")) (u "Ann")
              bot) as (_ & _ & Hnew).
  destruct Hnew as (_ & _ & Hfail).
  { vm_compute. reflexivity. }
  destruct Hfail as (Hr & Hs & Hagain).
  { reflexivity. }
  split; [exact Hr|]. split; [exact Hs|].
  exact (Hagain demo_env None (u "Anna")).
Defined.

Lemma booking_pass_commits_the_form_witness :
  let after :=
    deliver_all [1] lower_basic command_basic
      (demo_pass 7 (u " Ann Lee ") surgeon (u "10:00")) demo_world in
  appointments (data (w_db after))
  = appointments (data demo_store)
    ++ [new_appointment demo_env demo_store 7 (strip (u " Ann Lee ")) surgeon
          (u "Консультация") (u "05.11.2026") (u "10:00")]
  /\ context_of after 7 = cleared.
Proof.
  intros after.
  destruct (booking_pass_commits_the_form [1] lower_basic command_basic
              (fun _ => demo_env) (fun _ => 739924) 7 None (u " Ann Lee ")
              (u " Ann Lee ") surgeon (u "Консультация") (u "05.11.2026")
              (u "10:00") demo_world)
    as (_ & Hl & Hc).
  - vm_compute. reflexivity.
  - vm_compute. split; discriminate.
  - vm_compute. discriminate.
  - vm_compute. reflexivity.
  - reflexivity.
  - split; [exact Hl | exact Hc].
Defined.

Lemma selections_round_trip_witness :
  Forall (fun b =>
            startswith (callback_data b) (u "select_procedure:") = true
            /\ after_colon (callback_data b) = Some (text b))
    (choices
       (procedure_buttons (u "select_procedure:")
          [u "Консультация"; u "Малая операция"; u "Перевязка"]
        ++ [[mkButton (u "◀️ Назад") (u "select_doctor")]])).
Proof.
  apply (proj1 (proj2 (proj2 (selections_round_trip lower_basic 739924
                                surgeon)))).
  vm_compute. reflexivity.
Defined.

Lemma procedures_keyboard_has_choices_witness :
  exists kb,
    get_procedures_keyboard lower_basic (u "Педиатр Орлова") = Some kb
    /\ map text (choices kb) = [u "Консультация"].
Proof.
  destruct (get_procedures_keyboard lower_basic (u "Педиатр Орлова"))
    as [kb|] eqn:Hkb; [|vm_compute in Hkb; discriminate Hkb].
  exists kb. split; [reflexivity|].
  destruct (proj2 (procedures_keyboard_has_choices lower_basic
                     (u "Педиатр Орлова")) kb (u "Педиатр") Hkb)
    as (_ & _ & _ & Hdefault).
  { vm_compute. reflexivity. }
  apply Hdefault. vm_compute.
  intros Hin.
  repeat (apply elem_of_cons in Hin as [Hin|Hin]; [discriminate Hin|]).
  by apply elem_of_nil in Hin.
Defined.

Lemma wizard_back_buttons_reach_no_handler_witness :
  exists b,
    last (procedure_buttons (u "select_procedure:")
            [u "Консультация"; u "Малая операция"; u "Перевязка"]
          ++ [[mkButton (u "◀️ Назад") (u "select_doctor")]]) = Some [b]
    /\ accepted (callback_data b) = false.
Proof.
  apply (proj1 (wizard_back_buttons_reach_no_handler lower_basic 739924
                  surgeon)).
  vm_compute. reflexivity.
Defined.

Lemma failed_confirm_repeats_the_booking_witness :
  let form :=
    {| fsm_state := Some (Booking AppointmentStates.waiting_for_confirmation);
       fsm_data := mkStateData (Some (u "Ann Lee")) (Some surgeon)
                     (Some (u "Консультация")) (Some (u "05.11.2026"))
                     (Some (u "10:00")) None |} in
  let first :=
    on_confirm [1] offline_env 7
      {| db := demo_store; state := form; sent := [] |} in
  let second := on_confirm [1] demo_env 7 first.1 in
  first.2 = Raise OSError
  /\ second.2 = Ok true
  /\ map apt_id (appointments (data (db second.1))) = [1; 2; 3; 4].
Proof.
  intros form first second.
  destruct (failed_confirm_repeats_the_booking [1] offline_env demo_env 7
              (u "Ann Lee") surgeon (u "Консультация") (u "05.11.2026")
              (u "10:00") None demo_store [] eq_refl eq_refl)
    as (H1 & _ & _ & H2 & _ & Hl & _).
  split; [exact H1|]. split; [exact H2|].
  etrans; [exact (f_equal (map apt_id) Hl)|]. vm_compute. reflexivity.
Defined.

Lemma update_then_get_witness :
  let after :=
    update_appointment demo_env (Some 2)
      [kw_doctor surgeon; kw_time (u "11:00")] demo_store in
  get_appointment after.1 (Some 2)
  = Some (dict_update
            (booked 2 6 therapist (u "05.11.2026") (u "09:00") active)
            [kw_doctor surgeon; kw_time (u "11:00")])
  /\ get_appointment after.1 (Some 1) = get_appointment demo_store (Some 1).
Proof.
  intros after.
  destruct (update_then_get demo_env (Some 2)
              [kw_doctor surgeon; kw_time (u "11:00")] demo_store
              (booked 2 6 therapist (u "05.11.2026") (u "09:00") active))
    as (Hget & Hother & _).
  { reflexivity. }
  { vm_compute. reflexivity. }
  split; [exact Hget|]. apply Hother. discriminate.
Defined.

Lemma create_then_get_witness :
  get_appointment
    (create_appointment offline_env 7 (u "Ann Lee") surgeon (u "Консультация")
       (u "05.11.2026") (u "10:00") demo_store).1 (Some 3)
  = Some (mkAppointment 3 7 (u "Ann Lee") surgeon (u "Консультация")
            (u "05.11.2026") (u "10:00") (u "2026-11-04T08:00:00") active).
Proof.
  destruct (create_then_get offline_env 7 (u "Ann Lee") surgeon
              (u "Консультация") (u "05.11.2026") (u "10:00") demo_store
              demo_store_well_formed) as (Hget & _).
  exact Hget.
Defined.
